(** * synched_drive: a shallow embedding of the directory synchroniser

    The development follows the Python sources of [dir_sync]:
    - [file_sync.py]  : signature store, delta codec ([FileSync])
    - [node.py]       : framed channel and peer session ([Node])
    - [node_manager.py] : peer registry ([NodeManager])
    - [event_handler.py] : filesystem watcher ([ChangeHandler])

    Python objects are modelled by inductive types, [bytes] by [list byte],
    [str] by [string], dictionaries by [gmap], exceptions by a [result]
    type, and the filesystem, the echo-guard table and the peers by explicit
    state.

    Conventions:
    - what the operating system decides (clock readings, the name of a
      temporary file, the failure of a system call, the cutting of a TCP
      stream into [recv] results) is an input of the function that meets it;
    - the libraries outside the repository (zlib, json, pyrsync2, os.path)
      and the platform's [struct] layout are variables of the section
      [SynchedDrive], with the properties the proofs use as hypotheses;
      [base64] and [struct] are modelled in full;
    - a method that runs under a lock, and the handling of one message or
      one event, is one step;
    - directories are implicit in the paths ([os.makedirs] changes nothing),
      and the log keeps warnings and errors only. The signature store is a
      map keyed by the relative path: [<signatures_dir>/<rel>.sig] of one
      path is taken not to lie on the way to that of another, which holds
      when no directory of the monitored tree is named [*.sig]
      ([signature_paths_apart]); the theorems that say a signature is
      saved for every file of a tree carry that condition. The CREATE and
      MODIFY branch of [handle_modification_update] calls no [os.makedirs]:
      what is proved of a file it writes is proved of a file whose
      directory exists;
    - [send_message] is the call on a socket that takes the bytes. When
      [sendall] raises, the method calls [close_connection] under the lock
      it holds and does not return: [send_message_on] and
      [broadcast_update_on] say so; the transition system is that of a
      program whose sends succeed. *)

From Stdlib Require Import ZArith NArith QArith Bool List Lia.
From Stdlib.Strings Require Import Ascii String Byte.
From stdpp Require Import base option list gmap strings fin_maps.

Local Open Scope Z_scope.

(* ===================================================================== *)
(** ** Exceptions *)
(* ===================================================================== *)

(** The exception classes the modelled code can raise. *)
Inductive exn :=
| ValueError
| TypeError
| KeyError
| StructError          (* struct.error *)
| ZlibError            (* zlib.error *)
| BinasciiError        (* binascii.Error *)
| JSONDecodeError
| FileNotFoundError
| OSError
| ConnectionError.

Inductive result (A : Type) :=
| Ok (a : A)
| Raise (e : exn).
Arguments Ok {A} a.
Arguments Raise {A} e.

Definition rbind {A B} (r : result A) (k : A -> result B) : result B :=
  match r with
  | Ok a => k a
  | Raise e => Raise e
  end.

Notation "'let!' x ':=' r 'in' k" := (rbind r (fun x => k))
  (at level 10, x name, r at level 100, k at level 200, only parsing).

(** [for item in l: acc.append(f item)] where [f] may raise. *)
Fixpoint map_result {A B} (f : A -> result B) (l : list A) : result (list B) :=
  match l with
  | [] => Ok []
  | x :: l' => let! y := f x in let! ys := map_result f l' in Ok (y :: ys)
  end.

Lemma map_result_ok {A B} (f : A -> result B) (g : A -> B) (l : list A) :
  (forall x, In x l -> f x = Ok (g x)) -> map_result f l = Ok (map g l).
Proof.
  induction l as [|x l IH]; intros H; simpl; [reflexivity|].
  rewrite (H x (or_introl eq_refl)). simpl.
  rewrite IH; [reflexivity|]. intros y Hy. apply H. now right.
Qed.

Lemma map_result_raise {A B} (f : A -> result B) (l : list A) x e :
  In x l -> f x = Raise e -> exists e', map_result f l = Raise e'.
Proof.
  induction l as [|y l IH]; intros Hin Hx; [destruct Hin|].
  simpl. destruct Hin as [->|Hin].
  - rewrite Hx. simpl. eauto.
  - destruct (f y); simpl; [|eauto].
    destruct (IH Hin Hx) as [e' ->]. simpl. eauto.
Qed.

(* ===================================================================== *)
(** ** Bytes *)
(* ===================================================================== *)

Abbreviation bytes := (list byte).

(** The bytes of a string of one-byte characters: [s.encode('latin-1')],
    which is [s.encode('utf-8')] on ASCII text. *)
Definition text (s : string) : bytes := map byte_of_ascii (list_ascii_of_string s).

(** The byte holding the low eight bits of [n] (a C [unsigned char] store). *)
Definition byte_of_N (n : N) : byte :=
  match Byte.of_N (n mod 256)%N with
  | Some b => b
  | None => x00
  end.

Lemma byte_of_to_N (b : byte) : byte_of_N (Byte.to_N b) = b.
Proof.
  unfold byte_of_N.
  rewrite N.mod_small.
  - now rewrite Byte.of_to_N.
  - pose proof (Byte.to_N_bounded b). lia.
Qed.

Lemma to_N_byte_of_N (n : N) : (n < 256)%N -> Byte.to_N (byte_of_N n) = n.
Proof.
  intros Hn. unfold byte_of_N. rewrite N.mod_small by exact Hn.
  destruct (Byte.of_N n) as [b|] eqn:E.
  - now apply Byte.to_of_N.
  - apply Byte.of_N_None_iff in E. lia.
Qed.

Definition all_bytes : list byte := map (fun n => byte_of_N (N.of_nat n)) (seq 0 256).

Lemma in_all_bytes (b : byte) : In b all_bytes.
Proof.
  unfold all_bytes. apply in_map_iff.
  exists (N.to_nat (Byte.to_N b)). split.
  - rewrite N2Nat.id. apply byte_of_to_N.
  - apply in_seq. pose proof (Byte.to_N_bounded b). lia.
Qed.

(** Exhaustive check of a boolean property of one or two bytes. *)
Lemma forall_byte (P : byte -> bool) :
  forallb P all_bytes = true -> forall b, P b = true.
Proof.
  intros H b. rewrite forallb_forall in H. apply H, in_all_bytes.
Qed.

Lemma forall_byte2 (P : byte -> byte -> bool) :
  forallb (fun a => forallb (P a) all_bytes) all_bytes = true ->
  forall a b, P a b = true.
Proof.
  intros H a b.
  apply (forall_byte (P a)). revert a. apply forall_byte. exact H.
Qed.

(* ===================================================================== *)
(** ** base64 (the CPython library functions the codec calls) *)
(* ===================================================================== *)

Module Base64.

Local Open Scope N_scope.

(** [table_b2a_base64]. *)
Definition alphabet : string :=
  "ABCDEFGHIJKLMNOPQRSTUVWXYZabcdefghijklmnopqrstuvwxyz0123456789+/".

Definition BASE64_PAD : ascii := "="%char.

Definition b2a (v : N) : ascii :=
  match String.get (N.to_nat v) alphabet with
  | Some c => c
  | None => BASE64_PAD
  end.

Fixpoint index_from (i : N) (c : ascii) (s : string) : option N :=
  match s with
  | EmptyString => None
  | String d s' => if Ascii.eqb c d then Some i else index_from (i + 1) c s'
  end.

(** [table_a2b_base64]: the value of a character of the alphabet. *)
Definition a2b (c : ascii) : option N := index_from 0 c alphabet.

(** The four 6-bit groups of a 3-byte unit. *)
Definition sextet0 (a : byte) : N := N.shiftr (Byte.to_N a) 2.
Definition sextet1 (a b : byte) : N :=
  N.lor (N.shiftl (N.land (Byte.to_N a) 3) 4) (N.shiftr (Byte.to_N b) 4).
Definition sextet2 (b c : byte) : N :=
  N.lor (N.shiftl (N.land (Byte.to_N b) 15) 2) (N.shiftr (Byte.to_N c) 6).
Definition sextet3 (c : byte) : N := N.land (Byte.to_N c) 63.

(** [base64.b64encode(b).decode('ascii')]: three bytes give four characters;
    a last unit of one or two bytes is padded with [=]. *)
Fixpoint b64encode (bs : bytes) : string :=
  match bs with
  | [] => EmptyString
  | [a] =>
      String (b2a (sextet0 a)) (String (b2a (sextet1 a x00))
        (String BASE64_PAD (String BASE64_PAD EmptyString)))
  | [a; b] =>
      String (b2a (sextet0 a)) (String (b2a (sextet1 a b))
        (String (b2a (sextet2 b x00)) (String BASE64_PAD EmptyString)))
  | a :: b :: c :: rest =>
      String (b2a (sextet0 a)) (String (b2a (sextet1 a b))
        (String (b2a (sextet2 b c)) (String (b2a (sextet3 c)) (b64encode rest))))
  end.

(** The decoder state of [binascii.a2b_base64]. *)
Record a2b_state := {
  quad_pos : N;
  leftchar : N;
  pads : N;
  bin_data : bytes
}.

Definition a2b_init : a2b_state :=
  {| quad_pos := 0; leftchar := 0; pads := 0; bin_data := [] |}.

(** One alphabet character of value [v]: the [switch (quad_pos)]. *)
Definition feed (st : a2b_state) (v : N) : a2b_state :=
  match quad_pos st with
  | 0 => {| quad_pos := 1; leftchar := v; pads := 0; bin_data := bin_data st |}
  | 1 => {| quad_pos := 2; leftchar := N.land v 15; pads := 0;
            bin_data := bin_data st ++
              [byte_of_N (N.lor (N.shiftl (leftchar st) 2) (N.shiftr v 4))] |}
  | 2 => {| quad_pos := 3; leftchar := N.land v 3; pads := 0;
            bin_data := bin_data st ++
              [byte_of_N (N.lor (N.shiftl (leftchar st) 4) (N.shiftr v 2))] |}
  | _ => {| quad_pos := 0; leftchar := 0; pads := 0;
            bin_data := bin_data st ++
              [byte_of_N (N.lor (N.shiftl (leftchar st) 6) v)] |}
  end.

(** [binascii.a2b_base64(data)] in its default, non-strict mode: characters
    outside the alphabet are skipped, a pad that completes a quad ends the
    decoding, and an incomplete quad at the end is an error. *)
Fixpoint a2b_loop (st : a2b_state) (s : string) : result bytes :=
  match s with
  | EmptyString =>
      if quad_pos st =? 0 then Ok (bin_data st) else Raise BinasciiError
  | String ch s' =>
      if Ascii.eqb ch BASE64_PAD then
        if 2 <=? quad_pos st then
          if 4 <=? quad_pos st + (pads st + 1) then Ok (bin_data st)
          else a2b_loop {| quad_pos := quad_pos st; leftchar := leftchar st;
                           pads := pads st + 1; bin_data := bin_data st |} s'
        else a2b_loop st s'
      else
        match a2b ch with
        | None => a2b_loop st s'
        | Some v => a2b_loop (feed st v) s'
        end
  end.

Definition a2b_base64 (s : string) : result bytes := a2b_loop a2b_init s.

Fixpoint is_ascii_str (s : string) : bool :=
  match s with
  | EmptyString => true
  | String c s' => (N_of_ascii c <? 128) && is_ascii_str s'
  end.

(** [base64.b64decode(s)] for a [str] argument: the string is first encoded
    to ASCII ([ValueError] otherwise), then decoded. *)
Definition b64decode (s : string) : result bytes :=
  if is_ascii_str s then a2b_base64 s else Raise ValueError.

Example b64encode_hello : b64encode (text "hello") = "aGVsbG8="%string.
Proof. reflexivity. Qed.

Example b64decode_hello : b64decode "aGVsbG8=" = Ok (text "hello").
Proof. reflexivity. Qed.

Example b64decode_incorrect_padding : b64decode "aGk" = Raise BinasciiError.
Proof. reflexivity. Qed.

(** *** Round trip of the base64 codec *)

Lemma a2b_b2a_check :
  forallb (fun n => match a2b (b2a (N.of_nat n)) with
                    | Some v => (v =? N.of_nat n) && negb (Ascii.eqb (b2a (N.of_nat n)) BASE64_PAD)
                                && (N_of_ascii (b2a (N.of_nat n)) <? 128)
                    | None => false
                    end) (seq 0 64) = true.
Proof. vm_compute. reflexivity. Qed.

Lemma a2b_b2a (v : N) :
  v < 64 ->
  a2b (b2a v) = Some v /\ Ascii.eqb (b2a v) BASE64_PAD = false
  /\ (N_of_ascii (b2a v) <? 128) = true.
Proof.
  intros Hv. pose proof a2b_b2a_check as H.
  rewrite forallb_forall in H.
  specialize (H (N.to_nat v)). rewrite N2Nat.id in H.
  assert (Hin : In (N.to_nat v) (seq 0 64)) by (apply in_seq; lia).
  specialize (H Hin). destruct (a2b (b2a v)) as [w|]; [|discriminate].
  apply andb_prop in H as [H H3]. apply andb_prop in H as [H1 H2].
  apply N.eqb_eq in H1. subst w.
  split; [reflexivity|]. split; [|exact H3].
  now destruct (Ascii.eqb (b2a v) BASE64_PAD).
Qed.

(** Feeding the character of a 6-bit value advances the decoder by [feed]. *)
Lemma a2b_loop_b2a (st : a2b_state) (v : N) (s : string) :
  v < 64 -> a2b_loop st (String (b2a v) s) = a2b_loop (feed st v) s.
Proof.
  intros Hv. destruct (a2b_b2a v Hv) as (Ha & Hp & _).
  simpl. rewrite Hp, Ha. reflexivity.
Qed.

Lemma sextet0_lt a : sextet0 a < 64.
Proof.
  apply N.ltb_lt. revert a.
  apply (forall_byte (fun a => sextet0 a <? 64)). vm_compute. reflexivity.
Qed.

Lemma sextet1_lt a b : sextet1 a b < 64.
Proof.
  apply N.ltb_lt. revert a b.
  apply (forall_byte2 (fun a b => sextet1 a b <? 64)). vm_compute. reflexivity.
Qed.

Lemma sextet2_lt b c : sextet2 b c < 64.
Proof.
  apply N.ltb_lt. revert b c.
  apply (forall_byte2 (fun b c => sextet2 b c <? 64)). vm_compute. reflexivity.
Qed.

Lemma sextet3_lt c : sextet3 c < 64.
Proof.
  apply N.ltb_lt. revert c.
  apply (forall_byte (fun c => sextet3 c <? 64)). vm_compute. reflexivity.
Qed.

(** The three bytes rebuilt by the decoder from the four 6-bit groups. *)
Lemma decode_byte0 a b :
  byte_of_N (N.lor (N.shiftl (sextet0 a) 2) (N.shiftr (sextet1 a b) 4)) = a.
Proof.
  apply Byte.byte_dec_bl. revert a b.
  apply (forall_byte2 (fun a b => Byte.eqb
    (byte_of_N (N.lor (N.shiftl (sextet0 a) 2) (N.shiftr (sextet1 a b) 4))) a)).
  vm_compute. reflexivity.
Qed.

Lemma sextet1_low a b : N.land (sextet1 a b) 15 = N.shiftr (Byte.to_N b) 4.
Proof.
  apply N.eqb_eq. revert a b.
  apply (forall_byte2 (fun a b => N.land (sextet1 a b) 15 =? N.shiftr (Byte.to_N b) 4)).
  vm_compute. reflexivity.
Qed.

Lemma sextet2_high b c : N.shiftr (sextet2 b c) 2 = N.land (Byte.to_N b) 15.
Proof.
  apply N.eqb_eq. revert b c.
  apply (forall_byte2 (fun b c => N.shiftr (sextet2 b c) 2 =? N.land (Byte.to_N b) 15)).
  vm_compute. reflexivity.
Qed.

Lemma sextet2_low b c : N.land (sextet2 b c) 3 = N.shiftr (Byte.to_N c) 6.
Proof.
  apply N.eqb_eq. revert b c.
  apply (forall_byte2 (fun b c => N.land (sextet2 b c) 3 =? N.shiftr (Byte.to_N c) 6)).
  vm_compute. reflexivity.
Qed.

Lemma decode_byte1 a b c :
  byte_of_N (N.lor (N.shiftl (N.land (sextet1 a b) 15) 4) (N.shiftr (sextet2 b c) 2)) = b.
Proof.
  rewrite sextet1_low, sextet2_high.
  apply Byte.byte_dec_bl. revert b.
  apply (forall_byte (fun b => Byte.eqb
    (byte_of_N (N.lor (N.shiftl (N.shiftr (Byte.to_N b) 4) 4) (N.land (Byte.to_N b) 15))) b)).
  vm_compute. reflexivity.
Qed.

Lemma decode_byte2 b c :
  byte_of_N (N.lor (N.shiftl (N.land (sextet2 b c) 3) 6) (sextet3 c)) = c.
Proof.
  rewrite sextet2_low.
  apply Byte.byte_dec_bl. revert c.
  apply (forall_byte (fun c => Byte.eqb
    (byte_of_N (N.lor (N.shiftl (N.shiftr (Byte.to_N c) 6) 6) (sextet3 c))) c)).
  vm_compute. reflexivity.
Qed.

(** Induction on byte strings three bytes at a time. *)
Lemma bytes_ind3 (P : bytes -> Prop) :
  P [] -> (forall a, P [a]) -> (forall a b, P [a; b]) ->
  (forall a b c rest, P rest -> P (a :: b :: c :: rest)) ->
  forall bs, P bs.
Proof.
  intros H0 H1 H2 H3.
  fix IH 1. intros [|a [|b [|c rest]]].
  - exact H0.
  - apply H1.
  - apply H2.
  - apply H3, IH.
Qed.

Lemma a2b_loop_b64encode (bs out : bytes) :
  a2b_loop {| quad_pos := 0; leftchar := 0; pads := 0; bin_data := out |}
           (b64encode bs) = Ok (out ++ bs).
Proof.
  revert out. induction bs as [|a|a b|a b c rest IH] using bytes_ind3; intros out.
  - simpl. now rewrite app_nil_r.
  - cbn [b64encode].
    rewrite a2b_loop_b2a by apply sextet0_lt.
    rewrite a2b_loop_b2a by apply sextet1_lt.
    cbn. now rewrite decode_byte0.
  - cbn [b64encode].
    rewrite a2b_loop_b2a by apply sextet0_lt.
    rewrite a2b_loop_b2a by apply sextet1_lt.
    rewrite a2b_loop_b2a by apply sextet2_lt.
    cbn. rewrite decode_byte0, decode_byte1, <- app_assoc. reflexivity.
  - cbn [b64encode].
    rewrite a2b_loop_b2a by apply sextet0_lt.
    rewrite a2b_loop_b2a by apply sextet1_lt.
    rewrite a2b_loop_b2a by apply sextet2_lt.
    rewrite a2b_loop_b2a by apply sextet3_lt.
    cbn [feed quad_pos leftchar bin_data pads].
    rewrite decode_byte0, decode_byte1, decode_byte2, IH.
    rewrite <- !app_assoc. reflexivity.
Qed.

Lemma is_ascii_b64encode (bs : bytes) : is_ascii_str (b64encode bs) = true.
Proof.
  assert (Hc : forall v, v < 64 -> (N_of_ascii (b2a v) <? 128) = true)
    by (intros v Hv; apply (a2b_b2a v Hv)).
  induction bs as [|a|a b|a b c rest IH] using bytes_ind3; cbn [b64encode is_ascii_str].
  - reflexivity.
  - rewrite (Hc _ (sextet0_lt a)), (Hc _ (sextet1_lt a x00)). reflexivity.
  - rewrite (Hc _ (sextet0_lt a)), (Hc _ (sextet1_lt a b)), (Hc _ (sextet2_lt b x00)).
    reflexivity.
  - rewrite (Hc _ (sextet0_lt a)), (Hc _ (sextet1_lt a b)), (Hc _ (sextet2_lt b c)),
      (Hc _ (sextet3_lt c)), IH. reflexivity.
Qed.

(** [base64.b64decode(base64.b64encode(b).decode('ascii')) == b]. *)
Lemma b64decode_b64encode (bs : bytes) : b64decode (b64encode bs) = Ok bs.
Proof.
  unfold b64decode, a2b_base64, a2b_init.
  rewrite is_ascii_b64encode. apply a2b_loop_b64encode.
Qed.

End Base64.

(* ===================================================================== *)
(** ** Python values *)
(* ===================================================================== *)

(** The values that occur as elements of a delta, in memory or once parsed
    from JSON. *)
#[warnings="-register-all"]
Inductive pyobj :=
| PyNone
| PyBool (b : bool)
| PyInt (z : Z)
| PyFloat (q : Q)
| PyStr (s : string)
| PyBytes (b : bytes)
| PyList (l : list pyobj).

(** [isinstance(item, int)]: [bool] is a subclass of [int]. *)
Definition isinstance_int (o : pyobj) : bool :=
  match o with PyInt _ | PyBool _ => true | _ => false end.

Definition isinstance_bytes (o : pyobj) : bool :=
  match o with PyBytes _ => true | _ => false end.

Definition isinstance_str (o : pyobj) : bool :=
  match o with PyStr _ => true | _ => false end.

(* ===================================================================== *)
(** ** file_sync.py: the delta codec *)
(* ===================================================================== *)

Module FileSyncCodec.

(** The loop body of [FileSync.serialize_delta_data]. *)
Definition serialize_item (item : pyobj) : result pyobj :=
  if isinstance_int item then Ok item
  else match item with
       | PyBytes b => Ok (PyStr (Base64.b64encode b))
       | _ => Raise ValueError
       end.

(** [FileSync.serialize_delta_data]. *)
Definition serialize_delta_data (delta_data : list pyobj) : result (list pyobj) :=
  map_result serialize_item delta_data.

(** The loop body of [FileSync.deserialize_delta_data]. *)
Definition deserialize_item (item : pyobj) : result pyobj :=
  if isinstance_int item then Ok item
  else match item with
       | PyStr s => let! b := Base64.b64decode s in Ok (PyBytes b)
       | _ => Raise ValueError
       end.

(** [FileSync.deserialize_delta_data]. *)
Definition deserialize_delta_data (serialized_data : list pyobj) : result (list pyobj) :=
  map_result deserialize_item serialized_data.

(** A delta element as the rsync codec produces it: an integer or a byte
    chunk. *)
Definition is_delta_item (o : pyobj) : bool := isinstance_int o || isinstance_bytes o.

(** An element the deserialiser accepts by type: an integer or a string. *)
Definition is_wire_item (o : pyobj) : bool := isinstance_int o || isinstance_str o.

Lemma deserialize_serialize_item (item : pyobj) :
  is_delta_item item = true ->
  exists w, serialize_item item = Ok w /\ deserialize_item w = Ok item.
Proof.
  unfold is_delta_item, serialize_item, deserialize_item.
  destruct item; simpl; try discriminate; intros _.
  - eexists; split; reflexivity.
  - eexists; split; reflexivity.
  - eexists; split; [reflexivity|]. simpl.
    rewrite Base64.b64decode_b64encode. reflexivity.
Qed.

Lemma serialize_item_error (item : pyobj) :
  is_delta_item item = false -> serialize_item item = Raise ValueError.
Proof. destruct item; simpl; (discriminate || reflexivity). Qed.

Lemma serialize_item_raises (item : pyobj) e :
  serialize_item item = Raise e -> e = ValueError.
Proof.
  unfold serialize_item. destruct item; simpl; congruence.
Qed.

Lemma deserialize_item_error (item : pyobj) :
  is_wire_item item = false -> deserialize_item item = Raise ValueError.
Proof. destruct item; simpl; (discriminate || reflexivity). Qed.

Lemma serialize_delta_data_ok (D : list pyobj) :
  Forall (fun o => is_delta_item o = true) D ->
  exists S, serialize_delta_data D = Ok S.
Proof.
  unfold serialize_delta_data. induction 1 as [|item D Hitem _ [S HS]].
  - exists []. reflexivity.
  - destruct (deserialize_serialize_item item Hitem) as (w & Hs & _).
    exists (w :: S). simpl. rewrite Hs, HS. reflexivity.
Qed.

(** C2: serialising a delta made of integers and byte chunks and then
    deserialising it gives the delta back; a delta with an element of any
    other type makes [serialize_delta_data] raise [ValueError]; and a
    serialised list with an element that is neither an integer nor a string
    makes [deserialize_delta_data] raise. *)
Theorem delta_codec_roundtrip (D : list pyobj) :
  (Forall (fun o => is_delta_item o = true) D ->
     exists S, serialize_delta_data D = Ok S /\ deserialize_delta_data S = Ok D)
  /\ (Exists (fun o => is_delta_item o = false) D ->
     serialize_delta_data D = Raise ValueError)
  /\ (Exists (fun o => is_wire_item o = false) D ->
     exists e, deserialize_delta_data D = Raise e).
Proof.
  unfold serialize_delta_data, deserialize_delta_data.
  split; [|split].
  - induction 1 as [|item D Hitem _ IH].
    + exists []. split; reflexivity.
    + destruct (deserialize_serialize_item item Hitem) as (w & Hs & Hd).
      destruct IH as (S & HS & HD).
      exists (w :: S). simpl. rewrite Hs, HS. simpl. rewrite Hd, HD. split; reflexivity.
  - induction 1 as [item D Hitem|item D _ IH]; simpl.
    + rewrite (serialize_item_error item Hitem). reflexivity.
    + destruct (serialize_item item) eqn:E; simpl.
      * rewrite IH. reflexivity.
      * now rewrite (serialize_item_raises _ _ E).
  - intros H. apply Exists_exists in H as (item & Hin & Hitem).
    eapply map_result_raise; [apply list_elem_of_In; exact Hin|].
    apply deserialize_item_error, Hitem.
Qed.

(** The round trip at the delta [[0; b"hi"; 3]], and the two errors at
    [[0; None]]. *)
Lemma delta_codec_roundtrip_witness :
  (exists S, serialize_delta_data [PyInt 0; PyBytes ["h"%byte; "i"%byte]; PyInt 3] = Ok S
             /\ deserialize_delta_data S = Ok [PyInt 0; PyBytes ["h"%byte; "i"%byte]; PyInt 3])
  /\ serialize_delta_data [PyInt 0; PyNone] = Raise ValueError
  /\ (exists e, deserialize_delta_data [PyInt 0; PyNone] = Raise e).
Proof.
  split; [|split].
  - apply (delta_codec_roundtrip [PyInt 0; PyBytes ["h"%byte; "i"%byte]; PyInt 3]).
    repeat constructor.
  - apply (delta_codec_roundtrip [PyInt 0; PyNone]).
    right. left. reflexivity.
  - apply (delta_codec_roundtrip [PyInt 0; PyNone]).
    right. left. reflexivity.
Defined.

End FileSyncCodec.

(* ===================================================================== *)
(** ** Fixed-width integers in bytes ([struct]) *)
(* ===================================================================== *)

(** The [k] low-order bytes of [n], least significant first. *)
Fixpoint le_bytes (k : nat) (n : N) : bytes :=
  match k with
  | O => []
  | S k' => byte_of_N n :: le_bytes k' (n / 256)%N
  end.

Fixpoint le_value (bs : bytes) : N :=
  match bs with
  | [] => 0%N
  | b :: bs' => (Byte.to_N b + 256 * le_value bs')%N
  end.

Lemma length_le_bytes (k : nat) (n : N) : length (le_bytes k n) = k.
Proof. revert n. induction k as [|k IH]; intros n; simpl; [|rewrite IH]; reflexivity. Qed.

Lemma le_value_le_bytes (k : nat) (n : N) :
  (n < 256 ^ N.of_nat k)%N -> le_value (le_bytes k n) = n.
Proof.
  revert n. induction k as [|k IH]; intros n Hn.
  - simpl in *. lia.
  - cbn [le_bytes le_value].
    assert (Hq : (n / 256 < 256 ^ N.of_nat k)%N).
    { apply N.Div0.div_lt_upper_bound.
      replace (N.of_nat (S k)) with (N.succ (N.of_nat k)) in Hn by lia.
      rewrite N.pow_succ_r' in Hn. exact Hn. }
    rewrite (IH _ Hq).
    unfold byte_of_N.
    destruct (Byte.of_N (n mod 256)) as [b|] eqn:E.
    + apply Byte.to_of_N in E. rewrite E.
      rewrite (N.div_mod n 256) at 3 by lia. lia.
    + apply Byte.of_N_None_iff in E.
      pose proof (N.mod_upper_bound n 256). lia.
Qed.

(** [struct.pack('>Q', n)]: eight bytes, most significant first. *)
Definition pack_Q_be (n : N) : result bytes :=
  if (n <? 2 ^ 64)%N then Ok (rev (le_bytes 8 n)) else Raise StructError.

Example pack_Q_be_61 :
  pack_Q_be 61 = Ok [x00; x00; x00; x00; x00; x00; x00; "="%byte].
Proof. reflexivity. Qed.

(** [struct.unpack('>Q', data)[0]]. *)
Definition unpack_Q_be (data : bytes) : result N :=
  if (length data =? 8)%nat then Ok (le_value (rev data)) else Raise StructError.

Lemma unpack_pack_Q_be (n : N) (data : bytes) :
  pack_Q_be n = Ok data -> length data = 8%nat /\ unpack_Q_be data = Ok n.
Proof.
  unfold pack_Q_be, unpack_Q_be.
  destruct (n <? 2 ^ 64)%N eqn:E; [|discriminate].
  intros H. replace data with (rev (le_bytes 8 n)) by congruence.
  apply N.ltb_lt in E.
  rewrite length_rev, length_le_bytes. split; [reflexivity|].
  simpl Nat.eqb. cbv iota. rewrite rev_involutive, le_value_le_bytes; [reflexivity|].
  exact E.
Qed.

(** Python slicing [data[i:j]]. *)
Definition slice {A} (data : list A) (i j : nat) : list A :=
  firstn (j - i) (skipn i data).

(** [range(0, stop, step)] for a positive [step]. *)
Definition range_step (stop step : nat) : list nat :=
  map (fun k => (k * step)%nat) (seq 0 ((stop + step - 1) / step)).

(* ===================================================================== *)
(** ** Messages and state *)
(* ===================================================================== *)

(** A block signature: the [(weak_checksum, strong_checksum)] tuples. *)
Abbreviation signature := (list (Z * bytes)).

(** One value of a directory manifest:
    [{'mtime': ..., 'size': ..., 'signature': ...}]. *)
Record manifest_entry := {
  me_mtime : Q;
  me_size : Z;
  me_signature : string
}.

(** One value of a [DELTA_TRANSFER] payload; a key the JSON object may lack
    is [None]. *)
Record file_info := {
  fi_delta : option (list pyobj);
  fi_mtime : option Q;
  fi_action : option string;
  fi_is_full_file : option bool
}.

(** A [MODIFICATION_UPDATE] payload. *)
Record update_payload := {
  up_file_path : string;
  up_action : option string;
  up_mtime : option Q;
  up_delta : option (list pyobj);
  up_dest_path : option string;
  up_is_full_file : option bool
}.

(** [{'type': ..., 'payload': ...}]. *)
Inductive message :=
| DIRECTORY_STATE (payload : gmap string manifest_entry)
| DELTA_TRANSFER (payload : gmap string file_info)
| MODIFICATION_UPDATE (payload : update_payload).

Definition is_modification_update (m : message) : bool :=
  match m with MODIFICATION_UPDATE _ => true | _ => false end.

(** A regular file of the monitored directory. *)
Record file := {
  f_data : bytes;
  f_mtime : Q          (* st_mtime, in seconds *)
}.

(** The levels kept in the log: [logging.warning] and [logging.error]. *)
Inductive log_level := WARNING | ERROR.

(** The three directories the program touches, the echo-guard table of the
    [NodeManager], and the log. Files of the monitored directory and
    signature files are keyed by the path relative to their root. *)
Record world := {
  monitored : gmap string file;       (* <monitored_directory>/<rel> *)
  signatures : gmap string bytes;     (* <signatures_dir>/<rel>.sig *)
  tmpdir : gmap string bytes;         (* files of tempfile.NamedTemporaryFile *)
  ignore_events : gmap string Z;      (* NodeManager.ignore_events *)
  log : list (log_level * string)     (* the text before any [{e}], newest last *)
}.

Definition set_monitored (m : gmap string file) (w : world) : world :=
  {| monitored := m; signatures := signatures w; tmpdir := tmpdir w;
     ignore_events := ignore_events w; log := log w |}.
Definition set_signatures (s : gmap string bytes) (w : world) : world :=
  {| monitored := monitored w; signatures := s; tmpdir := tmpdir w;
     ignore_events := ignore_events w; log := log w |}.
Definition set_tmpdir (t : gmap string bytes) (w : world) : world :=
  {| monitored := monitored w; signatures := signatures w; tmpdir := t;
     ignore_events := ignore_events w; log := log w |}.
Definition set_ignore_events (g : gmap string Z) (w : world) : world :=
  {| monitored := monitored w; signatures := signatures w; tmpdir := tmpdir w;
     ignore_events := g; log := log w |}.
Definition logging (lvl : log_level) (msg : string) (w : world) : world :=
  {| monitored := monitored w; signatures := signatures w; tmpdir := tmpdir w;
     ignore_events := ignore_events w; log := log w ++ [(lvl, msg)] |}.

Lemma set_tmpdir_same (w : world) : set_tmpdir (tmpdir w) w = w.
Proof. now destruct w. Qed.

Lemma set_tmpdir_twice (t1 t2 : gmap string bytes) (w : world) :
  set_tmpdir t1 (set_tmpdir t2 w) = set_tmpdir t1 w.
Proof. reflexivity. Qed.

(** Projections of the updated state. *)
Ltac world_simpl :=
  cbn [monitored signatures tmpdir ignore_events log
       set_monitored set_signatures set_tmpdir set_ignore_events logging] in *.

(** What the operating system supplies while one message or event is
    handled. *)
Record os_env := {
  time_ns : Z;             (* time.time_ns() *)
  tmp_name : string;       (* the name tempfile.NamedTemporaryFile picks *)
  mktemp_fails : bool;     (* creating the temporary file raises OSError *)
  replace_fails : bool     (* os.replace raises OSError *)
}.

(** A nanosecond clock reading in seconds. *)
Definition seconds_of_ns (t : Z) : Q := t # 1000000000.

(** A peer session ([Node]). The socket is reliable: [outbox] holds the
    messages handed to [send_message], oldest first. *)
Record node := {
  is_synchronized : bool;
  buffer : bytes;
  outbox : list message
}.

(** [Node.__init__]. *)
Definition Node_init : node :=
  {| is_synchronized := false; buffer := []; outbox := [] |}.

(** [Node.send_message], seen from the session's side; the bytes it writes
    to the socket are [frame_message] below. *)
Definition send_message (m : message) (n : node) : node :=
  {| is_synchronized := is_synchronized n; buffer := buffer n;
     outbox := outbox n ++ [m] |}.

Definition set_synchronized (n : node) : node :=
  {| is_synchronized := true; buffer := buffer n; outbox := outbox n |}.

(** How a call ends: it returns, or it waits for ever for a lock, in the
    state given. *)
Inductive outcome (A : Type) :=
| Returns (a : A)
| Blocks (a : A).
Arguments Returns {A} a.
Arguments Blocks {A} a.

(** [Node.send_message] with what [sendall] does. The method holds
    [self.lock], which is not reentrant; when [sendall] raises, the [except]
    branch logs the error and calls [close_connection], which sets
    [stop_event] and then waits for [self.lock]: the call does not return. *)
Definition send_message_on (sendall_raises : bool) (m : message) (n : node)
  : outcome node :=
  if sendall_raises then Blocks n else Returns (send_message m n).

(* ===================================================================== *)
(** ** The program *)
(* ===================================================================== *)

Section SynchedDrive.

(** *** The platform and the libraries outside the repository *)

(** [struct.calcsize("L")] and the native byte order: [SIGNATURE_PACK] is
    ["L16s"], packed in native mode. *)
Variable long_size : nat.
Variable big_endian : bool.

(** [zlib.compress] and [zlib.decompress]. *)
Variable zlib_compress : bytes -> bytes.
Variable zlib_decompress : bytes -> result bytes.
Hypothesis zlib_roundtrip : forall b, zlib_decompress (zlib_compress b) = Ok b.

(** *** file_sync.py: signatures *)

Definition native_bytes (k : nat) (n : N) : bytes :=
  if big_endian then rev (le_bytes k n) else le_bytes k n.

Definition native_value (bs : bytes) : N :=
  le_value (if big_endian then rev bs else bs).

(** [struct.calcsize(SIGNATURE_PACK)]: the 16 characters follow the long
    without padding. *)
Definition calcsize_SIGNATURE_PACK : nat := long_size + 16.

(** [struct.pack(SIGNATURE_PACK, weak_checksum, strong_checksum)]: the long
    must be in range; the string is cut or padded with null bytes to 16. *)
Definition pack_SIGNATURE_PACK (weak_checksum : Z) (strong_checksum : bytes) : result bytes :=
  if (0 <=? weak_checksum) && (weak_checksum <? 2 ^ (8 * Z.of_nat long_size)) then
    Ok (native_bytes long_size (Z.to_N weak_checksum)
        ++ firstn 16 (strong_checksum ++ repeat x00 16))
  else Raise StructError.

(** [struct.unpack(SIGNATURE_PACK, data)]. *)
Definition unpack_SIGNATURE_PACK (data : bytes) : result (Z * bytes) :=
  if (length data =? calcsize_SIGNATURE_PACK)%nat then
    Ok (Z.of_N (native_value (firstn long_size data)), skipn long_size data)
  else Raise StructError.

(** The loop of [FileSync.save_signature] that flattens the signature. *)
Fixpoint flatten_signature (sig : signature) : result bytes :=
  match sig with
  | [] => Ok []
  | (weak_checksum, strong_checksum) :: sig' =>
      let! packed := pack_SIGNATURE_PACK weak_checksum strong_checksum in
      let! rest := flatten_signature sig' in
      Ok (packed ++ rest)
  end.

(** [FileSync.save_signature]: returns the compressed bytes written to the
    signature file. *)
Definition save_signature (sig : signature) (relative_file_path : string) (w : world)
  : world * result bytes :=
  match flatten_signature sig with
  | Raise e => (w, Raise e)
  | Ok flattened_data =>
      let compressed_data := zlib_compress flattened_data in
      (set_signatures (<[relative_file_path := compressed_data]> (signatures w)) w,
       Ok compressed_data)
  end.

(** [FileSync.parse_signature]. *)
Definition parse_signature (signature_data : bytes) : result signature :=
  let! flattened_data := zlib_decompress signature_data in
  map_result
    (fun i => unpack_SIGNATURE_PACK
                (slice flattened_data i (i + calcsize_SIGNATURE_PACK)))
    (range_step (length flattened_data) calcsize_SIGNATURE_PACK).

(** [FileSync.load_signature]. *)
Definition load_signature (relative_file_path : string) (w : world)
  : result (option signature) :=
  match signatures w !! relative_file_path with
  | None => Ok None
  | Some compressed_data =>
      let! sig := parse_signature compressed_data in Ok (Some sig)
  end.

(** A record [struct.pack] takes as it is: the weak checksum fits the long,
    the strong checksum is 16 bytes. *)
Definition packable (rec : Z * bytes) : Prop :=
  0 <= rec.1 < 2 ^ (8 * Z.of_nat long_size) /\ length rec.2 = 16%nat.

Lemma native_value_bytes (k : nat) (n : N) :
  (n < 256 ^ N.of_nat k)%N -> native_value (native_bytes k n) = n.
Proof.
  intros Hn. unfold native_value, native_bytes.
  destruct big_endian; [rewrite rev_involutive|]; apply le_value_le_bytes, Hn.
Qed.

Lemma length_native_bytes (k : nat) (n : N) : length (native_bytes k n) = k.
Proof.
  unfold native_bytes. destruct big_endian;
    [rewrite length_rev|]; apply length_le_bytes.
Qed.

Lemma pow2_bytes (k : nat) : (2 ^ (8 * Z.of_nat k) = Z.of_N (256 ^ N.of_nat k))%Z.
Proof.
  rewrite N2Z.inj_pow, nat_N_Z. change (Z.of_N 256) with (2 ^ 8)%Z.
  rewrite <- Z.pow_mul_r by lia. reflexivity.
Qed.

Lemma unpack_pack (weak : Z) (strong : bytes) :
  packable (weak, strong) ->
  exists packed,
    pack_SIGNATURE_PACK weak strong = Ok packed
    /\ length packed = calcsize_SIGNATURE_PACK
    /\ unpack_SIGNATURE_PACK packed = Ok (weak, strong).
Proof.
  intros [[Hlo Hhi] Hlen]. simpl in *.
  unfold pack_SIGNATURE_PACK.
  assert (Hrange : (0 <=? weak) && (weak <? 2 ^ (8 * Z.of_nat long_size)) = true).
  { apply andb_true_intro. split; [apply Z.leb_le|apply Z.ltb_lt]; assumption. }
  rewrite Hrange.
  assert (Hstrong : firstn 16 (strong ++ repeat x00 16) = strong).
  { rewrite firstn_app, Hlen. replace (16 - 16)%nat with 0%nat by reflexivity.
    rewrite <- Hlen at 1. rewrite firstn_all. simpl. apply app_nil_r. }
  rewrite Hstrong.
  eexists. split; [reflexivity|].
  assert (Hl : length (native_bytes long_size (Z.to_N weak) ++ strong)
               = calcsize_SIGNATURE_PACK).
  { rewrite length_app, length_native_bytes, Hlen. reflexivity. }
  split; [exact Hl|].
  unfold unpack_SIGNATURE_PACK. rewrite Hl, Nat.eqb_refl.
  rewrite firstn_app, length_native_bytes, Nat.sub_diag.
  rewrite <- (length_native_bytes long_size (Z.to_N weak)) at 1.
  rewrite firstn_all. simpl firstn. rewrite app_nil_r.
  rewrite skipn_app, length_native_bytes, Nat.sub_diag.
  rewrite <- (length_native_bytes long_size (Z.to_N weak)) at 2.
  rewrite skipn_all. simpl.
  rewrite native_value_bytes.
  - rewrite Z2N.id by exact Hlo. reflexivity.
  - rewrite pow2_bytes in Hhi. lia.
Qed.

Lemma map_result_map {A B C} (f : B -> result C) (g : A -> B) (l : list A) :
  map_result f (map g l) = map_result (fun x => f (g x)) l.
Proof.
  induction l as [|x l IH]; simpl; [reflexivity|]. now rewrite IH.
Qed.

(** Cutting a concatenation of equally long chunks at the multiples of the
    chunk length gives the chunks back. *)
Lemma slices_concat (size : nat) (chunks : list bytes) :
  Forall (fun c => length c = size) chunks ->
  map (fun k => slice (concat chunks) (k * size) (k * size + size))
      (seq 0 (length chunks)) = chunks.
Proof.
  induction 1 as [|c chunks Hc _ IH]; [reflexivity|].
  cbn [length concat]. rewrite <- cons_seq, <- seq_shift.
  cbn [map]. rewrite map_map. f_equal.
  - unfold slice. simpl. rewrite Nat.sub_0_r, skipn_O.
    rewrite firstn_app, Hc, Nat.sub_diag. rewrite <- Hc at 1.
    rewrite firstn_all. simpl. apply app_nil_r.
  - rewrite <- IH at 2. apply map_ext. intros k. unfold slice.
    replace (S k * size + size - S k * size)%nat with size by lia.
    replace (k * size + size - k * size)%nat with size by lia.
    f_equal. rewrite skipn_app.
    replace (S k * size - length c)%nat with (k * size)%nat by (rewrite Hc; lia).
    rewrite skipn_all2 by (rewrite Hc; lia). reflexivity.
Qed.

Lemma length_concat_chunks (size : nat) (chunks : list bytes) :
  Forall (fun c => length c = size) chunks ->
  length (concat chunks) = (length chunks * size)%nat.
Proof.
  induction 1 as [|c chunks Hc _ IH]; [reflexivity|].
  cbn [concat length]. rewrite length_app, IH, Hc. lia.
Qed.

Lemma range_step_multiple (n size : nat) :
  (0 < size)%nat ->
  range_step (n * size) size = map (fun k => (k * size)%nat) (seq 0 n).
Proof.
  intros Hs. unfold range_step. do 2 f_equal.
  replace (n * size + size - 1)%nat with (n * size + (size - 1))%nat by lia.
  rewrite Nat.div_add_l by lia. rewrite Nat.div_small by lia. lia.
Qed.

Lemma flatten_signature_chunks (sig : signature) :
  Forall packable sig ->
  exists chunks,
    flatten_signature sig = Ok (concat chunks)
    /\ Forall (fun c => length c = calcsize_SIGNATURE_PACK) chunks
    /\ map_result unpack_SIGNATURE_PACK chunks = Ok sig.
Proof.
  induction 1 as [|[weak strong] sig Hrec _ IH].
  - exists []. repeat split; constructor.
  - destruct (unpack_pack weak strong Hrec) as (packed & Hp & Hl & Hu).
    destruct IH as (chunks & Hf & Hls & Hus).
    exists (packed :: chunks). cbn [flatten_signature concat map_result].
    rewrite Hp, Hf, Hu, Hus. repeat split. constructor; assumption.
Qed.

(** C3: for a signature whose weak checksums are in the range of the packed
    long and whose strong checksums are 16 bytes, [save_signature] returns
    the compressed bytes it wrote to the signature file of the path, and
    [parse_signature] on these bytes gives the signature back. *)
Theorem parse_save_signature (sig : signature) (p : string) (w : world) :
  Forall packable sig ->
  exists compressed_data,
    save_signature sig p w
      = (set_signatures (<[p := compressed_data]> (signatures w)) w, Ok compressed_data)
    /\ parse_signature compressed_data = Ok sig.
Proof.
  intros Hsig.
  destruct (flatten_signature_chunks sig Hsig) as (chunks & Hf & Hls & Hus).
  exists (zlib_compress (concat chunks)).
  unfold save_signature, parse_signature. rewrite Hf, zlib_roundtrip.
  split; [reflexivity|]. cbn [rbind].
  rewrite (length_concat_chunks _ _ Hls).
  rewrite range_step_multiple by (unfold calcsize_SIGNATURE_PACK; lia).
  rewrite map_result_map.
  rewrite <- (map_result_map unpack_SIGNATURE_PACK
    (fun k => slice (concat chunks) (k * calcsize_SIGNATURE_PACK)
                    (k * calcsize_SIGNATURE_PACK + calcsize_SIGNATURE_PACK))).
  rewrite (slices_concat _ _ Hls). exact Hus.
Qed.

(** *** node.py: the framed channel *)

(** [json.dumps(message).encode('utf-8')] and
    [json.loads(body.decode('utf-8'))]. *)
Variable json_dumps : message -> bytes.
Variable json_loads : bytes -> result message.

(** The bytes [Node.send_message] hands to [socket.sendall]: the length of
    the compressed message as a big-endian [uint64], then the compressed
    message. *)
Definition frame_message (m : message) : result bytes :=
  let message_bytes := json_dumps m in
  let compressed_message := zlib_compress message_bytes in
  let! length_prefix := pack_Q_be (N.of_nat (length compressed_message)) in
  Ok (length_prefix ++ compressed_message).

Definition set_buffer (b : bytes) (n : node) : node :=
  {| is_synchronized := is_synchronized n; buffer := b; outbox := outbox n |}.

(** [while len(self.buffer) < need: data = self.socket.recv(4096); ...].
    The socket is the list of the byte strings its next calls of [recv]
    return; an empty string, or the end of the list, is a closed
    connection. Returns the buffer and the socket as the loop leaves them. *)
Fixpoint recv_until (need : N) (buffer : bytes) (sock : list bytes)
  : bytes * list bytes * result unit :=
  if (N.of_nat (length buffer) <? need)%N then
    match sock with
    | [] => (buffer, [], Raise ConnectionError)
    | data :: sock' =>
        match data with
        | [] => (buffer, sock', Raise ConnectionError)
        | _ => recv_until need (buffer ++ data) sock'
        end
    end
  else (buffer, sock, Ok tt).

(** [Node.receive_message]: the message, or [None] after an error. *)
Definition receive_message (n : node) (sock : list bytes)
  : node * list bytes * option message :=
  match recv_until 8 (buffer n) sock with
  | (buf, sock, Raise _) => (set_buffer buf n, sock, None)
  | (buf, sock, Ok _) =>
      let length_prefix := firstn 8 buf in
      let buf := skipn 8 buf in
      match unpack_Q_be length_prefix with
      | Raise _ => (set_buffer buf n, sock, None)
      | Ok message_length =>
          match recv_until message_length buf sock with
          | (buf, sock, Raise _) => (set_buffer buf n, sock, None)
          | (buf, sock, Ok _) =>
              let message_body := firstn (N.to_nat message_length) buf in
              let buf := skipn (N.to_nat message_length) buf in
              match zlib_decompress message_body with
              | Raise _ => (set_buffer buf n, sock, None)
              | Ok decompressed_message =>
                  match json_loads decompressed_message with
                  | Raise _ => (set_buffer buf n, sock, None)
                  | Ok message => (set_buffer buf n, sock, Some message)
                  end
              end
          end
      end
  end.

(** [k] successive calls of [receive_message] on the same session. *)
Fixpoint receive_messages (k : nat) (n : node) (sock : list bytes)
  : node * list bytes * list (option message) :=
  match k with
  | O => (n, sock, [])
  | S k' =>
      let '(n1, sock1, m) := receive_message n sock in
      let '(n2, sock2, ms) := receive_messages k' n1 sock1 in
      (n2, sock2, m :: ms)
  end.

Lemma recv_until_enough (need : N) (sock : list bytes) :
  forall (buffer total : bytes),
  Forall (fun data => data <> []) sock ->
  buffer ++ concat sock = total ->
  (need <= N.of_nat (length total))%N ->
  exists buf' sock',
    recv_until need buffer sock = (buf', sock', Ok tt)
    /\ buf' ++ concat sock' = total
    /\ (need <= N.of_nat (length buf'))%N
    /\ Forall (fun data => data <> []) sock'.
Proof.
  induction sock as [|data sock IH]; intros buffer total Hne Htot Hlen; cbn [recv_until].
  - simpl in Htot. rewrite app_nil_r in Htot. subst total.
    destruct (N.of_nat (length buffer) <? need)%N eqn:E.
    + apply N.ltb_lt in E. lia.
    + exists buffer, []. repeat split; simpl; auto using app_nil_r.
  - destruct (N.of_nat (length buffer) <? need)%N eqn:E.
    + inversion Hne as [|? ? Hdata Hrest]; subst.
      destruct data as [|b data]; [congruence|].
      apply IH; [exact Hrest| |exact Hlen].
      cbn [concat]. now rewrite <- app_assoc.
    + apply N.ltb_ge in E.
      exists buffer, (data :: sock). repeat split; assumption.
Qed.

Lemma firstn_prefix {A} (k : nat) (l1 l2 : list A) :
  (k <= length l1)%nat -> firstn k l1 = firstn k (l1 ++ l2).
Proof.
  intros Hk. rewrite firstn_app.
  replace (k - length l1)%nat with 0%nat by lia.
  simpl. now rewrite app_nil_r.
Qed.

Lemma skipn_prefix {A} (k : nat) (l1 l2 : list A) :
  (k <= length l1)%nat -> skipn k l1 ++ l2 = skipn k (l1 ++ l2).
Proof.
  intros Hk. rewrite skipn_app.
  replace (k - length l1)%nat with 0%nat by lia. now rewrite skipn_O.
Qed.

Lemma firstn_exact {A} (l1 l2 : list A) : firstn (length l1) (l1 ++ l2) = l1.
Proof.
  rewrite firstn_app, Nat.sub_diag, firstn_all. simpl. apply app_nil_r.
Qed.

Lemma skipn_exact {A} (l1 l2 : list A) : skipn (length l1) (l1 ++ l2) = l2.
Proof.
  rewrite skipn_app, Nat.sub_diag, skipn_all. reflexivity.
Qed.

(** One frame at the head of the stream is received, whatever the stream is
    cut into. *)
Lemma receive_message_frame (m : message) (frame rest : bytes) (n : node) (sock : list bytes) :
  frame_message m = Ok frame ->
  json_loads (json_dumps m) = Ok m ->
  Forall (fun data => data <> []) sock ->
  buffer n ++ concat sock = frame ++ rest ->
  exists buf' sock',
    receive_message n sock = (set_buffer buf' n, sock', Some m)
    /\ buf' ++ concat sock' = rest
    /\ Forall (fun data => data <> []) sock'.
Proof.
  intros Hframe Hjson Hne Hstream.
  unfold frame_message in Hframe.
  destruct (pack_Q_be (N.of_nat (length (zlib_compress (json_dumps m)))))
    as [length_prefix|] eqn:Hpack; [|discriminate].
  cbn [rbind] in Hframe.
  assert (frame = length_prefix ++ zlib_compress (json_dumps m)) as -> by congruence.
  clear Hframe.
  destruct (unpack_pack_Q_be _ _ Hpack) as [Hl8 Hunpack].
  set (body := zlib_compress (json_dumps m)) in *.
  destruct (recv_until_enough 8 sock (buffer n) _ Hne Hstream)
    as (buf1 & sock1 & Hr1 & Hs1 & Hn1 & Hne1).
  { rewrite !length_app, Hl8. lia. }
  unfold receive_message. rewrite Hr1.
  assert (Hfirst : firstn 8 buf1 = length_prefix).
  { rewrite (firstn_prefix 8 buf1 (concat sock1)) by lia.
    rewrite Hs1, <- app_assoc, <- Hl8. apply firstn_exact. }
  rewrite Hfirst, Hunpack.
  assert (Hs2 : skipn 8 buf1 ++ concat sock1 = body ++ rest).
  { rewrite (skipn_prefix 8 buf1 (concat sock1)) by lia.
    rewrite Hs1, <- app_assoc, <- Hl8. apply skipn_exact. }
  destruct (recv_until_enough (N.of_nat (length body)) sock1 (skipn 8 buf1) _ Hne1 Hs2)
    as (buf2 & sock2 & Hr2 & Hs3 & Hn2 & Hne2).
  { rewrite length_app. lia. }
  rewrite Hr2, Nat2N.id.
  assert (Hbody : firstn (length body) buf2 = body).
  { rewrite (firstn_prefix _ buf2 (concat sock2)) by lia.
    rewrite Hs3. apply firstn_exact. }
  rewrite Hbody. unfold body at 1. rewrite zlib_roundtrip, Hjson.
  exists (skipn (length body) buf2), sock2. split; [reflexivity|].
  split; [|exact Hne2].
  rewrite (skipn_prefix _ buf2 (concat sock2)) by lia.
  rewrite Hs3. apply skipn_exact.
Qed.

(** C4: the frames of a sequence of messages, followed by any further
    bytes, arrive in any cutting into non-empty [recv] results (frames may
    share a result, a frame may span several); as many calls of
    [receive_message] as there are messages return the messages in order,
    and the bytes after the last frame stay in the buffer and the socket. *)
Theorem receive_sent_messages (msgs : list message) :
  forall (frames : list bytes) (rest : bytes) (n : node) (sock : list bytes),
  Forall2 (fun m frame => frame_message m = Ok frame) msgs frames ->
  Forall (fun m => json_loads (json_dumps m) = Ok m) msgs ->
  Forall (fun data => data <> []) sock ->
  buffer n ++ concat sock = concat frames ++ rest ->
  exists buf' sock',
    receive_messages (length msgs) n sock = (set_buffer buf' n, sock', map Some msgs)
    /\ buf' ++ concat sock' = rest.
Proof.
  induction msgs as [|m msgs IH]; intros frames rest n sock Hframes Hjson Hne Hstream.
  - inversion Hframes; subst. simpl in *.
    exists (buffer n), sock. split; [|exact Hstream]. now destruct n.
  - inversion Hframes as [|? frame ? frames' Hframe Hframes']; subst.
    inversion Hjson as [|? ? Hjm Hjson']; subst.
    cbn [concat] in Hstream. rewrite <- app_assoc in Hstream.
    destruct (receive_message_frame m frame _ n sock Hframe Hjm Hne Hstream)
      as (buf1 & sock1 & Hr1 & Hs1 & Hne1).
    destruct (IH frames' rest (set_buffer buf1 n) sock1 Hframes' Hjson' Hne1 Hs1)
      as (buf2 & sock2 & Hr2 & Hs2).
    exists buf2, sock2. split; [|exact Hs2].
    cbn [receive_messages length map]. rewrite Hr1, Hr2. reflexivity.
Qed.

(** *** file_sync.py: deltas *)

(** [list(pyrsync2.blockchecksums(f))] on the content of a file. *)
Variable blockchecksums : bytes -> signature.

(** [list(pyrsync2.rsyncdelta(new_file, signature_data))] on the content of
    the new file; the elements are integers and byte chunks. *)
Variable rsyncdelta : bytes -> signature -> list pyobj.
Hypothesis rsyncdelta_items :
  forall data sig, Forall (fun o => FileSyncCodec.is_delta_item o = true) (rsyncdelta data sig).

(** [pyrsync2.patchstream(base_file, temp_output_file, delta_data)] on the
    content of the base file: the bytes written to the output, and the
    exception that interrupted the patching, if any. *)
Variable patchstream : bytes -> list pyobj -> bytes * option exn.

(** [with open(file_path, 'rb') as f: f.read()] on a file of the monitored
    directory. *)
Definition read_file (rel : string) (w : world) : result bytes :=
  match monitored w !! rel with
  | None => Raise FileNotFoundError
  | Some f => Ok (f_data f)
  end.

(** [os.stat(file_path)]. *)
Definition os_stat (rel : string) (w : world) : result file :=
  match monitored w !! rel with
  | None => Raise FileNotFoundError
  | Some f => Ok f
  end.

(** [FileSync.compute_signature] of a file of the monitored directory. *)
Definition compute_signature (rel : string) (w : world) : result signature :=
  match monitored w !! rel with
  | None => Raise FileNotFoundError
  | Some f => Ok (blockchecksums (f_data f))
  end.

(** [FileSync.generate_delta]. *)
Definition generate_delta (signature_data : signature) (rel : string) (w : world)
  : result (list pyobj) :=
  match monitored w !! rel with
  | None => Raise FileNotFoundError
  | Some f => Ok (rsyncdelta (f_data f) signature_data)
  end.

(** [FileSync.apply_delta] on a file of the monitored directory. *)
Definition apply_delta (env : os_env) (base_file_path : string)
    (delta_data : list pyobj) (w : world) : world * result unit :=
  if mktemp_fails env then (w, Raise OSError) else
  (* with tempfile.NamedTemporaryFile(delete=False) as temp_file *)
  let temp_file_path := tmp_name env in
  let w := set_tmpdir (<[temp_file_path := []]> (tmpdir w)) w in
  (* try: *)
  let '(w, r) :=
    match monitored w !! base_file_path with
    | None => (w, Raise FileNotFoundError)
    | Some base_file =>
        let '(written, raised) := patchstream (f_data base_file) delta_data in
        let w := set_tmpdir (<[temp_file_path := written]> (tmpdir w)) w in
        match raised with
        | Some e => (w, Raise e)
        | None =>
            (* os.replace(temp_file_path, base_file_path) *)
            if replace_fails env then (w, Raise OSError)
            else
              let replaced := {| f_data := written;
                                 f_mtime := seconds_of_ns (time_ns env) |} in
              (set_tmpdir (delete temp_file_path (tmpdir w))
                 (set_monitored (<[base_file_path := replaced]> (monitored w)) w),
               Ok tt)
        end
    end in
  (* finally: if os.path.exists(temp_file_path): os.remove(temp_file_path) *)
  (set_tmpdir (delete temp_file_path (tmpdir w)) w, r).

(** C5: when [apply_delta] raises, the base file is as it was and the
    temporary file is gone (the whole state is as before the call); when it
    returns, the base file holds what [patchstream] wrote from the old base
    and the delta, and the temporary file is gone as well. *)
Theorem apply_delta_atomic (env : os_env) (base_file_path : string)
    (delta_data : list pyobj) (w : world) :
  tmpdir w !! tmp_name env = None ->
  match apply_delta env base_file_path delta_data w with
  | (w', Raise _) =>
      monitored w' !! base_file_path = monitored w !! base_file_path
      /\ tmpdir w' !! tmp_name env = None
      /\ w' = w
  | (w', Ok _) =>
      exists base_file written,
        monitored w !! base_file_path = Some base_file
        /\ patchstream (f_data base_file) delta_data = (written, None)
        /\ (f_data <$> monitored w' !! base_file_path) = Some written
        /\ tmpdir w' !! tmp_name env = None
  end.
Proof.
  intros Hfresh. unfold apply_delta.
  destruct (mktemp_fails env); [auto|].
  assert (Hdel : forall x, delete (tmp_name env) (<[tmp_name env := x]> (tmpdir w)) = tmpdir w).
  { intros x. rewrite delete_insert_eq. apply delete_id, Hfresh. }
  cbn [monitored set_tmpdir].
  destruct (monitored w !! base_file_path) as [base_file|] eqn:Hbase.
  - destruct (patchstream (f_data base_file) delta_data) as [written [e|]] eqn:Hpatch.
    + rewrite !set_tmpdir_twice. world_simpl.
      rewrite insert_insert_eq, Hdel, set_tmpdir_same. auto.
    + destruct (replace_fails env).
      * rewrite !set_tmpdir_twice. world_simpl.
        rewrite insert_insert_eq, Hdel, set_tmpdir_same. auto.
      * exists base_file, written. world_simpl.
        rewrite lookup_insert_eq. repeat split; try assumption.
        apply lookup_delete_eq.
  - rewrite !set_tmpdir_twice. world_simpl.
    rewrite Hdel, set_tmpdir_same. auto.
Qed.

(** *** Paths *)

(** [os.path.abspath(os.path.join(self.monitored_directory, file_path))],
    [os.path.abspath] and [os.path.relpath(path, self.monitored_directory)].
    A file of the monitored directory is looked up by its relative path;
    the echo-guard table is keyed by absolute paths. *)
Variable full_path : string -> string.
Variable abspath : string -> string.
Variable relpath : string -> string.

(** *** event_handler.py: the echo guard *)

(** A watchdog event. *)
Record fs_event := {
  is_directory : bool;
  src_path : string;
  dest_path : string        (* of a move *)
}.

(** [ChangeHandler.should_ignore]; [event_time] is the reading of
    [time.time_ns()] the method starts with. Messages of level INFO are not
    kept in the log. *)
Definition should_ignore (event_time : Z) (event : fs_event) (w : world) : world * bool :=
  if is_directory event then (w, true)
  else
    let full_path := abspath (src_path event) in
    match ignore_events w !! full_path with
    | Some ignore_time =>
        (* if ignore_time: *)
        if ignore_time =? 0 then (w, false)
        else if event_time <? ignore_time + 500000000 then (w, true)
        else (set_ignore_events (delete full_path (ignore_events w)) w, false)
    | None => (w, false)
    end.

(** C6: a directory event is ignored; an event on a file whose absolute
    path has an echo-guard entry recorded less than 500 ms before the event
    is ignored and the table is left as it is; when the entry is 500 ms old
    or older it is removed from the table and the event is not ignored. A
    recorded time is a reading of [time.time_ns()], which is not zero. *)
Theorem should_ignore_echo_guard (event_time : Z) (event : fs_event) (w : world) :
  (is_directory event = true -> should_ignore event_time event w = (w, true))
  /\ (forall ignore_time,
        is_directory event = false ->
        ignore_events w !! abspath (src_path event) = Some ignore_time ->
        ignore_time <> 0 ->
        (event_time < ignore_time + 500000000 ->
           should_ignore event_time event w = (w, true))
        /\ (ignore_time + 500000000 <= event_time ->
           should_ignore event_time event w
           = (set_ignore_events (delete (abspath (src_path event)) (ignore_events w)) w,
              false))).
Proof.
  unfold should_ignore. split.
  - intros ->. reflexivity.
  - intros ignore_time -> -> Hnz.
    apply Z.eqb_neq in Hnz. rewrite Hnz.
    split; intros Ht.
    + apply Z.ltb_lt in Ht. now rewrite Ht.
    + apply Z.ltb_ge in Ht. now rewrite Ht.
Qed.

(** *** node.py: reconciliation *)

(** [a > b] on modification times. *)
Definition mtime_gt (a b : Q) : bool := negb (Qle_bool a b).

Lemma mtime_gt_true (a b : Q) : mtime_gt a b = true <-> (b < a)%Q.
Proof.
  unfold mtime_gt. rewrite negb_true_iff, <- not_true_iff_false, Qle_bool_iff.
  split; [apply Qnot_le_lt|apply Qlt_not_le].
Qed.

Lemma mtime_gt_false (a b : Q) : mtime_gt a b = false <-> (a <= b)%Q.
Proof.
  unfold mtime_gt. rewrite negb_false_iff. apply Qle_bool_iff.
Qed.

(** The body of the loop of
    [Node.get_local_directory_state_with_signatures] for one file that
    [os.walk] lists: its manifest value, and the state with its signature
    saved. *)
Definition local_directory_entry (relative_path : string) (w : world)
  : world * result manifest_entry :=
  match os_stat relative_path w with
  | Raise e => (w, Raise e)
  | Ok stat =>
      match compute_signature relative_path w with
      | Raise e => (w, Raise e)
      | Ok signature =>
          match save_signature signature relative_path w with
          | (w, Raise e) => (w, Raise e)
          | (w, Ok compressed_sig) =>
              (w, Ok {| me_mtime := f_mtime stat;
                        me_size := Z.of_nat (length (f_data stat));
                        me_signature := Base64.b64encode compressed_sig |})
          end
      end
  end.

(** [Node.get_local_directory_state_with_signatures]: [os.walk] visits the
    files of the monitored directory. *)
Definition get_local_directory_state_with_signatures (w : world)
  : world * result (gmap string manifest_entry) :=
  map_fold
    (fun relative_path (_ : file) (acc : world * result (gmap string manifest_entry)) =>
       match acc with
       | (w, Raise e) => (w, Raise e)
       | (w, Ok directory_state) =>
           match local_directory_entry relative_path w with
           | (w, Raise e) => (w, Raise e)
           | (w, Ok entry) => (w, Ok (<[relative_path := entry]> directory_state))
           end
       end)
    (w, Ok ∅) (monitored w).

(** [if signature:] on the optional argument of
    [prepare_file_for_transfer]: [None] and the empty list are false. *)
Definition signature_truthy (signature : option signature) : bool :=
  match signature with
  | Some (_ :: _) => true
  | _ => false
  end.

(** [Node.prepare_file_for_transfer]. *)
Definition prepare_file_for_transfer (relative_path : string)
    (signature : option signature) (w : world) : result file_info :=
  let! prepared :=
    if signature_truthy signature then
      let! delta_data := generate_delta (default [] signature) relative_path w in
      Ok (delta_data, false)
    else
      let! data := read_file relative_path w in
      Ok ([PyBytes data], true) in
  let! serialized_delta := FileSyncCodec.serialize_delta_data prepared.1 in
  let! stat := os_stat relative_path w in
  Ok {| fi_delta := Some serialized_delta;
        fi_mtime := Some (f_mtime stat);
        fi_action := Some "CREATE"%string;
        fi_is_full_file := Some prepared.2 |}.

(** The signature a manifest value carries:
    [FileSync.parse_signature(base64.b64decode(remote_file['signature']))]. *)
Definition remote_signature (remote_file : manifest_entry) : result signature :=
  let! compressed_signature := Base64.b64decode (me_signature remote_file) in
  parse_signature compressed_signature.

(** The body of the loop of [Node.handle_directory_state] for one path of
    the union of the keys: [None] when nothing is queued for the path. *)
Definition files_to_send_entry (w : world)
    (local_file : option (string * manifest_entry))
    (remote_file : option manifest_entry) : option (result file_info) :=
  match local_file, remote_file with
  | Some (file_path, local_file), Some remote_file =>
      if mtime_gt (me_mtime local_file) (me_mtime remote_file) then
        Some (let! signature := remote_signature remote_file in
              prepare_file_for_transfer file_path (Some signature) w)
      else None
  | Some (file_path, _), None =>
      Some (prepare_file_for_transfer file_path None w)
  | None, _ => None
  end.

Fixpoint first_raise {A} (l : list (string * result A)) : option exn :=
  match l with
  | [] => None
  | (_, Raise e) :: _ => Some e
  | (_, Ok _) :: l' => first_raise l'
  end.

Definition ok_value {A} (r : result A) : option A :=
  match r with Ok a => Some a | Raise _ => None end.

(** The loop over the paths: the first exception leaves the loop (and the
    method); otherwise the queued entries make [files_to_send]. *)
Definition collect_files_to_send (decisions : gmap string (result file_info))
  : result (gmap string file_info) :=
  match first_raise (map_to_list decisions) with
  | Some e => Raise e
  | None => Ok (omap ok_value decisions)
  end.

(** [Node.handle_directory_state]. *)
Definition handle_directory_state (remote_state : gmap string manifest_entry)
    (self : node) (w : world) : world * node * result unit :=
  match get_local_directory_state_with_signatures w with
  | (w, Raise e) => (w, self, Raise e)
  | (w, Ok local_state) =>
      let keyed := map_imap (fun file_path entry => Some (file_path, entry)) local_state in
      match collect_files_to_send (merge (files_to_send_entry w) keyed remote_state) with
      | Raise e => (w, self, Raise e)
      | Ok files_to_send =>
          let self :=
            if decide (files_to_send = ∅) then self
            else send_message (DELTA_TRANSFER files_to_send) self in
          (w, set_synchronized self, Ok tt)
      end
  end.

(** [Node.synchronize]. *)
Definition synchronize (self : node) (w : world) : world * node * result unit :=
  match get_local_directory_state_with_signatures w with
  | (w, Raise e) => (w, self, Raise e)
  | (w, Ok local_state) => (w, send_message (DIRECTORY_STATE local_state) self, Ok tt)
  end.

(** *** node.py: applying what a peer sends *)

(** [b''.join(delta_data)]: every element must be a byte string. *)
Fixpoint bytes_join (delta_data : list pyobj) : result bytes :=
  match delta_data with
  | [] => Ok []
  | PyBytes b :: rest => let! tail := bytes_join rest in Ok (b ++ tail)
  | _ :: _ => Raise TypeError
  end.

(** [with open(full_path, 'wb') as f: f.write(b''.join(delta_data))]: the
    file is opened, hence emptied, before the chunks are joined. *)
Definition write_full_file (env : os_env) (file_path : string)
    (delta_data : list pyobj) (w : world) : world * result unit :=
  let now := seconds_of_ns (time_ns env) in
  let w := set_monitored (<[file_path := {| f_data := []; f_mtime := now |}]> (monitored w)) w in
  match bytes_join delta_data with
  | Raise e => (w, Raise e)
  | Ok data =>
      (set_monitored (<[file_path := {| f_data := data; f_mtime := now |}]> (monitored w)) w,
       Ok tt)
  end.

(** [open(full_path, 'wb').close()]. *)
Definition truncate_file (env : os_env) (file_path : string) (w : world) : world :=
  set_monitored
    (<[file_path := {| f_data := []; f_mtime := seconds_of_ns (time_ns env) |}]> (monitored w)) w.

(** The end of the [try] block of both handlers: [os.utime], then the new
    signature is computed and saved. *)
Definition utime_and_save_signature (mtime : option Q) (file_path : string) (w : world)
  : world * result unit :=
  match mtime, monitored w !! file_path with
  | None, _ => (w, Raise TypeError)
  | Some _, None => (w, Raise FileNotFoundError)
  | Some mtime, Some f =>
      let w := set_monitored
                 (<[file_path := {| f_data := f_data f; f_mtime := mtime |}]> (monitored w)) w in
      match compute_signature file_path w with
      | Raise e => (w, Raise e)
      | Ok new_signature =>
          match save_signature new_signature file_path w with
          | (w, Raise e) => (w, Raise e)
          | (w, Ok _) => (w, Ok tt)
          end
      end
  end.

(** How the [try] block of a handler is left without an exception. *)
Inductive completion := Completed | Skipped.

(** The [try] block of [Node.handle_delta_transfer] for one entry. *)
Definition delta_transfer_try (env : os_env) (file_path : string) (mtime : Q)
    (is_full_file : bool) (delta_data : list pyobj) (w : world)
  : world * result completion :=
  let applied : world * result completion :=
    match delta_data with
    | _ :: _ =>
        if is_full_file then
          match write_full_file env file_path delta_data w with
          | (w, Raise e) => (w, Raise e)
          | (w, Ok _) => (w, Ok Completed)
          end
        else
          match load_signature file_path w with
          | Raise e => (w, Raise e)
          | Ok old_signature =>
              if signature_truthy old_signature then
                match apply_delta env file_path delta_data w with
                | (w, Raise e) => (w, Raise e)
                | (w, Ok _) => (w, Ok Completed)
                end
              else
                (logging WARNING
                   ("No signature found for " +:+ file_path +:+ ", cannot apply delta.") w,
                 Ok Skipped)
          end
    | [] => (truncate_file env file_path w, Ok Completed)
    end in
  match applied with
  | (w, Ok Completed) =>
      match utime_and_save_signature (Some mtime) file_path w with
      | (w, Raise e) => (w, Raise e)
      | (w, Ok _) => (w, Ok Completed)
      end
  | other => other
  end.

(** The body of the loop of [Node.handle_delta_transfer] for one entry of
    the payload. An exception raised before the [try] block leaves the
    method. *)
Definition handle_delta_transfer_entry (env : os_env) (file_path : string)
    (info : file_info) (w : world) : world * result unit :=
  match fi_mtime info with
  | None => (w, Raise KeyError)
  | Some mtime =>
      let is_full_file := default false (fi_is_full_file info) in
      let deserialized :=
        match fi_delta info with
        | Some (item :: items) => FileSyncCodec.deserialize_delta_data (item :: items)
        | _ => Ok []
        end in
      match deserialized with
      | Raise e => (w, Raise e)
      | Ok delta_data =>
          let w := set_ignore_events
                     (<[full_path file_path := time_ns env]> (ignore_events w)) w in
          match delta_transfer_try env file_path mtime is_full_file delta_data w with
          | (w, Raise _) =>
              (logging ERROR ("Error applying delta to " +:+ file_path) w, Ok tt)
          | (w, Ok _) => (w, Ok tt)
          end
      end
  end.

(** [Node.handle_delta_transfer]: the entries in the order of the payload;
    [env i] is what the operating system supplies during the entry of
    index [i]. *)
Fixpoint handle_delta_transfer_from (i : nat) (env : nat -> os_env)
    (entries : list (string * file_info)) (w : world) : world * result unit :=
  match entries with
  | [] => (w, Ok tt)
  | (file_path, info) :: entries' =>
      match handle_delta_transfer_entry (env i) file_path info w with
      | (w, Raise e) => (w, Raise e)
      | (w, Ok _) => handle_delta_transfer_from (S i) env entries' w
      end
  end.

Definition handle_delta_transfer (env : nat -> os_env) (payload : gmap string file_info)
    (w : world) : world * result unit :=
  handle_delta_transfer_from 0 env (map_to_list payload) w.

Definition action_is (a : string) (action : option string) : bool :=
  match action with
  | Some b => String.eqb a b
  | None => false
  end.

(** The [try] block of the CREATE and MODIFY branch of
    [Node.handle_modification_update]. *)
Definition modification_update_try (env : os_env) (file_path : string) (mtime : option Q)
    (is_full_file : bool) (delta_data : list pyobj) (w : world)
  : world * result completion :=
  let applied : world * result completion :=
    match delta_data with
    | _ :: _ =>
        if is_full_file then
          match write_full_file env file_path delta_data w with
          | (w, Raise e) => (w, Raise e)
          | (w, Ok _) => (w, Ok Completed)
          end
        else
          (* if not os.path.exists(full_path): *)
          match monitored w !! file_path with
          | None =>
              (logging WARNING ("Base file for delta does not exist: " +:+ file_path) w,
               Ok Skipped)
          | Some _ =>
              match apply_delta env file_path delta_data w with
              | (w, Raise e) => (w, Raise e)
              | (w, Ok _) => (w, Ok Completed)
              end
          end
    | [] => (truncate_file env file_path w, Ok Completed)
    end in
  match applied with
  | (w, Ok Completed) =>
      match utime_and_save_signature mtime file_path w with
      | (w, Raise e) => (w, Raise e)
      | (w, Ok _) => (w, Ok Completed)
      end
  | other => other
  end.

(** [Node.handle_modification_update]. *)
Definition handle_modification_update (env : os_env) (payload : update_payload)
    (w : world) : world * result unit :=
  let file_path := up_file_path payload in
  let mtime := up_mtime payload in
  let action := up_action payload in
  let is_full_file := default false (up_is_full_file payload) in
  let w := set_ignore_events
             (<[full_path file_path := time_ns env]> (ignore_events w)) w in
  if action_is "MODIFY" action || action_is "CREATE" action then
    match up_delta payload with
    | None => (w, Raise TypeError)
    | Some serialized_delta =>
        match FileSyncCodec.deserialize_delta_data serialized_delta with
        | Raise e => (w, Raise e)
        | Ok delta_data =>
            match modification_update_try env file_path mtime is_full_file delta_data w with
            | (w, Raise _) =>
                (logging ERROR ("Error applying delta to " +:+ file_path) w, Ok tt)
            | (w, Ok _) => (w, Ok tt)
            end
        end
    end
  else if action_is "DELETE" action then
    let w := set_monitored (delete file_path (monitored w)) w in
    (set_signatures (delete file_path (signatures w)) w, Ok tt)
  else if action_is "RENAME" action then
    match up_dest_path payload with
    | None => (w, Raise TypeError)
    | Some dest_path =>
        let w :=
          match monitored w !! file_path with
          | Some f => set_monitored (<[dest_path := f]> (delete file_path (monitored w))) w
          | None => w
          end in
        match signatures w !! file_path with
        | Some sig =>
            (set_signatures (<[dest_path := sig]> (delete file_path (signatures w))) w, Ok tt)
        | None =>
            (logging WARNING ("Signature file not found for " +:+ file_path) w, Ok tt)
        end
    end
  else (w, Ok tt).

(** *** node_manager.py: the registry *)

(** [NodeManager.nodes]: the sessions by [(ip, tcp_port)]. *)
Abbreviation registry := (gmap (string * Z) node).

(** [NodeManager.broadcast_update]. *)
Definition broadcast_update (payload : update_payload) (nodes : registry) : registry :=
  (fun n => if is_synchronized n then send_message (MODIFICATION_UPDATE payload) n else n)
    <$> nodes.

(** The sessions [broadcast_update] sends to and the others, as the loop
    leaves a session. *)
Definition updated (payload : update_payload) (n : node) : node :=
  if is_synchronized n then send_message (MODIFICATION_UPDATE payload) n else n.

(** [NodeManager.broadcast_update] with what the sockets do: [sessions] are
    the registered sessions in the order of [self.nodes.values()], and
    [sendall_raises] tells for which of them [sendall] raises. A
    [send_message] that does not return leaves the loop where it is, with
    the registry lock held: the sessions behind it are not reached. *)
Fixpoint broadcast_update_on (sendall_raises : string * Z -> bool)
    (payload : update_payload) (sessions : list (string * Z * node))
  : outcome (list (string * Z * node)) :=
  match sessions with
  | [] => Returns []
  | (node_id, n) :: sessions' =>
      let sent :=
        if is_synchronized n
        then send_message_on (sendall_raises node_id) (MODIFICATION_UPDATE payload) n
        else Returns n in
      match sent with
      | Blocks n' => Blocks ((node_id, n') :: sessions')
      | Returns n' =>
          match broadcast_update_on sendall_raises payload sessions' with
          | Returns done => Returns ((node_id, n') :: done)
          | Blocks stuck => Blocks ((node_id, n') :: stuck)
          end
      end
  end.

(** [connect_to_node] and [handle_incoming_connection] up to the point
    where [add_node_unsafe] has registered the new session and started its
    listener: from here on the messages of the peer are handled, while the
    caller goes on to [node.synchronize()]. A registered identity is left
    alone. *)
Definition register_node (node_id : string * Z) (nodes : registry) : registry :=
  match nodes !! node_id with
  | Some _ => nodes
  | None => <[node_id := Node_init]> nodes
  end.

(** The rest of [add_node_unsafe]: [node.synchronize()] on the session
    registered as [node_id]. An exception is caught by the caller and
    leaves the session registered. For a session that is gone the manifest
    is computed all the same. *)
Definition synchronize_registered (node_id : string * Z) (nodes : registry) (w : world)
  : world * registry :=
  match nodes !! node_id with
  | Some n =>
      let '(w, n, _) := synchronize n w in
      (w, <[node_id := n]> nodes)
  | None =>
      let '(w, _, _) := synchronize Node_init w in
      (w, nodes)
  end.

(** [NodeManager.remove_node]. *)
Definition remove_node (node_id : string * Z) (nodes : registry) : registry :=
  delete node_id nodes.

(** [Node.handle_message] for the session registered as [node_id]; [env i]
    is what the operating system supplies during the [i]-th entry of a
    [DELTA_TRANSFER] ([env 0] for a [MODIFICATION_UPDATE]). *)
Definition handle_message (env : nat -> os_env) (node_id : string * Z) (m : message)
    (nodes : registry) (w : world) : world * registry * result unit :=
  match m with
  | DIRECTORY_STATE remote_state =>
      match nodes !! node_id with
      | None => (w, nodes, Ok tt)
      | Some self =>
          let '(w, self, r) := handle_directory_state remote_state self w in
          (w, <[node_id := self]> nodes, r)
      end
  | DELTA_TRANSFER payload =>
      let '(w, r) := handle_delta_transfer env payload w in (w, nodes, r)
  | MODIFICATION_UPDATE payload =>
      let '(w, r) := handle_modification_update (env 0%nat) payload w in (w, nodes, r)
  end.

(** *** event_handler.py: the watcher *)

(** [s.find('~') == -1] is [negb (contains_tilde s)]. *)
Fixpoint contains_tilde (s : string) : bool :=
  match s with
  | EmptyString => false
  | String c s' => Ascii.eqb c "~"%char || contains_tilde s'
  end.

(** The [try] block of [ChangeHandler.handle_modify_create]. *)
Definition modify_create_try (src_path : string) (action : string)
    (nodes : registry) (w : world) : world * registry * result unit :=
  let relative_path := relpath src_path in
  let prepared :=
    let! stat := os_stat relative_path w in
    let! old_signature := load_signature relative_path w in
    let! new_signature := compute_signature relative_path w in
    let! delta :=
      if signature_truthy old_signature then
        let! delta_data := generate_delta (default [] old_signature) relative_path w in
        Ok (delta_data, false)
      else
        let! data := read_file relative_path w in
        Ok ([PyBytes data], true) in
    Ok (stat, new_signature, delta) in
  match prepared with
  | Raise e => (w, nodes, Raise e)
  | Ok (stat, new_signature, (delta_data, is_full_file)) =>
      match save_signature new_signature relative_path w with
      | (w, Raise e) => (w, nodes, Raise e)
      | (w, Ok _) =>
          match FileSyncCodec.serialize_delta_data delta_data with
          | Raise e => (w, nodes, Raise e)
          | Ok serialized_delta =>
              let payload :=
                {| up_file_path := relative_path;
                   up_action := Some action;
                   up_mtime := Some (f_mtime stat);
                   up_delta := Some serialized_delta;
                   up_dest_path := None;
                   up_is_full_file := Some is_full_file |} in
              (w, broadcast_update payload nodes, Ok tt)
          end
      end
  end.

(** [ChangeHandler.handle_modify_create]. *)
Definition handle_modify_create (src_path : string) (action : string)
    (nodes : registry) (w : world) : world * registry :=
  match modify_create_try src_path action nodes w with
  | (w, nodes, Ok _) => (w, nodes)
  | (w, nodes, Raise _) =>
      (logging ERROR ("Error handling file " +:+ relpath src_path) w, nodes)
  end.

(** The watcher and what it acts on. *)
Record watcher_state := {
  ws_world : world;
  ws_nodes : registry;
  last_trigger_time : Z          (* ChangeHandler.last_trigger_time *)
}.

(** [ChangeHandler.on_modified]; [event_time] and [current_time] are the
    two readings of [time.time_ns()]. *)
Definition on_modified (event_time current_time : Z) (event : fs_event)
    (st : watcher_state) : watcher_state :=
  let '(w, ignore) := should_ignore event_time event (ws_world st) in
  if ignore then
    {| ws_world := w; ws_nodes := ws_nodes st; last_trigger_time := last_trigger_time st |}
  else if negb (contains_tilde (src_path event))
          && (100000000 <? current_time - last_trigger_time st) then
    let '(w, nodes) := handle_modify_create (src_path event) "MODIFY" (ws_nodes st) w in
    {| ws_world := w; ws_nodes := nodes; last_trigger_time := current_time |}
  else
    {| ws_world := w; ws_nodes := ws_nodes st; last_trigger_time := last_trigger_time st |}.

(** [ChangeHandler.on_created]. *)
Definition on_created (event_time : Z) (event : fs_event)
    (st : watcher_state) : watcher_state :=
  let '(w, ignore) := should_ignore event_time event (ws_world st) in
  if ignore then
    {| ws_world := w; ws_nodes := ws_nodes st; last_trigger_time := last_trigger_time st |}
  else
    let '(w, nodes) := handle_modify_create (src_path event) "CREATE" (ws_nodes st) w in
    {| ws_world := w; ws_nodes := nodes; last_trigger_time := last_trigger_time st |}.

(** [ChangeHandler.on_deleted]; [now] is the reading of [time.time()]. *)
Definition on_deleted (event_time : Z) (now : Q) (event : fs_event)
    (st : watcher_state) : watcher_state :=
  let '(w, ignore) := should_ignore event_time event (ws_world st) in
  if ignore then
    {| ws_world := w; ws_nodes := ws_nodes st; last_trigger_time := last_trigger_time st |}
  else
    let relative_path := relpath (src_path event) in
    let w := set_signatures (delete relative_path (signatures w)) w in
    let payload :=
      {| up_file_path := relative_path;
         up_action := Some "DELETE"%string;
         up_mtime := Some now;
         up_delta := None;
         up_dest_path := None;
         up_is_full_file := None |} in
    {| ws_world := w; ws_nodes := broadcast_update payload (ws_nodes st);
       last_trigger_time := last_trigger_time st |}.

(** [ChangeHandler.on_moved]. *)
Definition on_moved (event_time : Z) (now : Q) (event : fs_event)
    (st : watcher_state) : watcher_state :=
  let '(w, ignore) := should_ignore event_time event (ws_world st) in
  if ignore then
    {| ws_world := w; ws_nodes := ws_nodes st; last_trigger_time := last_trigger_time st |}
  else
    let src_relative_path := relpath (src_path event) in
    let dest_relative_path := relpath (dest_path event) in
    let w :=
      match signatures w !! src_relative_path with
      | Some sig =>
          set_signatures
            (<[dest_relative_path := sig]> (delete src_relative_path (signatures w))) w
      | None => w
      end in
    let payload :=
      {| up_file_path := src_relative_path;
         up_action := Some "RENAME"%string;
         up_mtime := Some now;
         up_delta := None;
         up_dest_path := Some dest_relative_path;
         up_is_full_file := None |} in
    {| ws_world := w; ws_nodes := broadcast_update payload (ws_nodes st);
       last_trigger_time := last_trigger_time st |}.

(** *** Applying a delta that needs a base *)

(** A serialised delta that is not empty deserialises, if at all, to a delta
    that is not empty. *)
Lemma deserialize_nonempty (item : pyobj) (items delta_data : list pyobj) :
  FileSyncCodec.deserialize_delta_data (item :: items) = Ok delta_data ->
  delta_data <> [].
Proof.
  unfold FileSyncCodec.deserialize_delta_data. cbn [map_result].
  destruct (FileSyncCodec.deserialize_item item); cbn [rbind]; [|discriminate].
  destruct (map_result FileSyncCodec.deserialize_item items); cbn [rbind];
    [|discriminate].
  intros [= <-]. discriminate.
Qed.

(** The state in which a handler enters its [try] block: the echo-guard
    entry of the path is in place. *)
Definition guard_inserted (env : os_env) (file_path : string) (w : world) : world :=
  set_ignore_events (<[full_path file_path := time_ns env]> (ignore_events w)) w.

(** What becomes of an entry once the delta is applied (or not): the end of
    the [try] block and the [except] clause. *)
Definition after_apply_delta (mtime : option Q) (file_path : string)
    (applied : world * result unit) : world * result unit :=
  match applied with
  | (w', Raise _) =>
      (logging ERROR ("Error applying delta to " +:+ file_path) w', Ok tt)
  | (w', Ok _) =>
      match utime_and_save_signature mtime file_path w' with
      | (w'', Raise _) =>
          (logging ERROR ("Error applying delta to " +:+ file_path) w'', Ok tt)
      | (w'', Ok _) => (w'', Ok tt)
      end
  end.

(** [handle_delta_transfer] on an entry with [is_full_file] false and a
    delta that is not empty. *)
Lemma handle_delta_transfer_entry_delta (env : os_env) (file_path : string)
    (info : file_info) (w : world) (item : pyobj) (items delta_data : list pyobj) (mtime : Q) :
  FileSyncCodec.deserialize_delta_data (item :: items) = Ok delta_data ->
  fi_delta info = Some (item :: items) ->
  fi_mtime info = Some mtime ->
  default false (fi_is_full_file info) = false ->
  handle_delta_transfer_entry env file_path info w
  = match load_signature file_path w with
    | Raise _ =>
        (logging ERROR ("Error applying delta to " +:+ file_path)
           (guard_inserted env file_path w), Ok tt)
    | Ok old_signature =>
        if signature_truthy old_signature then
          after_apply_delta (Some mtime) file_path
            (apply_delta env file_path delta_data (guard_inserted env file_path w))
        else
          (logging WARNING
             ("No signature found for " +:+ file_path +:+ ", cannot apply delta.")
             (guard_inserted env file_path w), Ok tt)
    end.
Proof.
  intros Hdes Hdelta Hmtime Hfull.
  pose proof (deserialize_nonempty _ _ _ Hdes) as Hne.
  destruct delta_data as [|d delta_data]; [congruence|]. clear Hne.
  unfold handle_delta_transfer_entry. rewrite Hmtime, Hdelta, Hdes, Hfull.
  fold (guard_inserted env file_path w).
  assert (Hload : load_signature file_path (guard_inserted env file_path w)
                  = load_signature file_path w) by reflexivity.
  unfold delta_transfer_try. rewrite Hload.
  destruct (load_signature file_path w) as [old_signature|e]; [|reflexivity].
  destruct (signature_truthy old_signature); [|reflexivity].
  unfold after_apply_delta.
  destruct (apply_delta env file_path (d :: delta_data)
              (guard_inserted env file_path w)) as [w' [[]|e]]; [|reflexivity].
  destruct (utime_and_save_signature (Some mtime) file_path w') as [w'' [[]|e]];
    reflexivity.
Qed.

(** [handle_modification_update] on a CREATE or MODIFY with [is_full_file]
    false and a delta that is not empty. *)
Lemma handle_modification_update_delta (env : os_env) (payload : update_payload)
    (w : world) (item : pyobj) (items delta_data : list pyobj) :
  FileSyncCodec.deserialize_delta_data (item :: items) = Ok delta_data ->
  action_is "MODIFY" (up_action payload) || action_is "CREATE" (up_action payload) = true ->
  up_delta payload = Some (item :: items) ->
  default false (up_is_full_file payload) = false ->
  handle_modification_update env payload w
  = match monitored w !! up_file_path payload with
    | None =>
        (logging WARNING
           ("Base file for delta does not exist: " +:+ up_file_path payload)
           (guard_inserted env (up_file_path payload) w), Ok tt)
    | Some _ =>
        after_apply_delta (up_mtime payload) (up_file_path payload)
          (apply_delta env (up_file_path payload) delta_data
             (guard_inserted env (up_file_path payload) w))
    end.
Proof.
  intros Hdes Haction Hdelta Hfull.
  pose proof (deserialize_nonempty _ _ _ Hdes) as Hne.
  destruct delta_data as [|d delta_data]; [congruence|]. clear Hne.
  unfold handle_modification_update. rewrite Haction, Hdelta, Hdes, Hfull.
  fold (guard_inserted env (up_file_path payload) w).
  assert (Hmon : monitored (guard_inserted env (up_file_path payload) w)
                 = monitored w) by reflexivity.
  unfold modification_update_try. rewrite Hmon.
  destruct (monitored w !! up_file_path payload) as [f|]; [|reflexivity].
  unfold after_apply_delta.
  destruct (apply_delta env (up_file_path payload) (d :: delta_data)
              (guard_inserted env (up_file_path payload) w)) as [w' [[]|e]];
    [|reflexivity].
  destruct (utime_and_save_signature (up_mtime payload) (up_file_path payload) w')
    as [w'' [[]|e]]; reflexivity.
Qed.

(** C8, as the code has it: with [is_full_file] false and a delta that is
    not empty, [handle_delta_transfer] requires a stored signature that is
    not empty (without one it logs a warning and goes to the next entry,
    leaving the files and the signatures as they are; with one it calls
    [apply_delta] on the path); [handle_modification_update], for CREATE and
    MODIFY, requires the base file instead (without it it logs a warning and
    returns; with it it calls [apply_delta] on the path, whatever the
    signature store holds). *)
Theorem delta_needs_base (env : os_env) (file_path : string) (w : world)
    (item : pyobj) (items delta_data : list pyobj) :
  FileSyncCodec.deserialize_delta_data (item :: items) = Ok delta_data ->
  (forall info mtime,
     fi_delta info = Some (item :: items) ->
     fi_mtime info = Some mtime ->
     default false (fi_is_full_file info) = false ->
     (forall old_signature,
        load_signature file_path w = Ok old_signature ->
        signature_truthy old_signature = false ->
        handle_delta_transfer_entry env file_path info w
        = (logging WARNING
             ("No signature found for " +:+ file_path +:+ ", cannot apply delta.")
             (guard_inserted env file_path w), Ok tt))
     /\ (forall old_signature,
        load_signature file_path w = Ok old_signature ->
        signature_truthy old_signature = true ->
        handle_delta_transfer_entry env file_path info w
        = after_apply_delta (Some mtime) file_path
            (apply_delta env file_path delta_data (guard_inserted env file_path w))))
  /\ (forall payload,
     up_file_path payload = file_path ->
     action_is "MODIFY" (up_action payload) || action_is "CREATE" (up_action payload) = true ->
     up_delta payload = Some (item :: items) ->
     default false (up_is_full_file payload) = false ->
     (monitored w !! file_path = None ->
        handle_modification_update env payload w
        = (logging WARNING ("Base file for delta does not exist: " +:+ file_path)
             (guard_inserted env file_path w), Ok tt))
     /\ (is_Some (monitored w !! file_path) ->
        handle_modification_update env payload w
        = after_apply_delta (up_mtime payload) file_path
            (apply_delta env file_path delta_data (guard_inserted env file_path w)))).
Proof.
  intros Hdes. split.
  - intros info mtime Hdelta Hmtime Hfull.
    rewrite (handle_delta_transfer_entry_delta env file_path info w item items
               delta_data mtime Hdes Hdelta Hmtime Hfull).
    split; intros old_signature -> ->; reflexivity.
  - intros payload <- Haction Hdelta Hfull.
    rewrite (handle_modification_update_delta env payload w item items
               delta_data Hdes Haction Hdelta Hfull).
    split.
    + intros ->. reflexivity.
    + intros [f ->]. reflexivity.
Qed.

(** C10: when [handle_delta_transfer] skips an entry because
    [is_full_file] is false and the path has no signature file, the
    monitored files and the signature store are as before, the echo-guard
    entry written before the check stays, and a watcher event on the path
    within the next 500 ms is ignored. *)
Theorem skipped_delta_leaves_echo_guard (env : os_env) (file_path : string)
    (info : file_info) (w : world) (item : pyobj) (items delta_data : list pyobj) (mtime : Q) :
  fi_delta info = Some (item :: items) ->
  FileSyncCodec.deserialize_delta_data (item :: items) = Ok delta_data ->
  fi_mtime info = Some mtime ->
  default false (fi_is_full_file info) = false ->
  signatures w !! file_path = None ->
  time_ns env <> 0 ->
  exists w',
    handle_delta_transfer_entry env file_path info w = (w', Ok tt)
    /\ monitored w' = monitored w
    /\ signatures w' = signatures w
    /\ tmpdir w' = tmpdir w
    /\ ignore_events w' = <[full_path file_path := time_ns env]> (ignore_events w)
    /\ forall event event_time,
         is_directory event = false ->
         abspath (src_path event) = full_path file_path ->
         event_time < time_ns env + 500000000 ->
         should_ignore event_time event w' = (w', true).
Proof.
  intros Hdelta Hdes Hmtime Hfull Hsig Hclock.
  rewrite (handle_delta_transfer_entry_delta env file_path info w item items
             delta_data mtime Hdes Hdelta Hmtime Hfull).
  unfold load_signature. rewrite Hsig. cbn [signature_truthy].
  eexists. split; [reflexivity|].
  repeat split.
  -
    intros event event_time Hdir Hpath Htime.
    unfold should_ignore. rewrite Hdir, Hpath. world_simpl.
    unfold guard_inserted. world_simpl. rewrite lookup_insert_eq.
    apply Z.eqb_neq in Hclock. rewrite Hclock.
    apply Z.ltb_lt in Htime. now rewrite Htime.
Qed.

(** *** Reconciliation: what is queued *)

(** The checksums of [pyrsync2.blockchecksums] fit [SIGNATURE_PACK]. *)
Hypothesis blockchecksums_packable :
  forall data, Forall packable (blockchecksums data).

Lemma local_directory_state (w : world) :
  exists w' local_state,
    get_local_directory_state_with_signatures w = (w', Ok local_state)
    /\ monitored w' = monitored w
    /\ forall p, me_mtime <$> local_state !! p = f_mtime <$> monitored w !! p.
Proof.
  unfold get_local_directory_state_with_signatures.
  assert (Hsub : monitored w ⊆ monitored w) by reflexivity.
  revert Hsub. generalize (monitored w) at 1 3 5. intros m. revert m.
  apply (map_fold_weak_ind
    (fun (acc : world * result (gmap string manifest_entry)) m =>
       m ⊆ monitored w ->
       exists w' local_state,
         acc = (w', Ok local_state)
         /\ monitored w' = monitored w
         /\ forall p, me_mtime <$> local_state !! p = f_mtime <$> m !! p)).
  - intros _. exists w, ∅. repeat split.
  - intros i x m acc Hi IH Hsub.
    assert (Hx : monitored w !! i = Some x).
    { apply (lookup_weaken _ _ _ _ (lookup_insert_eq m i x) Hsub). }
    destruct IH as (w' & local_state & -> & Hmon & Hlook).
    { etransitivity; [apply insert_subseteq, Hi|exact Hsub]. }
    unfold local_directory_entry, os_stat, compute_signature, save_signature.
    rewrite Hmon, Hx.
    destruct (flatten_signature_chunks _ (blockchecksums_packable (f_data x)))
      as (chunks & -> & _).
    eexists _, _. split; [reflexivity|]. split; [exact Hmon|].
    intros p. destruct (decide (i = p)) as [->|Hne].
    + now rewrite !lookup_insert_eq.
    + rewrite !lookup_insert_ne by exact Hne. apply Hlook.
Qed.

(** What is queued for a file sent whole. *)
Definition full_file_info (f : file) : file_info :=
  {| fi_delta := Some [PyStr (Base64.b64encode (f_data f))];
     fi_mtime := Some (f_mtime f);
     fi_action := Some "CREATE"%string;
     fi_is_full_file := Some true |}.

(** What is queued for a file sent as a delta, once serialised. *)
Definition delta_file_info (f : file) (serialized_delta : list pyobj) : file_info :=
  {| fi_delta := Some serialized_delta;
     fi_mtime := Some (f_mtime f);
     fi_action := Some "CREATE"%string;
     fi_is_full_file := Some false |}.

Lemma prepare_full_file (p : string) (f : file) (signature : option signature) (w : world) :
  monitored w !! p = Some f ->
  signature_truthy signature = false ->
  prepare_file_for_transfer p signature w = Ok (full_file_info f).
Proof.
  intros Hf Hsig. unfold prepare_file_for_transfer, read_file, os_stat.
  rewrite Hf, Hsig. reflexivity.
Qed.

Lemma prepare_delta (p : string) (f : file) (sig : signature) (w : world) :
  monitored w !! p = Some f ->
  sig <> [] ->
  exists S,
    FileSyncCodec.serialize_delta_data (rsyncdelta (f_data f) sig) = Ok S
    /\ prepare_file_for_transfer p (Some sig) w = Ok (delta_file_info f S).
Proof.
  intros Hf Hsig. unfold prepare_file_for_transfer, generate_delta, os_stat.
  rewrite Hf.
  destruct sig as [|rec sig]; [congruence|].
  cbn [signature_truthy default from_option rbind fst snd]. unfold id.
  destruct (FileSyncCodec.serialize_delta_data_ok _ (rsyncdelta_items (f_data f) (rec :: sig)))
    as [S HS].
  exists S. rewrite HS. split; reflexivity.
Qed.

Lemma first_raise_none {A} (l : list (string * result A)) :
  (forall p r, In (p, r) l -> exists a, r = Ok a) -> first_raise l = None.
Proof.
  induction l as [|[p r] l IH]; intros H; [reflexivity|].
  destruct (H p r (or_introl eq_refl)) as [a ->]. simpl.
  apply IH. intros q r' Hin. apply (H q r'). now right.
Qed.

Lemma collect_files_to_send_ok (decisions : gmap string (result file_info)) :
  (forall p r, decisions !! p = Some r -> exists info, r = Ok info) ->
  collect_files_to_send decisions = Ok (omap ok_value decisions).
Proof.
  intros H. unfold collect_files_to_send. rewrite first_raise_none; [reflexivity|].
  intros p r Hin. apply (H p). apply elem_of_map_to_list, list_elem_of_In, Hin.
Qed.

Lemma files_to_send_decision (w : world)
    (local_state remote_state : gmap string manifest_entry) (p : string) :
  merge (files_to_send_entry w)
        (map_imap (fun file_path entry => Some (file_path, entry)) local_state)
        remote_state !! p
  = files_to_send_entry w ((fun entry => (p, entry)) <$> local_state !! p)
                        (remote_state !! p).
Proof.
  rewrite lookup_merge, map_lookup_imap.
  destruct (local_state !! p), (remote_state !! p); reflexivity.
Qed.

(** C1, as the code has it. For manifests whose signatures decode,
    [handle_directory_state] returns, the session is synchronized, and a
    [DELTA_TRANSFER] with the queued entries is sent when, and only when,
    some entry is queued. For a path on both sides with the local file
    newer, the entry is the delta of the local file against the remote
    signature with [is_full_file] false when that signature has a block,
    and the whole file with [is_full_file] true when it has none (the
    remote file is empty); with the local file not newer nothing is queued;
    a path on the local side only has the whole file queued with
    [is_full_file] true; a path that is not local has nothing queued. *)
Theorem handle_directory_state_queue
    (remote_state : gmap string manifest_entry) (self : node) (w : world) :
  (forall p f r, monitored w !! p = Some f -> remote_state !! p = Some r ->
                 (me_mtime r < f_mtime f)%Q ->
                 exists sig, remote_signature r = Ok sig) ->
  exists w' files_to_send self',
    handle_directory_state remote_state self w = (w', self', Ok tt)
    /\ monitored w' = monitored w
    /\ is_synchronized self' = true
    /\ outbox self' = outbox self ++
         (if decide (files_to_send = ∅) then [] else [DELTA_TRANSFER files_to_send])
    /\ forall p,
         (forall f r sig,
            monitored w !! p = Some f -> remote_state !! p = Some r ->
            (me_mtime r < f_mtime f)%Q -> remote_signature r = Ok sig ->
            (sig <> [] ->
               exists S,
                 FileSyncCodec.serialize_delta_data (rsyncdelta (f_data f) sig) = Ok S
                 /\ files_to_send !! p = Some (delta_file_info f S))
            /\ (sig = [] -> files_to_send !! p = Some (full_file_info f)))
         /\ (forall f r,
            monitored w !! p = Some f -> remote_state !! p = Some r ->
            (f_mtime f <= me_mtime r)%Q -> files_to_send !! p = None)
         /\ (forall f,
            monitored w !! p = Some f -> remote_state !! p = None ->
            files_to_send !! p = Some (full_file_info f))
         /\ (monitored w !! p = None -> files_to_send !! p = None).
Proof.
  intros Hwf.
  destruct (local_directory_state w) as (w' & local_state & Hlocal & Hmon & Hmtime).
  set (decisions := merge (files_to_send_entry w')
         (map_imap (fun file_path entry => Some (file_path, entry)) local_state)
         remote_state).
  assert (Hdec : forall p, decisions !! p
            = files_to_send_entry w' ((fun entry => (p, entry)) <$> local_state !! p)
                (remote_state !! p)) by (intros p; apply files_to_send_decision).
  (* the local manifest has the files of the monitored directory, with their mtime *)
  assert (Hloc : forall p,
            match monitored w !! p with
            | Some f => exists e, local_state !! p = Some e /\ me_mtime e = f_mtime f
            | None => local_state !! p = None
            end).
  { intros p. specialize (Hmtime p).
    destruct (monitored w !! p) as [f|], (local_state !! p) as [e|];
      simpl in Hmtime; try discriminate; [|reflexivity].
    exists e. split; [reflexivity|]. congruence. }
  (* no decision raises *)
  assert (Hok : forall p r, decisions !! p = Some r -> exists info, r = Ok info).
  { intros p r. rewrite Hdec. specialize (Hloc p).
    destruct (monitored w !! p) as [f|] eqn:Hf.
    - destruct Hloc as (e & -> & He). cbn [fmap option_fmap option_map files_to_send_entry].
      assert (Hf' : monitored w' !! p = Some f) by now rewrite Hmon.
      destruct (remote_state !! p) as [rm|] eqn:Hr.
      + destruct (mtime_gt (me_mtime e) (me_mtime rm)) eqn:Hgt; [|discriminate].
        apply mtime_gt_true in Hgt. rewrite He in Hgt.
        destruct (Hwf p f rm Hf Hr Hgt) as [sig Hsig].
        intros [= <-]. rewrite Hsig. cbn [rbind].
        destruct sig as [|rec sig].
        * rewrite (prepare_full_file p f (Some []) w' Hf' eq_refl). eauto.
        * destruct (prepare_delta p f (rec :: sig) w' Hf') as (S & _ & ->);
            [discriminate|eauto].
      + intros [= <-]. rewrite (prepare_full_file p f None w' Hf' eq_refl). eauto.
    - rewrite Hloc. discriminate. }
  exists w', (omap ok_value decisions).
  eexists. unfold handle_directory_state. rewrite Hlocal.
  fold decisions. rewrite (collect_files_to_send_ok decisions Hok).
  split; [reflexivity|]. split; [exact Hmon|].
  split; [reflexivity|].
  split.
  { destruct (decide (omap ok_value decisions = ∅)); cbn [set_synchronized outbox send_message].
    - now rewrite app_nil_r.
    - reflexivity. }
  intros p. rewrite lookup_omap, Hdec. specialize (Hloc p).
  split; [|split; [|split]].
  - intros f r sig Hf Hr Hgt Hsig. rewrite Hf in Hloc.
    destruct Hloc as (e & -> & He). rewrite Hr.
    cbn [fmap option_fmap option_map files_to_send_entry].
    assert (Hgt' : mtime_gt (me_mtime e) (me_mtime r) = true)
      by (apply mtime_gt_true; now rewrite He).
    rewrite Hgt', Hsig. cbn [rbind mbind option_bind].
    assert (Hf' : monitored w' !! p = Some f) by now rewrite Hmon.
    split.
    + intros Hne. destruct (prepare_delta p f sig w' Hf' Hne) as (S & HS & ->).
      exists S. split; [exact HS|reflexivity].
    + intros ->. rewrite (prepare_full_file p f (Some []) w' Hf' eq_refl). reflexivity.
  - intros f r Hf Hr Hle. rewrite Hf in Hloc.
    destruct Hloc as (e & -> & He). rewrite Hr.
    cbn [fmap option_fmap option_map files_to_send_entry].
    assert (Hgt' : mtime_gt (me_mtime e) (me_mtime r) = false)
      by (apply mtime_gt_false; now rewrite He).
    rewrite Hgt'. reflexivity.
  - intros f Hf Hr. rewrite Hf in Hloc.
    destruct Hloc as (e & -> & He). rewrite Hr.
    cbn [fmap option_fmap option_map files_to_send_entry mbind option_bind].
    assert (Hf' : monitored w' !! p = Some f) by now rewrite Hmon.
    rewrite (prepare_full_file p f None w' Hf' eq_refl). reflexivity.
  - intros Hf. rewrite Hf in Hloc. rewrite Hloc. reflexivity.
Qed.

(** *** The program as a transition system *)

(** What can happen to a running program: a connection is made or
    accepted and its session registered, the session is sent the local
    manifest, a session ends, a message arrives on a session, or the
    watcher reports an event. The listener of a new session runs from its
    registration on, so a message may be handled between [Connect] and
    [Synchronize]. *)
Inductive occurrence :=
| Connect (node_id : string * Z)
| Synchronize (node_id : string * Z)
| Remove (node_id : string * Z)
| Receive (env : nat -> os_env) (node_id : string * Z) (m : message)
| Modified (event_time current_time : Z) (event : fs_event)
| Created (event_time : Z) (event : fs_event)
| Deleted (event_time : Z) (now : Q) (event : fs_event)
| Moved (event_time : Z) (now : Q) (event : fs_event)
| Stop.

Definition run (o : occurrence) (st : watcher_state) : watcher_state :=
  match o with
  | Connect node_id =>
      {| ws_world := ws_world st; ws_nodes := register_node node_id (ws_nodes st);
         last_trigger_time := last_trigger_time st |}
  | Synchronize node_id =>
      let '(w, nodes) := synchronize_registered node_id (ws_nodes st) (ws_world st) in
      {| ws_world := w; ws_nodes := nodes; last_trigger_time := last_trigger_time st |}
  | Remove node_id =>
      {| ws_world := ws_world st; ws_nodes := remove_node node_id (ws_nodes st);
         last_trigger_time := last_trigger_time st |}
  | Receive env node_id m =>
      let '(w, nodes, _) := handle_message env node_id m (ws_nodes st) (ws_world st) in
      {| ws_world := w; ws_nodes := nodes; last_trigger_time := last_trigger_time st |}
  | Modified event_time current_time event => on_modified event_time current_time event st
  | Created event_time event => on_created event_time event st
  | Deleted event_time now event => on_deleted event_time now event st
  | Moved event_time now event => on_moved event_time now event st
  | Stop =>
      {| ws_world := ws_world st; ws_nodes := ∅;
         last_trigger_time := last_trigger_time st |}
  end.

(** The state after a sequence of occurrences, oldest first. *)
Definition run_all (os : list occurrence) (st : watcher_state) : watcher_state :=
  fold_left (fun st o => run o st) os st.

(** No session that is not synchronized was sent a [MODIFICATION_UPDATE]. *)
Definition updates_only_after_sync (nodes : registry) : Prop :=
  forall node_id n,
    nodes !! node_id = Some n ->
    is_synchronized n = false ->
    Forall (fun m => is_modification_update m = false) (outbox n).

Lemma broadcast_update_lookup (payload : update_payload) (nodes : registry)
    (node_id : string * Z) :
  broadcast_update payload nodes !! node_id
  = (fun n => if is_synchronized n
              then send_message (MODIFICATION_UPDATE payload) n else n)
      <$> nodes !! node_id.
Proof. unfold broadcast_update. apply lookup_fmap. Qed.

Lemma broadcast_update_flag (payload : update_payload) (nodes : registry)
    (node_id : string * Z) (n' : node) :
  broadcast_update payload nodes !! node_id = Some n' ->
  exists n, nodes !! node_id = Some n
            /\ is_synchronized n' = is_synchronized n
            /\ (is_synchronized n = false -> n' = n).
Proof.
  rewrite broadcast_update_lookup.
  destruct (nodes !! node_id) as [n|]; [|discriminate].
  intros [= <-]. exists n. split; [reflexivity|].
  destruct (is_synchronized n) eqn:E; split.
  - cbn [send_message is_synchronized]. exact E.
  - discriminate.
  - exact E.
  - reflexivity.
Qed.

Lemma broadcast_update_invariant (payload : update_payload) (nodes : registry) :
  updates_only_after_sync nodes ->
  updates_only_after_sync (broadcast_update payload nodes).
Proof.
  intros Hinv node_id n' Hn' Hflag.
  destruct (broadcast_update_flag _ _ _ _ Hn') as (n & Hn & Hsame & Hkeep).
  rewrite Hsame in Hflag. rewrite (Hkeep Hflag). apply (Hinv node_id n Hn Hflag).
Qed.

(** [synchronize] sends a [DIRECTORY_STATE] or nothing and leaves the flag. *)
Lemma synchronize_node (self : node) (w : world) :
  let '(_, self', _) := synchronize self w in
  is_synchronized self' = is_synchronized self
  /\ exists sent, outbox self' = outbox self ++ sent
                  /\ Forall (fun m => is_modification_update m = false) sent.
Proof.
  unfold synchronize.
  destruct (get_local_directory_state_with_signatures w) as [w' [local_state|e]].
  - split; [reflexivity|]. eexists. split; [reflexivity|]. repeat constructor.
  - split; [reflexivity|]. exists []. split; [now rewrite app_nil_r|constructor].
Qed.

(** [handle_directory_state] leaves the session as it is (an exception) or
    synchronized, and sends no [MODIFICATION_UPDATE]. *)
Lemma handle_directory_state_node (remote_state : gmap string manifest_entry)
    (self : node) (w : world) :
  let '(_, self', _) := handle_directory_state remote_state self w in
  self' = self \/ is_synchronized self' = true.
Proof.
  unfold handle_directory_state.
  destruct (get_local_directory_state_with_signatures w) as [w' [local_state|e]];
    [|now left].
  destruct (collect_files_to_send _) as [files_to_send|e]; [|now left].
  now right.
Qed.

(** The watcher changes the registry by [broadcast_update] only. *)
Lemma handle_modify_create_nodes (src : string) (action : string)
    (nodes : registry) (w : world) :
  let '(_, nodes') := handle_modify_create src action nodes w in
  nodes' = nodes \/ exists payload, nodes' = broadcast_update payload nodes.
Proof.
  unfold handle_modify_create, modify_create_try.
  match goal with
  | |- context [match ?prepared with Ok _ => _ | Raise _ => _ end] =>
      destruct prepared as [[[stat new_signature] [delta_data is_full_file]]|e]
  end; [|now left].
  destruct (save_signature _ _ _) as [w' [c|e]]; [|now left].
  destruct (FileSyncCodec.serialize_delta_data _) as [S|e]; [|now left].
  right. eexists. reflexivity.
Qed.

Lemma watcher_nodes (o : occurrence) (st : watcher_state) :
  match o with
  | Modified _ _ _ | Created _ _ | Deleted _ _ _ | Moved _ _ _ =>
      ws_nodes (run o st) = ws_nodes st
      \/ exists payload, ws_nodes (run o st) = broadcast_update payload (ws_nodes st)
  | _ => True
  end.
Proof.
  destruct o as [| | | |t1 t2 ev|t1 ev|t1 now ev|t1 now ev|]; try exact I;
    cbn [run]; unfold on_modified, on_created, on_deleted, on_moved;
    destruct (should_ignore t1 ev (ws_world st)) as [w [|]]; try (now left).
  - destruct (negb (contains_tilde (src_path ev)) && _); [|now left].
    pose proof (handle_modify_create_nodes (src_path ev) "MODIFY" (ws_nodes st) w) as H.
    destruct (handle_modify_create _ _ _ _) as [w' nodes']. exact H.
  - pose proof (handle_modify_create_nodes (src_path ev) "CREATE" (ws_nodes st) w) as H.
    destruct (handle_modify_create _ _ _ _) as [w' nodes']. exact H.
  - right. eexists. reflexivity.
  - right. eexists. reflexivity.
Qed.

Lemma register_node_lookup (node_id id : string * Z) (nodes : registry) :
  register_node node_id nodes !! id
  = match nodes !! id with
    | Some n => Some n
    | None => if decide (node_id = id) then Some Node_init else None
    end.
Proof.
  unfold register_node. destruct (decide (node_id = id)) as [->|Hne].
  - destruct (nodes !! id) as [n|] eqn:Hn; [exact Hn|apply lookup_insert_eq].
  - destruct (nodes !! node_id) as [n0|]; [|rewrite lookup_insert_ne by exact Hne];
      now destruct (nodes !! id).
Qed.

(** The manifest goes to the session registered as [node_id], whose flag
    stays, and to no other. *)
Lemma synchronize_registered_lookup (node_id id : string * Z) (nodes : registry)
    (w : world) :
  match (synchronize_registered node_id nodes w).2 !! id, nodes !! id with
  | Some n', Some n =>
      is_synchronized n' = is_synchronized n
      /\ exists sent, outbox n' = outbox n ++ sent
                      /\ Forall (fun m => is_modification_update m = false) sent
  | None, None => True
  | _, _ => False
  end.
Proof.
  unfold synchronize_registered.
  destruct (nodes !! node_id) as [n0|] eqn:Hn0.
  - pose proof (synchronize_node n0 w) as Hs.
    destruct (synchronize n0 w) as [[w' n1] r]. cbn [snd].
    destruct (decide (node_id = id)) as [->|Hne].
    + rewrite lookup_insert_eq, Hn0. exact Hs.
    + rewrite lookup_insert_ne by exact Hne.
      destruct (nodes !! id) as [n|]; [|exact I].
      split; [reflexivity|]. exists []. split; [now rewrite app_nil_r|constructor].
  - destruct (synchronize Node_init w) as [[w' n1] r]. cbn [snd].
    destruct (nodes !! id) as [n|]; [|exact I].
    split; [reflexivity|]. exists []. split; [now rewrite app_nil_r|constructor].
Qed.

Lemma run_synchronize_nodes (node_id : string * Z) (st : watcher_state) :
  ws_nodes (run (Synchronize node_id) st)
  = (synchronize_registered node_id (ws_nodes st) (ws_world st)).2.
Proof.
  cbn [run]. now destruct (synchronize_registered node_id (ws_nodes st) (ws_world st)).
Qed.

Lemma run_invariant (o : occurrence) (st : watcher_state) :
  updates_only_after_sync (ws_nodes st) ->
  updates_only_after_sync (ws_nodes (run o st)).
Proof.
  intros Hinv.
  pose proof (watcher_nodes o st) as Hw.
  destruct o as [node_id|node_id|node_id|env node_id m|t1 t2 ev|t1 ev|t1 now ev|t1 now ev|];
    try (destruct Hw as [->|[payload ->]];
         [exact Hinv|apply broadcast_update_invariant, Hinv]).
  - cbn [run ws_nodes]. intros id n' Hn' Hflag.
    rewrite register_node_lookup in Hn'.
    destruct (ws_nodes st !! id) as [n|] eqn:Hn.
    + injection Hn' as <-. apply (Hinv id n Hn Hflag).
    + destruct (decide (node_id = id)); [|discriminate].
      injection Hn' as <-. constructor.
  - rewrite run_synchronize_nodes. intros id n' Hn' Hflag.
    pose proof (synchronize_registered_lookup node_id id (ws_nodes st) (ws_world st)) as Hs.
    rewrite Hn' in Hs.
    destruct (ws_nodes st !! id) as [n|] eqn:Hn; [|contradiction].
    destruct Hs as (Hsame & sent & Hout & Hsent).
    rewrite Hout. apply Forall_app. split; [|exact Hsent].
    apply (Hinv id n Hn). congruence.
  - cbn [run ws_nodes]. intros id n' Hn' Hflag. unfold remove_node in Hn'.
    destruct (decide (node_id = id)) as [->|Hne].
    + rewrite lookup_delete_eq in Hn'. discriminate.
    + rewrite lookup_delete_ne in Hn' by exact Hne. apply (Hinv id n' Hn' Hflag).
  - cbn [run]. unfold handle_message. destruct m as [remote_state|payload|payload].
    + destruct (ws_nodes st !! node_id) as [self|] eqn:Hself; [|exact Hinv].
      pose proof (handle_directory_state_node remote_state self (ws_world st)) as Hd.
      destruct (handle_directory_state remote_state self (ws_world st)) as [[w self'] r].
      cbn [ws_nodes]. intros id n' Hn' Hflag.
      destruct (decide (node_id = id)) as [->|Hne].
      * rewrite lookup_insert_eq in Hn'. injection Hn' as <-.
        destruct Hd as [->|Hd]; [apply (Hinv id self Hself Hflag)|congruence].
      * rewrite lookup_insert_ne in Hn' by exact Hne. apply (Hinv id n' Hn' Hflag).
    + destruct (handle_delta_transfer env payload (ws_world st)) as [w r]. exact Hinv.
    + destruct (handle_modification_update (env 0%nat) payload (ws_world st)) as [w r].
      exact Hinv.
  - cbn [run ws_nodes]. intros id n' Hn'. rewrite lookup_empty in Hn'. discriminate.
Qed.

Lemma run_all_invariant (os : list occurrence) (st : watcher_state) :
  updates_only_after_sync (ws_nodes st) ->
  updates_only_after_sync (ws_nodes (run_all os st)).
Proof.
  revert st. induction os as [|o os IH]; intros st Hinv; [exact Hinv|].
  cbn [run_all fold_left]. apply IH, run_invariant, Hinv.
Qed.

(** The flag of a registered session goes from false to true only when the
    session handles a [DIRECTORY_STATE]. *)
Lemma flag_set_by_directory_state (o : occurrence) (st : watcher_state)
    (node_id : string * Z) (n n' : node) :
  ws_nodes st !! node_id = Some n ->
  ws_nodes (run o st) !! node_id = Some n' ->
  is_synchronized n = false ->
  is_synchronized n' = true ->
  exists env remote_state, o = Receive env node_id (DIRECTORY_STATE remote_state).
Proof.
  intros Hn Hn' Hf Ht.
  pose proof (watcher_nodes o st) as Hw.
  destruct o as [id|id|id|env id m|t1 t2 ev|t1 ev|t1 now ev|t1 now ev|];
    try (exfalso; destruct Hw as [Hw|[payload Hw]]; rewrite Hw in Hn';
         [congruence|];
         destruct (broadcast_update_flag _ _ _ _ Hn') as (n0 & Hn0 & Hsame & _);
         congruence).
  - exfalso. cbn [run ws_nodes] in Hn'. rewrite register_node_lookup, Hn in Hn'.
    congruence.
  - exfalso. rewrite run_synchronize_nodes in Hn'.
    pose proof (synchronize_registered_lookup id node_id (ws_nodes st) (ws_world st)) as Hs.
    rewrite Hn', Hn in Hs. destruct Hs as [Hsame _]. congruence.
  - exfalso. cbn [run ws_nodes] in Hn'. unfold remove_node in Hn'.
    destruct (decide (id = node_id)) as [->|Hne].
    + rewrite lookup_delete_eq in Hn'. discriminate.
    + rewrite lookup_delete_ne in Hn' by exact Hne. congruence.
  - cbn [run] in Hn'. unfold handle_message in Hn'.
    destruct m as [remote_state|payload|payload].
    + destruct (ws_nodes st !! id) as [self|] eqn:Hself.
      * destruct (handle_directory_state remote_state self (ws_world st))
          as [[w self'] r].
        cbn [ws_nodes] in Hn'.
        destruct (decide (id = node_id)) as [->|Hne]; [eauto|].
        rewrite lookup_insert_ne in Hn' by exact Hne. congruence.
      * cbn [ws_nodes] in Hn'. congruence.
    + destruct (handle_delta_transfer env payload (ws_world st)) as [w r].
      cbn [ws_nodes] in Hn'. congruence.
    + destruct (handle_modification_update (env 0%nat) payload (ws_world st)) as [w r].
      cbn [ws_nodes] in Hn'. congruence.
  - exfalso. cbn [run ws_nodes] in Hn'. rewrite lookup_empty in Hn'. discriminate.
Qed.

(** A session enters the registry by [Connect] only, as [Node.__init__]
    makes it. *)
Lemma new_session_registered (o : occurrence) (st : watcher_state)
    (node_id : string * Z) (n' : node) :
  ws_nodes st !! node_id = None ->
  ws_nodes (run o st) !! node_id = Some n' ->
  o = Connect node_id /\ n' = Node_init.
Proof.
  intros Hn Hn'.
  pose proof (watcher_nodes o st) as Hw.
  destruct o as [id|id|id|env id m|t1 t2 ev|t1 ev|t1 now ev|t1 now ev|];
    try (exfalso; destruct Hw as [Hw|[payload Hw]]; rewrite Hw in Hn';
         [congruence|];
         rewrite broadcast_update_lookup, Hn in Hn'; discriminate).
  - cbn [run ws_nodes] in Hn'. rewrite register_node_lookup, Hn in Hn'.
    destruct (decide (id = node_id)) as [->|]; [|discriminate].
    split; congruence.
  - exfalso. rewrite run_synchronize_nodes in Hn'.
    pose proof (synchronize_registered_lookup id node_id (ws_nodes st) (ws_world st)) as Hs.
    rewrite Hn', Hn in Hs. exact Hs.
  - exfalso. cbn [run ws_nodes] in Hn'. unfold remove_node in Hn'.
    destruct (decide (id = node_id)) as [->|Hne].
    + rewrite lookup_delete_eq in Hn'. discriminate.
    + rewrite lookup_delete_ne in Hn' by exact Hne. congruence.
  - exfalso. cbn [run] in Hn'. unfold handle_message in Hn'.
    destruct m as [remote_state|payload|payload].
    + destruct (ws_nodes st !! id) as [self|] eqn:Hself.
      * destruct (handle_directory_state remote_state self (ws_world st))
          as [[w self'] r].
        cbn [ws_nodes] in Hn'.
        destruct (decide (id = node_id)) as [->|Hne]; [congruence|].
        rewrite lookup_insert_ne in Hn' by exact Hne. congruence.
      * cbn [ws_nodes] in Hn'. congruence.
    + destruct (handle_delta_transfer env payload (ws_world st)) as [w r].
      cbn [ws_nodes] in Hn'. congruence.
    + destruct (handle_modification_update (env 0%nat) payload (ws_world st)) as [w r].
      cbn [ws_nodes] in Hn'. congruence.
  - exfalso. cbn [run ws_nodes] in Hn'. rewrite lookup_empty in Hn'. discriminate.
Qed.

Lemma run_all_snoc (os : list occurrence) (o : occurrence) (st : watcher_state) :
  run_all (os ++ [o]) st = run o (run_all os st).
Proof. unfold run_all. now rewrite fold_left_app. Qed.

(** A session that is synchronized has handled a [DIRECTORY_STATE]. *)
Lemma synchronized_after_directory_state (os : list occurrence) (st : watcher_state)
    (node_id : string * Z) (n : node) :
  ws_nodes st = ∅ ->
  ws_nodes (run_all os st) !! node_id = Some n ->
  is_synchronized n = true ->
  exists os1 env remote_state os2,
    os = os1 ++ Receive env node_id (DIRECTORY_STATE remote_state) :: os2.
Proof.
  intros Hempty. revert n.
  induction os as [|o os IH] using rev_ind; intros n Hn Hflag.
  - cbn [run_all fold_left] in Hn. rewrite Hempty, lookup_empty in Hn. discriminate.
  - rewrite run_all_snoc in Hn.
    destruct (ws_nodes (run_all os st) !! node_id) as [n0|] eqn:Hn0.
    + destruct (is_synchronized n0) eqn:Hflag0.
      * destruct (IH n0 eq_refl Hflag0) as (os1 & env & remote_state & os2 & ->).
        exists os1, env, remote_state, (os2 ++ [o]).
        now rewrite <- app_assoc.
      * destruct (flag_set_by_directory_state o _ node_id n0 n Hn0 Hn Hflag0 Hflag)
          as (env & remote_state & ->).
        exists os, env, remote_state, []. reflexivity.
    + destruct (new_session_registered o _ node_id n Hn0 Hn) as [_ ->].
      discriminate Hflag.
Qed.

Lemma broadcast_update_on_returns (sendall_raises : string * Z -> bool)
    (payload : update_payload) (sessions : list (string * Z * node)) :
  (forall node_id n, In (node_id, n) sessions -> is_synchronized n = true ->
     sendall_raises node_id = false) ->
  broadcast_update_on sendall_raises payload sessions
  = Returns (prod_map id (updated payload) <$> sessions).
Proof.
  induction sessions as [|[node_id n] sessions IH]; intros Hok; [reflexivity|].
  cbn [broadcast_update_on fmap list_fmap prod_map fst snd].
  rewrite IH by (intros id0 n0 Hin; apply Hok; now right).
  unfold updated, send_message_on. destruct (is_synchronized n) eqn:Hflag; [|reflexivity].
  now rewrite (Hok node_id n (or_introl eq_refl) Hflag).
Qed.

Lemma broadcast_update_on_blocks (sendall_raises : string * Z -> bool)
    (payload : update_payload) (before after : list (string * Z * node))
    (node_id : string * Z) (n : node) :
  (forall id0 n0, In (id0, n0) before -> is_synchronized n0 = true ->
     sendall_raises id0 = false) ->
  is_synchronized n = true ->
  sendall_raises node_id = true ->
  broadcast_update_on sendall_raises payload (before ++ (node_id, n) :: after)
  = Blocks ((prod_map id (updated payload) <$> before) ++ (node_id, n) :: after).
Proof.
  intros Hok Hflag Hraises.
  induction before as [|[id0 n0] before IH].
  - cbn [app broadcast_update_on fmap list_fmap]. unfold send_message_on.
    now rewrite Hflag, Hraises.
  - cbn [app broadcast_update_on fmap list_fmap prod_map fst snd].
    rewrite IH by (intros id1 n1 Hin; apply Hok; now right).
    unfold updated, send_message_on. destruct (is_synchronized n0) eqn:Hflag0; [|reflexivity].
    now rewrite (Hok id0 n0 (or_introl eq_refl) Hflag0).
Qed.

(** C7, as the code has it. While every [sendall] succeeds,
    [broadcast_update] sends the [MODIFICATION_UPDATE] to the registered
    sessions whose flag is true and leaves the others as they are. A
    session enters the registry unsynchronized and with nothing sent to it
    ([Node.__init__]); its flag goes from false to true only when it
    handles a [DIRECTORY_STATE]; so in any state the program reaches from
    an empty registry, a session that was sent a [MODIFICATION_UPDATE] is
    synchronized and has handled a [DIRECTORY_STATE] before. When
    [sendall] raises for a synchronized session, [broadcast_update] does
    not return, and the sessions behind that one are not sent the update,
    synchronized or not. *)
Theorem updates_follow_handshake :
  (forall payload (nodes : registry) node_id n,
     nodes !! node_id = Some n ->
     broadcast_update payload nodes !! node_id
     = Some (if is_synchronized n
             then send_message (MODIFICATION_UPDATE payload) n else n))
  /\ (forall os st node_id n payload,
     ws_nodes st = ∅ ->
     ws_nodes (run_all os st) !! node_id = Some n ->
     In (MODIFICATION_UPDATE payload) (outbox n) ->
     is_synchronized n = true)
  /\ (forall o st node_id n n',
     ws_nodes st !! node_id = Some n ->
     ws_nodes (run o st) !! node_id = Some n' ->
     is_synchronized n = false ->
     is_synchronized n' = true ->
     exists env remote_state, o = Receive env node_id (DIRECTORY_STATE remote_state))
  /\ (forall o st node_id n',
     ws_nodes st !! node_id = None ->
     ws_nodes (run o st) !! node_id = Some n' ->
     o = Connect node_id /\ is_synchronized n' = false /\ outbox n' = [])
  /\ (forall os st node_id n payload,
     ws_nodes st = ∅ ->
     ws_nodes (run_all os st) !! node_id = Some n ->
     In (MODIFICATION_UPDATE payload) (outbox n) ->
     exists os1 env remote_state os2,
       os = os1 ++ Receive env node_id (DIRECTORY_STATE remote_state) :: os2)
  /\ (forall sendall_raises payload (nodes : registry),
     (forall node_id n, nodes !! node_id = Some n -> is_synchronized n = true ->
        sendall_raises node_id = false) ->
     exists sessions,
       broadcast_update_on sendall_raises payload (map_to_list nodes) = Returns sessions
       /\ list_to_map sessions = broadcast_update payload nodes)
  /\ (forall sendall_raises payload before after node_id n,
     (forall id0 n0, In (id0, n0) before -> is_synchronized n0 = true ->
        sendall_raises id0 = false) ->
     is_synchronized n = true ->
     sendall_raises node_id = true ->
     broadcast_update_on sendall_raises payload (before ++ (node_id, n) :: after)
     = Blocks ((prod_map id (updated payload) <$> before) ++ (node_id, n) :: after)).
Proof.
  assert (Hsafe : forall os st node_id n payload,
            ws_nodes st = ∅ ->
            ws_nodes (run_all os st) !! node_id = Some n ->
            In (MODIFICATION_UPDATE payload) (outbox n) ->
            is_synchronized n = true).
  { intros os st node_id n payload Hempty Hn Hin.
    destruct (is_synchronized n) eqn:Hflag; [reflexivity|exfalso].
    assert (Hinv : updates_only_after_sync (ws_nodes (run_all os st))).
    { apply run_all_invariant. rewrite Hempty. intros id n0 Hn0.
      rewrite lookup_empty in Hn0. discriminate. }
    specialize (Hinv node_id n Hn Hflag).
    rewrite Forall_forall in Hinv. apply list_elem_of_In in Hin.
    specialize (Hinv _ Hin). discriminate. }
  repeat apply conj.
  - intros payload nodes node_id n Hn. rewrite broadcast_update_lookup, Hn. reflexivity.
  - exact Hsafe.
  - exact flag_set_by_directory_state.
  - intros o st node_id n' Hn Hn'.
    destruct (new_session_registered o st node_id n' Hn Hn') as [-> ->].
    repeat split.
  - intros os st node_id n payload Hempty Hn Hin.
    apply (synchronized_after_directory_state os st node_id n Hempty Hn).
    apply (Hsafe os st node_id n payload Hempty Hn Hin).
  - intros sendall_raises payload nodes Hok. eexists. split.
    + apply broadcast_update_on_returns. intros node_id n Hin.
      apply Hok. now apply elem_of_map_to_list, list_elem_of_In.
    + rewrite list_to_map_fmap, list_to_map_to_list. reflexivity.
  - exact broadcast_update_on_blocks.
Qed.

(** *** The watcher and paths with a tilde *)

Lemma should_ignore_files (event_time : Z) (event : fs_event) (w : world) :
  monitored (should_ignore event_time event w).1 = monitored w
  /\ signatures (should_ignore event_time event w).1 = signatures w.
Proof.
  unfold should_ignore. destruct (is_directory event); [now split|].
  destruct (ignore_events w !! abspath (src_path event)) as [t|]; [|now split].
  destruct (t =? 0); [now split|].
  destruct (event_time <? t + 500000000); now split.
Qed.

Lemma should_ignore_unguarded (event_time : Z) (event : fs_event) (w : world) :
  is_directory event = false ->
  ignore_events w !! abspath (src_path event) = None ->
  should_ignore event_time event w = (w, false).
Proof. intros Hd Hg. unfold should_ignore. now rewrite Hd, Hg. Qed.

(** C9 on the code: the test for a tilde is in [on_modified] only. A
    modification of a path with a tilde computes and saves no signature and
    broadcasts nothing; the creation of such a file saves its signature and
    broadcasts a CREATE; its deletion and its move broadcast a DELETE and a
    RENAME. (The events are on files, with no echo-guard entry.) *)
Theorem tilde_checked_on_modify_only (event : fs_event) (st : watcher_state) :
  contains_tilde (src_path event) = true ->
  (forall event_time current_time,
     let st' := on_modified event_time current_time event st in
     ws_nodes st' = ws_nodes st
     /\ signatures (ws_world st') = signatures (ws_world st)
     /\ monitored (ws_world st') = monitored (ws_world st))
  /\ (is_directory event = false ->
      ignore_events (ws_world st) !! abspath (src_path event) = None ->
      (forall event_time f,
         monitored (ws_world st) !! relpath (src_path event) = Some f ->
         signatures (ws_world st) !! relpath (src_path event) = None ->
         let st' := on_created event_time event st in
         ws_nodes st'
         = broadcast_update
             {| up_file_path := relpath (src_path event);
                up_action := Some "CREATE"%string;
                up_mtime := Some (f_mtime f);
                up_delta := Some [PyStr (Base64.b64encode (f_data f))];
                up_dest_path := None;
                up_is_full_file := Some true |} (ws_nodes st)
         /\ is_Some (signatures (ws_world st') !! relpath (src_path event)))
      /\ (forall event_time now,
         ws_nodes (on_deleted event_time now event st)
         = broadcast_update
             {| up_file_path := relpath (src_path event);
                up_action := Some "DELETE"%string;
                up_mtime := Some now;
                up_delta := None;
                up_dest_path := None;
                up_is_full_file := None |} (ws_nodes st))
      /\ (forall event_time now,
         ws_nodes (on_moved event_time now event st)
         = broadcast_update
             {| up_file_path := relpath (src_path event);
                up_action := Some "RENAME"%string;
                up_mtime := Some now;
                up_delta := None;
                up_dest_path := Some (relpath (dest_path event));
                up_is_full_file := None |} (ws_nodes st))).
Proof.
  intros Htilde. split.
  - intros event_time current_time. unfold on_modified.
    pose proof (should_ignore_files event_time event (ws_world st)) as [Hm Hs].
    destruct (should_ignore event_time event (ws_world st)) as [w ignore].
    cbn [fst] in Hm, Hs. rewrite Htilde. cbn [negb andb].
    destruct ignore; cbn [ws_nodes ws_world]; auto.
  - intros Hdir Hguard. split; [|split].
    + intros event_time f Hf Hsig. unfold on_created.
      rewrite (should_ignore_unguarded _ _ _ Hdir Hguard).
      unfold handle_modify_create, modify_create_try.
      unfold os_stat, load_signature, compute_signature, read_file.
      rewrite Hf, Hsig. cbn [signature_truthy rbind]. unfold save_signature.
      destruct (flatten_signature_chunks _ (blockchecksums_packable (f_data f)))
        as (chunks & -> & _).
      cbn [FileSyncCodec.serialize_delta_data map_result FileSyncCodec.serialize_item
           isinstance_int rbind ws_nodes ws_world].
      split; [reflexivity|]. world_simpl. rewrite lookup_insert_eq. eauto.
    + intros event_time now. unfold on_deleted.
      rewrite (should_ignore_unguarded _ _ _ Hdir Hguard). reflexivity.
    + intros event_time now. unfold on_moved.
      rewrite (should_ignore_unguarded _ _ _ Hdir Hguard). reflexivity.
Qed.

(* ===================================================================== *)
(** ** Further properties *)
(* ===================================================================== *)

(** *** The signature store *)

(** The weak checksum fits the packed long. *)
Definition weak_in_range (rec : Z * bytes) : Prop :=
  0 <= rec.1 < 2 ^ (8 * Z.of_nat long_size).

(** What the format [16s] keeps of a byte string: its first 16 bytes, padded
    with null bytes. *)
Definition as_16s (s : bytes) : bytes := firstn 16 (s ++ repeat x00 16).

Definition packed_record (rec : Z * bytes) : Z * bytes := (rec.1, as_16s rec.2).

Lemma length_as_16s (s : bytes) : length (as_16s s) = 16%nat.
Proof.
  unfold as_16s. rewrite length_firstn, length_app, repeat_length. lia.
Qed.

Lemma as_16s_exact (s : bytes) : length s = 16%nat -> as_16s s = s.
Proof.
  intros Hlen. unfold as_16s. rewrite <- Hlen. apply firstn_exact.
Qed.

Lemma packed_record_packable (sig : signature) :
  Forall packable sig -> map packed_record sig = sig.
Proof.
  induction 1 as [|[weak strong] sig [_ Hlen] _ IH]; [reflexivity|].
  cbn [map]. rewrite IH. unfold packed_record. cbn [fst snd] in *.
  now rewrite (as_16s_exact strong Hlen).
Qed.

Lemma pack_in_range (weak : Z) (strong : bytes) :
  weak_in_range (weak, strong) ->
  pack_SIGNATURE_PACK weak strong
  = Ok (native_bytes long_size (Z.to_N weak) ++ as_16s strong).
Proof.
  intros [Hlo Hhi]. cbn [fst] in *. unfold pack_SIGNATURE_PACK.
  replace ((0 <=? weak) && (weak <? 2 ^ (8 * Z.of_nat long_size))) with true;
    [reflexivity|].
  symmetry. apply andb_true_intro. split; [apply Z.leb_le|apply Z.ltb_lt]; assumption.
Qed.

Lemma pack_out_of_range (weak : Z) (strong : bytes) :
  ~ weak_in_range (weak, strong) ->
  pack_SIGNATURE_PACK weak strong = Raise StructError.
Proof.
  intros Hout. unfold pack_SIGNATURE_PACK.
  destruct ((0 <=? weak) && (weak <? 2 ^ (8 * Z.of_nat long_size))) eqn:E;
    [|reflexivity].
  exfalso. apply Hout. apply andb_prop in E as [Hlo Hhi].
  split; cbn [fst]; [apply Z.leb_le|apply Z.ltb_lt]; assumption.
Qed.

Lemma weak_in_range_dec (rec : Z * bytes) : {weak_in_range rec} + {~ weak_in_range rec}.
Proof.
  unfold weak_in_range.
  destruct (Z_le_dec 0 rec.1); [|right; lia].
  destruct (Z_lt_dec rec.1 (2 ^ (8 * Z.of_nat long_size))); [left|right]; lia.
Qed.

Lemma unpack_packed (weak : Z) (s16 : bytes) :
  weak_in_range (weak, s16) -> length s16 = 16%nat ->
  unpack_SIGNATURE_PACK (native_bytes long_size (Z.to_N weak) ++ s16) = Ok (weak, s16).
Proof.
  intros [Hlo Hhi] Hlen. cbn [fst] in *.
  unfold unpack_SIGNATURE_PACK, calcsize_SIGNATURE_PACK.
  rewrite length_app, length_native_bytes, Hlen, Nat.eqb_refl.
  pose proof (firstn_exact (native_bytes long_size (Z.to_N weak)) s16) as Hf.
  pose proof (skipn_exact (native_bytes long_size (Z.to_N weak)) s16) as Hs.
  rewrite length_native_bytes in Hf, Hs. rewrite Hf, Hs.
  rewrite native_value_bytes.
  - rewrite Z2N.id by exact Hlo. reflexivity.
  - rewrite pow2_bytes in Hhi. lia.
Qed.

Lemma flatten_signature_in_range (sig : signature) :
  Forall weak_in_range sig ->
  exists chunks,
    flatten_signature sig = Ok (concat chunks)
    /\ Forall (fun c => length c = calcsize_SIGNATURE_PACK) chunks
    /\ map_result unpack_SIGNATURE_PACK chunks = Ok (map packed_record sig).
Proof.
  induction 1 as [|[weak strong] sig Hrec _ IH].
  - exists []. repeat split; constructor.
  - destruct IH as (chunks & Hf & Hls & Hus).
    exists ((native_bytes long_size (Z.to_N weak) ++ as_16s strong) :: chunks).
    cbn [flatten_signature concat map_result map].
    rewrite (pack_in_range weak strong Hrec), Hf.
    rewrite (unpack_packed weak (as_16s strong) Hrec (length_as_16s strong)), Hus.
    repeat split. constructor; [|assumption].
    rewrite length_app, length_native_bytes, length_as_16s. reflexivity.
Qed.

Lemma flatten_signature_out_of_range (sig : signature) :
  Exists (fun rec => ~ weak_in_range rec) sig ->
  flatten_signature sig = Raise StructError.
Proof.
  induction sig as [|[weak strong] sig IH]; intros Hex; [inversion Hex|].
  cbn [flatten_signature].
  destruct (weak_in_range_dec (weak, strong)) as [Hin|Hout].
  - rewrite (pack_in_range weak strong Hin). cbn [rbind].
    inversion Hex as [? ? Hhead|? ? Htail]; subst; [contradiction|].
    rewrite (IH Htail). reflexivity.
  - rewrite (pack_out_of_range weak strong Hout). reflexivity.
Qed.

(** Parsing the compressed concatenation of whole records unpacks the
    records one by one. *)
Lemma parse_signature_records (chunks : list bytes) :
  Forall (fun c => length c = calcsize_SIGNATURE_PACK) chunks ->
  parse_signature (zlib_compress (concat chunks))
  = map_result unpack_SIGNATURE_PACK chunks.
Proof.
  intros Hls. unfold parse_signature. rewrite zlib_roundtrip. cbn [rbind].
  rewrite (length_concat_chunks _ _ Hls).
  rewrite range_step_multiple by (unfold calcsize_SIGNATURE_PACK; lia).
  rewrite map_result_map.
  rewrite <- (map_result_map unpack_SIGNATURE_PACK
    (fun k => slice (concat chunks) (k * calcsize_SIGNATURE_PACK)
                    (k * calcsize_SIGNATURE_PACK + calcsize_SIGNATURE_PACK))).
  now rewrite (slices_concat _ _ Hls).
Qed.

(** Saving a signature whose weak checksums are in range, and what the
    store then holds for the path. *)
Lemma save_signature_stored (sig : signature) (p : string) (w : world) :
  Forall weak_in_range sig ->
  exists compressed_data,
    save_signature sig p w
    = (set_signatures (<[p := compressed_data]> (signatures w)) w, Ok compressed_data)
    /\ parse_signature compressed_data = Ok (map packed_record sig).
Proof.
  intros Hsig.
  destruct (flatten_signature_in_range sig Hsig) as (chunks & Hf & Hls & Hus).
  exists (zlib_compress (concat chunks)). unfold save_signature. rewrite Hf.
  split; [reflexivity|]. now rewrite (parse_signature_records _ Hls).
Qed.

Lemma packable_in_range (sig : signature) :
  Forall packable sig -> Forall weak_in_range sig.
Proof.
  intros H. eapply Forall_impl; [exact H|]. intros rec [Hr _]. exact Hr.
Qed.

(** X1: a signature that [struct.pack] takes as it is, once saved under a
    path, is what [load_signature] returns for that path, whatever was
    stored for it before. *)
Theorem load_saved_signature (sig : signature) (p : string) (w : world) :
  Forall packable sig ->
  exists compressed_data w',
    save_signature sig p w = (w', Ok compressed_data)
    /\ load_signature p w' = Ok (Some sig).
Proof.
  intros Hsig.
  destruct (save_signature_stored sig p w (packable_in_range sig Hsig))
    as (c & Hsave & Hparse).
  rewrite (packed_record_packable sig Hsig) in Hparse.
  exists c, (set_signatures (<[p := c]> (signatures w)) w).
  split; [exact Hsave|].
  unfold load_signature. world_simpl. rewrite lookup_insert_eq, Hparse. reflexivity.
Qed.

(** X2: with weak checksums in range, whatever the length of the strong
    checksums, [save_signature] succeeds and [parse_signature] returns the
    records with every strong checksum cut to its first 16 bytes or padded
    with null bytes to 16. *)
Theorem save_cuts_or_pads_strong_checksum (sig : signature) (p : string) (w : world) :
  Forall weak_in_range sig ->
  exists compressed_data w',
    save_signature sig p w = (w', Ok compressed_data)
    /\ parse_signature compressed_data
       = Ok (map (fun rec => (rec.1, firstn 16 (rec.2 ++ repeat x00 16))) sig).
Proof.
  intros Hsig.
  destruct (save_signature_stored sig p w Hsig) as (c & Hsave & Hparse).
  exists c, (set_signatures (<[p := c]> (signatures w)) w).
  split; [exact Hsave|exact Hparse].
Qed.

(** X3: one weak checksum outside the range of the packed long makes
    [save_signature] raise [struct.error] before anything is written: the
    state is the one before the call. *)
Theorem save_signature_out_of_range (sig : signature) (p : string) (w : world) :
  Exists (fun rec => ~ weak_in_range rec) sig ->
  save_signature sig p w = (w, Raise StructError).
Proof.
  intros Hex. unfold save_signature.
  now rewrite (flatten_signature_out_of_range sig Hex).
Qed.

Lemma map_result_raise_at {A B} (f : A -> result B) (l1 l2 : list A) (x : A) (e : exn) :
  (forall y, In y l1 -> exists b, f y = Ok b) ->
  f x = Raise e ->
  map_result f (l1 ++ x :: l2) = Raise e.
Proof.
  induction l1 as [|y l1 IH]; intros Hok Hx; cbn [app map_result].
  - now rewrite Hx.
  - destruct (Hok y (or_introl eq_refl)) as [b ->]. cbn [rbind].
    rewrite IH; [reflexivity| |exact Hx].
    intros z Hz. apply Hok. now right.
Qed.

Lemma length_slice {A} (l : list A) (i j : nat) :
  length (slice l i j) = Nat.min (j - i) (length l - i).
Proof. unfold slice. now rewrite length_firstn, length_skipn. Qed.

(** X4: compressed data whose decompressed length is not a whole number of
    records makes [parse_signature] raise [struct.error]: the last slice is
    too short for [struct.unpack]. *)
Theorem parse_signature_trailing_bytes (signature_data flattened_data : bytes) :
  zlib_decompress signature_data = Ok flattened_data ->
  (length flattened_data mod calcsize_SIGNATURE_PACK <> 0)%nat ->
  parse_signature signature_data = Raise StructError.
Proof.
  intros Hz Hmod. unfold parse_signature. rewrite Hz. cbn [rbind].
  set (size := calcsize_SIGNATURE_PACK) in *.
  assert (Hsize : (0 < size)%nat) by (unfold size, calcsize_SIGNATURE_PACK; lia).
  set (len := length flattened_data) in *.
  set (q := (len / size)%nat). set (r := (len mod size)%nat) in *.
  assert (Hlen : len = (q * size + r)%nat).
  { unfold q, r. rewrite (Nat.div_mod len size) at 1 by lia. lia. }
  assert (Hr : (r < size)%nat) by (apply Nat.mod_upper_bound; lia).
  assert (Hcount : ((len + size - 1) / size = q + 1)%nat).
  { symmetry. apply (Nat.div_unique _ _ _ (r - 1)); lia. }
  unfold range_step. rewrite Hcount, Nat.add_1_r, seq_S, map_app. cbn [map].
  apply map_result_raise_at.
  - intros i Hi. apply in_map_iff in Hi as (k & <- & Hk). apply in_seq in Hk.
    unfold unpack_SIGNATURE_PACK. fold size. rewrite length_slice. fold len.
    replace (Nat.min (k * size + size - k * size) (len - k * size)) with size by nia.
    rewrite Nat.eqb_refl. eauto.
  - unfold unpack_SIGNATURE_PACK. fold size. rewrite length_slice. fold len.
    cbn [Nat.add].
    replace (Nat.min (q * size + size - q * size) (len - q * size)) with r by lia.
    replace (r =? size)%nat with false; [reflexivity|].
    symmetry. apply Nat.eqb_neq. lia.
Qed.

(** *** The delta codec *)

Lemma serialize_item_wire (item w : pyobj) :
  FileSyncCodec.serialize_item item = Ok w -> FileSyncCodec.is_wire_item w = true.
Proof.
  unfold FileSyncCodec.serialize_item.
  destruct item; simpl; intros H; inversion H; reflexivity.
Qed.

Lemma deserialize_item_delta (item d : pyobj) :
  FileSyncCodec.deserialize_item item = Ok d -> FileSyncCodec.is_delta_item d = true.
Proof.
  unfold FileSyncCodec.deserialize_item.
  destruct item; simpl; intros H; try (inversion H; reflexivity).
  destruct (Base64.b64decode s); inversion H. reflexivity.
Qed.

Lemma map_result_Forall {A B} (f : A -> result B) (P : B -> Prop) (l : list A) (l' : list B) :
  (forall x y, f x = Ok y -> P y) ->
  map_result f l = Ok l' -> Forall P l' /\ length l' = length l.
Proof.
  intros Hf. revert l'. induction l as [|x l IH]; intros l' H; cbn [map_result] in H.
  - inversion H. split; [constructor|reflexivity].
  - destruct (f x) as [y|] eqn:Hx; [|discriminate]. cbn [rbind] in H.
    destruct (map_result f l) as [ys|]; [|discriminate]. cbn [rbind] in H.
    inversion H; subst. destruct (IH ys eq_refl) as [HP Hlen].
    split; [constructor; [apply (Hf x y Hx)|exact HP]|cbn [length]; now rewrite Hlen].
Qed.

(** X5: what [serialize_delta_data] returns is made of integers and strings
    only, one per element of the delta, and what [deserialize_delta_data]
    returns is made of integers and byte strings only, one per element of
    the list. *)
Theorem delta_codec_element_types (l l' : list pyobj) :
  (FileSyncCodec.serialize_delta_data l = Ok l' ->
     Forall (fun o => FileSyncCodec.is_wire_item o = true) l' /\ length l' = length l)
  /\ (FileSyncCodec.deserialize_delta_data l = Ok l' ->
     Forall (fun o => FileSyncCodec.is_delta_item o = true) l' /\ length l' = length l).
Proof.
  split; apply map_result_Forall.
  - apply serialize_item_wire.
  - apply deserialize_item_delta.
Qed.

(** Deserialising what a delta of integers and byte chunks serialises to
    gives the delta. *)
Lemma deserialize_serialized (D S : list pyobj) :
  Forall (fun o => FileSyncCodec.is_delta_item o = true) D ->
  FileSyncCodec.serialize_delta_data D = Ok S ->
  FileSyncCodec.deserialize_delta_data S = Ok D.
Proof.
  unfold FileSyncCodec.serialize_delta_data, FileSyncCodec.deserialize_delta_data.
  intros HD. revert S. induction HD as [|item D Hitem _ IH]; intros S HS.
  - inversion HS. reflexivity.
  - cbn [map_result] in HS.
    destruct (FileSyncCodec.deserialize_serialize_item item Hitem) as (w & Hs & Hd).
    rewrite Hs in HS. cbn [rbind] in HS.
    destruct (map_result FileSyncCodec.serialize_item D) as [S'|]; [|discriminate].
    inversion HS; subst. cbn [map_result]. rewrite Hd, (IH S' eq_refl). reflexivity.
Qed.

(** *** The framed channel: a stream that ends early *)

Lemma recv_until_stream (need : N) (sock : list bytes) :
  forall buffer buf' sock' r,
  recv_until need buffer sock = (buf', sock', r) ->
  match r with
  | Ok _ => buf' ++ concat sock' = buffer ++ concat sock
            /\ (need <= N.of_nat (length buf'))%N
  | Raise _ => (N.of_nat (length buf') < need)%N
  end.
Proof.
  induction sock as [|data sock IH]; intros buffer buf' sock' r; cbn [recv_until].
  - destruct (N.of_nat (length buffer) <? need)%N eqn:E; intros [= <- <- <-].
    + now apply N.ltb_lt in E.
    + apply N.ltb_ge in E. split; [reflexivity|exact E].
  - destruct (N.of_nat (length buffer) <? need)%N eqn:E.
    + destruct data as [|b data].
      * intros [= <- <- <-]. now apply N.ltb_lt in E.
      * intros H. specialize (IH _ _ _ _ H). destruct r; [|exact IH].
        destruct IH as [Hs Hn]. split; [|exact Hn].
        rewrite Hs. cbn [concat]. now rewrite <- app_assoc.
    + intros [= <- <- <-]. apply N.ltb_ge in E. split; [reflexivity|exact E].
Qed.

Lemma recv_until_short (need : N) (sock : list bytes) (buffer : bytes) :
  (N.of_nat (length (buffer ++ concat sock)) < need)%N ->
  exists buf' sock' e, recv_until need buffer sock = (buf', sock', Raise e).
Proof.
  intros Hshort.
  destruct (recv_until need buffer sock) as [[buf' sock'] [[]|e]] eqn:Hr; [|eauto].
  apply recv_until_stream in Hr as [Hs Hn].
  assert (length buf' <= length (buffer ++ concat sock))%nat
    by (rewrite <- Hs, length_app; lia).
  lia.
Qed.

(** X6: when the peer closes the connection before a whole frame has
    arrived (fewer than 8 bytes in all, or fewer bytes after the length
    prefix than the prefix announces), [receive_message] returns [None]. *)
Theorem receive_message_truncated (n : node) (sock : list bytes) :
  let stream := buffer n ++ concat sock in
  (length stream < 8)%nat
  \/ (exists message_length,
        unpack_Q_be (firstn 8 stream) = Ok message_length
        /\ (N.of_nat (length stream) < 8 + message_length)%N) ->
  (receive_message n sock).2 = None.
Proof.
  intros stream Hshort. unfold receive_message.
  destruct (recv_until 8 (buffer n) sock) as [[buf1 sock1] [[]|e]] eqn:Hr1;
    [|reflexivity].
  apply recv_until_stream in Hr1 as [Hs1 Hn1]. fold stream in Hs1.
  assert (Hle : (length buf1 <= length stream)%nat)
    by (rewrite <- Hs1, length_app; lia).
  destruct Hshort as [Hshort|(message_length & Hunpack & Hshort)].
  - exfalso. lia.
  - rewrite (firstn_prefix 8 buf1 (concat sock1)) by lia.
    rewrite Hs1, Hunpack.
    destruct (recv_until_short message_length sock1 (skipn 8 buf1))
      as (buf2 & sock2 & e & ->); [|reflexivity].
    rewrite (skipn_prefix 8 buf1 (concat sock1)) by lia.
    rewrite Hs1, length_skipn. lia.
Qed.

(** *** Receiving a file *)

(** The state once the file [p] was received with [data] and [mtime], and
    its signature, compressed to [c], saved. *)
Definition file_received (p : string) (data : bytes) (mtime : Q) (c : bytes)
    (w : world) : world :=
  set_signatures (<[p := c]> (signatures w))
    (set_monitored (<[p := {| f_data := data; f_mtime := mtime |}]> (monitored w)) w).

Lemma utime_and_save_signature_ok (mtime : Q) (p : string) (f : file) (w : world) :
  monitored w !! p = Some f ->
  exists c,
    utime_and_save_signature (Some mtime) p w
    = (file_received p (f_data f) mtime c w, Ok tt)
    /\ parse_signature c = Ok (blockchecksums (f_data f)).
Proof.
  intros Hf. unfold utime_and_save_signature, compute_signature. rewrite Hf.
  world_simpl. rewrite lookup_insert_eq. cbn [f_data].
  destruct (save_signature_stored (blockchecksums (f_data f)) p
              (set_monitored (<[p := {| f_data := f_data f; f_mtime := mtime |}]>
                                (monitored w)) w)
              (packable_in_range _ (blockchecksums_packable (f_data f))))
    as (c & Hsave & Hparse).
  rewrite (packed_record_packable _ (blockchecksums_packable (f_data f))) in Hparse.
  exists c. rewrite Hsave. split; [reflexivity|exact Hparse].
Qed.




Definition is_create_or_modify (action : string) : Prop :=
  action = "CREATE"%string \/ action = "MODIFY"%string.

Lemma action_is_create_or_modify (action : string) :
  is_create_or_modify action ->
  action_is "MODIFY" (Some action) || action_is "CREATE" (Some action) = true.
Proof. intros [-> | ->]; reflexivity. Qed.




Lemma file_eta (f : file) : {| f_data := f_data f; f_mtime := f_mtime f |} = f.
Proof. now destruct f. Qed.

(** *** The watcher: what a create or modify event does *)

(** The delta [handle_modify_create] sends for a file, given the signature
    it loaded. *)
Definition outgoing_delta (f : file) (old_signature : option signature) : list pyobj :=
  if signature_truthy old_signature
  then rsyncdelta (f_data f) (default [] old_signature)
  else [PyBytes (f_data f)].

Lemma outgoing_delta_items (f : file) (old_signature : option signature) :
  Forall (fun o => FileSyncCodec.is_delta_item o = true) (outgoing_delta f old_signature).
Proof.
  unfold outgoing_delta. destruct (signature_truthy old_signature).
  - apply rsyncdelta_items.
  - repeat constructor.
Qed.

Lemma handle_modify_create_ok (src action : string) (nodes : registry) (w : world)
    (f : file) (old_signature : option signature) :
  monitored w !! relpath src = Some f ->
  load_signature (relpath src) w = Ok old_signature ->
  exists c S,
    FileSyncCodec.serialize_delta_data (outgoing_delta f old_signature) = Ok S
    /\ parse_signature c = Ok (blockchecksums (f_data f))
    /\ handle_modify_create src action nodes w
       = (set_signatures (<[relpath src := c]> (signatures w)) w,
          broadcast_update
            {| up_file_path := relpath src;
               up_action := Some action;
               up_mtime := Some (f_mtime f);
               up_delta := Some S;
               up_dest_path := None;
               up_is_full_file := Some (negb (signature_truthy old_signature)) |} nodes).
Proof.
  intros Hf Hold.
  destruct (FileSyncCodec.serialize_delta_data_ok _ (outgoing_delta_items f old_signature))
    as [S HS].
  destruct (save_signature_stored (blockchecksums (f_data f)) (relpath src) w
              (packable_in_range _ (blockchecksums_packable (f_data f))))
    as (c & Hsave & Hparse).
  rewrite (packed_record_packable _ (blockchecksums_packable (f_data f))) in Hparse.
  exists c, S. split; [exact HS|]. split; [exact Hparse|].
  unfold handle_modify_create, modify_create_try.
  unfold os_stat, compute_signature, generate_delta, read_file.
  rewrite Hf, Hold. cbn [rbind]. unfold outgoing_delta in HS.
  destruct (signature_truthy old_signature); cbn [rbind negb];
    rewrite Hsave, HS; reflexivity.
Qed.

(** X7: a create or modify event on an existing file whose stored
    signature loads (or is missing) is never lost to an exception: the
    signature of the current content replaces the stored one, the files are
    left as they are, and the update broadcast carries the file's path,
    action and mtime, a serialised delta that deserialises to the delta
    computed against the old signature (to the whole content when there was
    none), and [is_full_file] true exactly when there was no old
    signature. *)
Theorem handle_modify_create_broadcast (src action : string) (nodes : registry)
    (w : world) (f : file) (old_signature : option signature) :
  monitored w !! relpath src = Some f ->
  load_signature (relpath src) w = Ok old_signature ->
  exists payload w' S,
    handle_modify_create src action nodes w = (w', broadcast_update payload nodes)
    /\ load_signature (relpath src) w' = Ok (Some (blockchecksums (f_data f)))
    /\ monitored w' = monitored w /\ log w' = log w
    /\ up_file_path payload = relpath src
    /\ up_action payload = Some action
    /\ up_mtime payload = Some (f_mtime f)
    /\ up_is_full_file payload = Some (negb (signature_truthy old_signature))
    /\ up_delta payload = Some S
    /\ FileSyncCodec.deserialize_delta_data S
       = Ok (if signature_truthy old_signature
             then rsyncdelta (f_data f) (default [] old_signature)
             else [PyBytes (f_data f)]).
Proof.
  intros Hf Hold.
  destruct (handle_modify_create_ok src action nodes w f old_signature Hf Hold)
    as (c & S & HS & Hparse & Hrun).
  eexists _, _, S. split; [exact Hrun|].
  split; [unfold load_signature; world_simpl; now rewrite lookup_insert_eq, Hparse|].
  repeat (split; [reflexivity|]).
  apply (deserialize_serialized _ _ (outgoing_delta_items f old_signature) HS).
Qed.

(** X8: a create or modify event on a file that is gone, or whose stored
    signature cannot be parsed, broadcasts nothing and changes no file and
    no signature; the error is logged. *)
Theorem handle_modify_create_isolated (src action : string) (nodes : registry) (w : world) :
  monitored w !! relpath src = None
  \/ (exists e, load_signature (relpath src) w = Raise e) ->
  handle_modify_create src action nodes w
  = (logging ERROR ("Error handling file " +:+ relpath src) w, nodes).
Proof.
  intros H. unfold handle_modify_create, modify_create_try, os_stat.
  destruct (monitored w !! relpath src) as [f|] eqn:Hf.
  - destruct H as [H|[e He]]; [discriminate|]. rewrite He. reflexivity.
  - reflexivity.
Qed.

(** *** From the watcher of one node to the handler of its peer *)



Lemma apply_delta_ok (env : os_env) (p : string) (delta_data : list pyobj)
    (w : world) (base_file : file) (written : bytes) :
  mktemp_fails env = false ->
  replace_fails env = false ->
  monitored w !! p = Some base_file ->
  patchstream (f_data base_file) delta_data = (written, None) ->
  exists w1,
    apply_delta env p delta_data w = (w1, Ok tt)
    /\ monitored w1
       = <[p := {| f_data := written; f_mtime := seconds_of_ns (time_ns env) |}]> (monitored w)
    /\ signatures w1 = signatures w
    /\ ignore_events w1 = ignore_events w
    /\ log w1 = log w.
Proof.
  intros Hmk Hrep Hbase Hpatch. unfold apply_delta. rewrite Hmk.
  cbn [monitored set_tmpdir]. rewrite Hbase, Hpatch, Hrep.
  eexists. split; [reflexivity|]. world_simpl. auto.
Qed.

(** X10: a modification of a file that both nodes hold travels as a
    delta. With pyrsync2 rebuilding the new content from the peer's base
    and the delta computed against the sender's stored signature (an empty
    delta standing for empty content only), and the operating system
    failing nothing, the peer ends with the sender's content and
    modification time, no other file is touched, and the peer stores the
    signature of the new content. *)
Theorem modified_file_reaches_peer (src action : string) (nodes : registry)
    (sender receiver : world) (f base_file : file) (old_signature : signature)
    (env : os_env) :
  is_create_or_modify action ->
  monitored sender !! relpath src = Some f ->
  load_signature (relpath src) sender = Ok (Some old_signature) ->
  old_signature <> [] ->
  monitored receiver !! relpath src = Some base_file ->
  patchstream (f_data base_file) (rsyncdelta (f_data f) old_signature) = (f_data f, None) ->
  (rsyncdelta (f_data f) old_signature = [] -> f_data f = []) ->
  mktemp_fails env = false ->
  replace_fails env = false ->
  exists payload sender' receiver',
    handle_modify_create src action nodes sender
    = (sender', broadcast_update payload nodes)
    /\ up_is_full_file payload = Some false
    /\ handle_modification_update env payload receiver = (receiver', Ok tt)
    /\ monitored receiver' = <[relpath src := f]> (monitored receiver)
    /\ load_signature (relpath src) receiver' = Ok (Some (blockchecksums (f_data f)))
    /\ log receiver' = log receiver.
Proof.
  intros Haction Hf Hold Hne Hbase Hpatch Hempty Hmk Hrep.
  assert (Htruthy : signature_truthy (Some old_signature) = true)
    by (destruct old_signature; [contradiction|reflexivity]).
  destruct (handle_modify_create_ok src action nodes sender f (Some old_signature) Hf Hold)
    as (c & S & HS & Hparse & Hrun).
  unfold outgoing_delta in HS. rewrite Htruthy in HS, Hrun.
  cbn [default from_option negb] in HS, Hrun. unfold id in HS.
  pose proof (deserialize_serialized _ _ (rsyncdelta_items (f_data f) old_signature) HS)
    as Hback.
  set (rel := relpath src) in *.
  set (payload := {| up_file_path := rel; up_action := Some action;
                     up_mtime := Some (f_mtime f); up_delta := Some S;
                     up_dest_path := None; up_is_full_file := Some false |}) in *.
  enough (exists receiver',
            handle_modification_update env payload receiver = (receiver', Ok tt)
            /\ monitored receiver' = <[rel := f]> (monitored receiver)
            /\ load_signature rel receiver' = Ok (Some (blockchecksums (f_data f)))
            /\ log receiver' = log receiver) as (receiver' & Hrecv).
  { exists payload, (set_signatures (<[rel := c]> (signatures sender)) sender), receiver'.
    split; [exact Hrun|]. split; [reflexivity|]. exact Hrecv. }
  unfold handle_modification_update, payload.
  cbn [up_file_path up_action up_mtime up_delta up_is_full_file default from_option].
  rewrite (action_is_create_or_modify action Haction), Hback.
  fold (guard_inserted env rel receiver).
  unfold modification_update_try, id.
  set (wg := guard_inserted env rel receiver).
  destruct (rsyncdelta (f_data f) old_signature) as [|item items] eqn:Hdelta.
  - (* the empty delta: the file is emptied *)
    destruct (utime_and_save_signature_ok (f_mtime f) rel
                {| f_data := []; f_mtime := seconds_of_ns (time_ns env) |}
                (truncate_file env rel wg)) as (c' & Hfinish & Hparse').
    { unfold truncate_file. world_simpl. apply lookup_insert_eq. }
    rewrite Hfinish. cbn [f_data] in *.
    eexists. split; [reflexivity|].
    unfold load_signature, file_received, truncate_file, wg, guard_inserted. world_simpl.
    rewrite !lookup_insert_eq, insert_insert_eq, Hparse', (Hempty eq_refl).
    rewrite <- (Hempty eq_refl), file_eta. auto.
  - assert (Hbase' : monitored wg !! rel = Some base_file) by exact Hbase.
    rewrite Hbase'.
    destruct (apply_delta_ok env rel (item :: items) wg base_file (f_data f)
                Hmk Hrep Hbase' Hpatch) as (w1 & Happly & Hmon & Hsig & Hig & Hlog).
    rewrite Happly.
    destruct (utime_and_save_signature_ok (f_mtime f) rel
                {| f_data := f_data f; f_mtime := seconds_of_ns (time_ns env) |} w1)
      as (c' & Hfinish & Hparse').
    { rewrite Hmon. apply lookup_insert_eq. }
    rewrite Hfinish. cbn [f_data] in *.
    eexists. split; [reflexivity|].
    unfold load_signature, file_received. world_simpl.
    rewrite !lookup_insert_eq, Hmon, insert_insert_eq, Hparse', file_eta, Hlog. auto.
Qed.

Lemma should_ignore_files_kept (event_time : Z) (event : fs_event) (w : world) :
  monitored (should_ignore event_time event w).1 = monitored w
  /\ signatures (should_ignore event_time event w).1 = signatures w
  /\ log (should_ignore event_time event w).1 = log w.
Proof.
  unfold should_ignore. destruct (is_directory event); [auto|].
  destruct (ignore_events w !! abspath (src_path event)) as [t|]; [|auto].
  destruct (t =? 0); [auto|].
  destruct (event_time <? t + 500000000); auto.
Qed.



(** *** The echo guard after an update was applied *)

Lemma save_signature_guard (sig : signature) (p : string) (w : world) :
  ignore_events (save_signature sig p w).1 = ignore_events w.
Proof. unfold save_signature. now destruct (flatten_signature sig). Qed.

Lemma utime_and_save_signature_guard (mtime : option Q) (p : string) (w : world) :
  ignore_events (utime_and_save_signature mtime p w).1 = ignore_events w.
Proof.
  unfold utime_and_save_signature.
  destruct mtime as [mtime|]; [|reflexivity].
  destruct (monitored w !! p) as [f|]; [|reflexivity].
  match goal with |- context [compute_signature p ?w1] =>
    destruct (compute_signature p w1) as [new_signature|e]; [|reflexivity];
    pose proof (save_signature_guard new_signature p w1) as H;
    destruct (save_signature new_signature p w1) as [w2 [c|e]]; exact H
  end.
Qed.

Lemma write_full_file_guard (env : os_env) (p : string) (delta_data : list pyobj)
    (w : world) :
  ignore_events (write_full_file env p delta_data w).1 = ignore_events w.
Proof. unfold write_full_file. now destruct (bytes_join delta_data). Qed.

Lemma apply_delta_guard (env : os_env) (p : string) (delta_data : list pyobj) (w : world) :
  ignore_events (apply_delta env p delta_data w).1 = ignore_events w.
Proof.
  unfold apply_delta. destruct (mktemp_fails env); [reflexivity|].
  cbn [monitored set_tmpdir].
  destruct (monitored w !! p) as [base_file|]; [|reflexivity].
  destruct (patchstream (f_data base_file) delta_data) as [written [e|]]; [reflexivity|].
  now destruct (replace_fails env).
Qed.

Lemma modification_update_try_guard (env : os_env) (p : string) (mtime : option Q)
    (is_full_file : bool) (delta_data : list pyobj) (w : world) :
  ignore_events (modification_update_try env p mtime is_full_file delta_data w).1
  = ignore_events w.
Proof.
  unfold modification_update_try.
  assert (Hfinish : forall w1, ignore_events w1 = ignore_events w ->
            ignore_events
              (match utime_and_save_signature mtime p w1 with
               | (w2, Raise e) => (w2, Raise e)
               | (w2, Ok _) => (w2, Ok Completed)
               end).1 = ignore_events w).
  { intros w1 <-. pose proof (utime_and_save_signature_guard mtime p w1) as H.
    now destruct (utime_and_save_signature mtime p w1) as [w2 [[]|e]]. }
  destruct delta_data as [|item items].
  - apply Hfinish. reflexivity.
  - destruct is_full_file.
    + pose proof (write_full_file_guard env p (item :: items) w) as H.
      destruct (write_full_file env p (item :: items) w) as [w1 [[]|e]].
      * apply Hfinish, H.
      * exact H.
    + destruct (monitored w !! p) as [f|]; [|reflexivity].
      pose proof (apply_delta_guard env p (item :: items) w) as H.
      destruct (apply_delta env p (item :: items) w) as [w1 [[]|e]].
      * apply Hfinish, H.
      * exact H.
Qed.

Lemma handle_modification_update_guard (env : os_env) (payload : update_payload)
    (w : world) :
  ignore_events (handle_modification_update env payload w).1
  = <[full_path (up_file_path payload) := time_ns env]> (ignore_events w).
Proof.
  unfold handle_modification_update.
  fold (guard_inserted env (up_file_path payload) w).
  set (wg := guard_inserted env (up_file_path payload) w).
  destruct (action_is "MODIFY" (up_action payload) || action_is "CREATE" (up_action payload)).
  - destruct (up_delta payload) as [S|]; [|reflexivity].
    destruct (FileSyncCodec.deserialize_delta_data S) as [delta_data|e]; [|reflexivity].
    pose proof (modification_update_try_guard env (up_file_path payload) (up_mtime payload)
                  (default false (up_is_full_file payload)) delta_data wg) as H.
    destruct (modification_update_try env (up_file_path payload) (up_mtime payload)
                (default false (up_is_full_file payload)) delta_data wg) as [w1 [c|e]];
      exact H.
  - destruct (action_is "DELETE" (up_action payload)); [reflexivity|].
    destruct (action_is "RENAME" (up_action payload)); [|reflexivity].
    destruct (up_dest_path payload) as [dest|]; [|reflexivity].
    unfold wg, guard_inserted. world_simpl.
    destruct (monitored w !! up_file_path payload) as [f|]; world_simpl;
      now destruct (signatures w !! up_file_path payload).
Qed.

(** X13: whatever update a node has handled, and however handling it
    ended, the watcher events on the path the update names that arrive less
    than 500 ms after the handler read the clock are all dropped: none of
    the four callbacks broadcasts, changes a signature, or moves the
    debounce time. *)
Theorem update_echo_suppressed (env : os_env) (payload : update_payload) (w : world)
    (nodes : registry) (trigger event_time current_time : Z) (now : Q) (event : fs_event) :
  time_ns env <> 0 ->
  abspath (src_path event) = full_path (up_file_path payload) ->
  event_time < time_ns env + 500000000 ->
  let st := {| ws_world := (handle_modification_update env payload w).1;
               ws_nodes := nodes; last_trigger_time := trigger |} in
  on_modified event_time current_time event st = st
  /\ on_created event_time event st = st
  /\ on_deleted event_time now event st = st
  /\ on_moved event_time now event st = st.
Proof.
  intros Hnz Hpath Hsoon st.
  assert (Hignore : should_ignore event_time event (ws_world st) = (ws_world st, true)).
  { unfold should_ignore. destruct (is_directory event); [reflexivity|].
    unfold st at 1. cbn [ws_world].
    rewrite handle_modification_update_guard, Hpath, lookup_insert_eq.
    apply Z.eqb_neq in Hnz. apply Z.ltb_lt in Hsoon. now rewrite Hnz, Hsoon. }
  unfold on_modified, on_created, on_deleted, on_moved. rewrite Hignore.
  repeat split.
Qed.

(** *** The debounce of modify events *)

(** X14: the debounce is per watcher, not per file: once a modify event
    was handled at clock reading [t1], a modify event on any file whose
    clock reading is at most 100 ms later broadcasts nothing and saves no
    signature, and the debounce time stays [t1]. *)
Theorem on_modified_debounce (event_time1 t1 event_time2 t2 : Z)
    (event1 event2 : fs_event) (st : watcher_state) :
  (should_ignore event_time1 event1 (ws_world st)).2 = false ->
  contains_tilde (src_path event1) = false ->
  100000000 < t1 - last_trigger_time st ->
  t2 - t1 <= 100000000 ->
  let st1 := on_modified event_time1 t1 event1 st in
  let st2 := on_modified event_time2 t2 event2 st1 in
  last_trigger_time st1 = t1
  /\ ws_nodes st2 = ws_nodes st1
  /\ signatures (ws_world st2) = signatures (ws_world st1)
  /\ monitored (ws_world st2) = monitored (ws_world st1)
  /\ log (ws_world st2) = log (ws_world st1)
  /\ last_trigger_time st2 = t1.
Proof.
  intros Hnot Htilde Hlate Hsoon st1 st2.
  assert (H1 : last_trigger_time st1 = t1).
  { unfold st1, on_modified.
    destruct (should_ignore event_time1 event1 (ws_world st)) as [w ignore].
    cbn [snd] in Hnot. subst ignore. rewrite Htilde.
    apply Z.ltb_lt in Hlate. rewrite Hlate. cbn [negb andb].
    now destruct (handle_modify_create (src_path event1) "MODIFY" (ws_nodes st) w). }
  split; [exact H1|].
  unfold st2, on_modified. rewrite H1.
  destruct (should_ignore_files_kept event_time2 event2 (ws_world st1)) as (Hm & Hs & Hl).
  destruct (should_ignore event_time2 event2 (ws_world st1)) as [w ignore].
  cbn [fst] in Hm, Hs, Hl.
  assert (Hdrop : (100000000 <? t2 - t1) = false) by (apply Z.ltb_ge; lia).
  rewrite Hdrop, andb_false_r.
  destruct ignore; cbn [ws_nodes ws_world last_trigger_time]; auto.
Qed.

(** *** Updates that do not carry what they announce *)

Lemma bytes_join_raise (delta_data : list pyobj) :
  Exists (fun o => isinstance_bytes o = false) delta_data ->
  bytes_join delta_data = Raise TypeError.
Proof.
  induction 1 as [o rest Ho | o rest _ IH].
  - destruct o; try reflexivity. discriminate Ho.
  - destruct o; try reflexivity. cbn [bytes_join]. now rewrite IH.
Qed.

(** X15: an update flagged as a full file whose delta holds an element
    that is not a byte chunk (a block reference) destroys the local copy:
    the file is opened for writing before the chunks are joined, so it is
    left empty, its signature is not renewed, and the only trace is an
    error in the log; the handler itself returns normally. (The directory
    of the file is taken to exist.) *)
Theorem full_file_with_block_reference (env : os_env) (payload : update_payload)
    (w : world) (action : string) (S delta_data : list pyobj) :
  is_create_or_modify action ->
  up_action payload = Some action ->
  up_is_full_file payload = Some true ->
  up_delta payload = Some S ->
  FileSyncCodec.deserialize_delta_data S = Ok delta_data ->
  Exists (fun o => isinstance_bytes o = false) delta_data ->
  let p := up_file_path payload in
  exists w',
    handle_modification_update env payload w = (w', Ok tt)
    /\ monitored w'
       = <[p := {| f_data := []; f_mtime := seconds_of_ns (time_ns env) |}]> (monitored w)
    /\ signatures w' = signatures w
    /\ log w' = log w ++ [(ERROR, "Error applying delta to " +:+ p)].
Proof.
  intros Haction Hact Hfull Hdelta Hdes Hbad p.
  unfold handle_modification_update. fold p.
  rewrite Hact, Hfull, Hdelta, Hdes, (action_is_create_or_modify action Haction).
  cbn [default from_option]. unfold id, modification_update_try.
  destruct delta_data as [|item items]; [inversion Hbad|].
  unfold write_full_file. rewrite (bytes_join_raise _ Hbad).
  eexists. split; [reflexivity|]. world_simpl. auto.
Qed.


(** *** Paths that cannot collide *)




(** *** The manifest of the local directory *)

(** What [get_local_directory_state_with_signatures] returns and leaves
    behind, file by file. *)
Lemma local_directory_state_entries (w : world) :
  exists w' local_state,
    get_local_directory_state_with_signatures w = (w', Ok local_state)
    /\ monitored w' = monitored w
    /\ ignore_events w' = ignore_events w
    /\ log w' = log w
    /\ forall p,
         match monitored w !! p with
         | Some f =>
             exists c,
               local_state !! p
               = Some {| me_mtime := f_mtime f;
                         me_size := Z.of_nat (length (f_data f));
                         me_signature := Base64.b64encode c |}
               /\ signatures w' !! p = Some c
               /\ parse_signature c = Ok (blockchecksums (f_data f))
         | None => local_state !! p = None /\ signatures w' !! p = signatures w !! p
         end.
Proof.
  unfold get_local_directory_state_with_signatures.
  assert (Hsub : monitored w ⊆ monitored w) by reflexivity.
  revert Hsub. generalize (monitored w) at 1 3 5. intros m. revert m.
  apply (map_fold_weak_ind
    (fun (acc : world * result (gmap string manifest_entry)) m =>
       m ⊆ monitored w ->
       exists w' local_state,
         acc = (w', Ok local_state)
         /\ monitored w' = monitored w
         /\ ignore_events w' = ignore_events w
         /\ log w' = log w
         /\ forall p,
              match m !! p with
              | Some f =>
                  exists c,
                    local_state !! p
                    = Some {| me_mtime := f_mtime f;
                              me_size := Z.of_nat (length (f_data f));
                              me_signature := Base64.b64encode c |}
                    /\ signatures w' !! p = Some c
                    /\ parse_signature c = Ok (blockchecksums (f_data f))
              | None => local_state !! p = None /\ signatures w' !! p = signatures w !! p
              end)).
  - intros _. exists w, ∅. repeat split; reflexivity.
  - intros i x m acc Hi IH Hsub.
    assert (Hx : monitored w !! i = Some x).
    { apply (lookup_weaken _ _ _ _ (lookup_insert_eq m i x) Hsub). }
    destruct IH as (w' & local_state & -> & Hmon & Hig & Hlog & Hlook).
    { etransitivity; [apply insert_subseteq, Hi|exact Hsub]. }
    unfold local_directory_entry, os_stat, compute_signature.
    rewrite Hmon, Hx.
    destruct (save_signature_stored (blockchecksums (f_data x)) i w'
                (packable_in_range _ (blockchecksums_packable (f_data x))))
      as (c & Hsave & Hparse).
    rewrite (packed_record_packable _ (blockchecksums_packable (f_data x))) in Hparse.
    rewrite Hsave.
    eexists _, _. split; [reflexivity|]. world_simpl.
    repeat (split; [assumption|]).
    intros p. destruct (decide (i = p)) as [->|Hne].
    + rewrite !lookup_insert_eq. exists c. auto.
    + rewrite !lookup_insert_ne by exact Hne. apply Hlook.
Qed.



(** *** Reconciliation *)


(** The decision of the loop of [handle_directory_state] for one path, from
    the files rather than from the local manifest. *)
Definition decision_at (w : world) (remote_state : gmap string manifest_entry)
    (p : string) : option (result file_info) :=
  match monitored w !! p with
  | None => None
  | Some f =>
      match remote_state !! p with
      | None => Some (Ok (full_file_info f))
      | Some r =>
          if mtime_gt (f_mtime f) (me_mtime r) then
            Some (let! signature := remote_signature r in
                  prepare_file_for_transfer p (Some signature) w)
          else None
      end
  end.

Lemma handle_directory_state_decisions (remote_state : gmap string manifest_entry)
    (self : node) (w : world) :
  exists w' decisions,
    handle_directory_state remote_state self w
    = match collect_files_to_send decisions with
      | Raise e => (w', self, Raise e)
      | Ok files_to_send =>
          (w', set_synchronized
                 (if decide (files_to_send = ∅) then self
                  else send_message (DELTA_TRANSFER files_to_send) self), Ok tt)
      end
    /\ monitored w' = monitored w
    /\ log w' = log w
    /\ (forall p f, monitored w !! p = Some f ->
          exists c, signatures w' !! p = Some c
                    /\ parse_signature c = Ok (blockchecksums (f_data f)))
    /\ forall p, decisions !! p = decision_at w' remote_state p.
Proof.
  destruct (local_directory_state_entries w)
    as (w' & local_state & Hget & Hmon & Hig & Hlog & Hentries).
  eexists w', _. unfold handle_directory_state. rewrite Hget.
  split; [reflexivity|]. split; [exact Hmon|]. split; [exact Hlog|]. split.
  { intros p f Hf. specialize (Hentries p). rewrite Hf in Hentries.
    destruct Hentries as (c & _ & Hc & Hparse). eauto. }
  intros p. rewrite files_to_send_decision. unfold decision_at.
  specialize (Hentries p). rewrite Hmon.
  destruct (monitored w !! p) as [f|] eqn:Hf.
  - destruct Hentries as (c & -> & _).
    cbn [fmap option_fmap option_map files_to_send_entry me_mtime].
    destruct (remote_state !! p) as [r|]; [reflexivity|].
    now rewrite (prepare_full_file p f None w') by (rewrite ?Hmon; auto).
  - destruct Hentries as [-> _]. reflexivity.
Qed.

Lemma first_raise_some {A} (l : list (string * result A)) (p : string) (e : exn) :
  In (p, Raise e) l -> exists e', first_raise l = Some e'.
Proof.
  induction l as [|[q r] l IH]; intros Hin; [destruct Hin|].
  destruct r as [a|e0]; cbn [first_raise]; [|eauto].
  destruct Hin as [Heq|Hin]; [discriminate|]. auto.
Qed.

(** X18: one manifest entry whose signature does not decode, for a file
    that is newer locally, makes the whole handshake fail: the handler
    raises, the session stays unsynchronised, and nothing is sent, not even
    the files that need no signature. *)
Theorem handle_directory_state_undecodable (remote_state : gmap string manifest_entry)
    (self : node) (w : world) (p : string) (f : file) (r : manifest_entry) (e : exn) :
  monitored w !! p = Some f ->
  remote_state !! p = Some r ->
  (me_mtime r < f_mtime f)%Q ->
  remote_signature r = Raise e ->
  exists w' e',
    handle_directory_state remote_state self w = (w', self, Raise e')
    /\ monitored w' = monitored w
    /\ log w' = log w.
Proof.
  intros Hf Hr Hnewer Hbad.
  destruct (handle_directory_state_decisions remote_state self w)
    as (w' & decisions & Hrun & Hmon & Hlog & _ & Hdec).
  assert (Hp : decisions !! p = Some (Raise e)).
  { rewrite Hdec. unfold decision_at. rewrite Hmon, Hf, Hr.
    apply mtime_gt_true in Hnewer. now rewrite Hnewer, Hbad. }
  apply elem_of_map_to_list, list_elem_of_In in Hp.
  destruct (first_raise_some _ p e Hp) as [e' He'].
  exists w', e'. rewrite Hrun. unfold collect_files_to_send. rewrite He'. auto.
Qed.



(** *** The handshake, end to end *)

Section Patching.

(** What pyrsync2 promises: patching a base with the delta of new content
    against the block checksums of that base rebuilds the new content, and
    only empty content has an empty delta. *)
Hypothesis patchstream_rsyncdelta :
  forall base new : bytes,
    patchstream base (rsyncdelta new (blockchecksums base)) = (new, None).
Hypothesis rsyncdelta_empty :
  forall (new : bytes) (sig : signature), rsyncdelta new sig = [] -> new = [].










End Patching.

(** *** node.py: the listener of a session *)

(** [f"{self.ip}:{self.tcp_port}"]. *)
Definition address (node_id : string * Z) : string :=
  node_id.1 +:+ ":" +:+ pretty.pretty node_id.2.

(** [Node.handle_message] on the session itself. *)
Definition session_handle (env : nat -> os_env) (m : message) (self : node) (w : world)
  : world * node * result unit :=
  match m with
  | DIRECTORY_STATE remote_state => handle_directory_state remote_state self w
  | DELTA_TRANSFER payload =>
      let '(w, r) := handle_delta_transfer env payload w in (w, self, r)
  | MODIFICATION_UPDATE payload =>
      let '(w, r) := handle_modification_update (env 0%nat) payload w in (w, self, r)
  end.

(** [Node.listen_for_messages] for the session registered as [node_id],
    alone at work: [stop_event] is set only where a session is closed, and
    a closed session is no longer registered. [sock] holds what the
    successive calls of [recv] return; [env k] is what the operating system
    supplies while the message of index [k] is handled. The error
    [receive_message] logs before it returns [None] is recorded here, where
    the log is at hand; of the second line of the [except] clause the text
    before the source position is kept. The [finally] clause closes the
    connection and removes the session. [None] stands for a loop that has
    not ended within [fuel] messages. *)
Fixpoint listen_for_messages (fuel k : nat) (env : nat -> nat -> os_env)
    (node_id : string * Z) (sock : list bytes) (nodes : registry) (w : world)
  : option (world * registry) :=
  match fuel with
  | O => None
  | S fuel' =>
      match nodes !! node_id with
      | None => Some (w, remove_node node_id nodes)
      | Some self =>
          match receive_message self sock with
          | (self, sock, None) =>
              Some (logging ERROR ("Error receiving message from " +:+ address node_id) w,
                    remove_node node_id (<[node_id := self]> nodes))
          | (self, sock, Some message) =>
              match handle_message (env k) node_id message (<[node_id := self]> nodes) w with
              | (w, nodes, Raise _) =>
                  Some (logging ERROR "Error connecting to at "
                          (logging ERROR ("Error in listener for node " +:+ address node_id) w),
                        remove_node node_id nodes)
              | (w, nodes, Ok _) =>
                  listen_for_messages fuel' (S k) env node_id sock nodes w
              end
          end
      end
  end.

(** The messages handled in order on the session, up to the first handler
    that raises. *)
Fixpoint session_handle_all (k : nat) (env : nat -> nat -> os_env)
    (msgs : list message) (self : node) (w : world) : world * node * result unit :=
  match msgs with
  | [] => (w, self, Ok tt)
  | m :: msgs' =>
      match session_handle (env k) m self w with
      | (w, self, Raise e) => (w, self, Raise e)
      | (w, self, Ok _) => session_handle_all (S k) env msgs' self w
      end
  end.

(** What the listener logs when it ends. *)
Definition listener_exit (node_id : string * Z) (r : result unit) (w : world) : world :=
  match r with
  | Ok _ => logging ERROR ("Error receiving message from " +:+ address node_id) w
  | Raise _ =>
      logging ERROR "Error connecting to at "
        (logging ERROR ("Error in listener for node " +:+ address node_id) w)
  end.

Lemma handle_message_registered (env : nat -> os_env) (node_id : string * Z)
    (m : message) (nodes : registry) (self : node) (w : world) :
  nodes !! node_id = Some self ->
  handle_message env node_id m nodes w
  = let '(w', self', r) := session_handle env m self w in
    (w', <[node_id := self']> nodes, r).
Proof.
  intros Hself. destruct m as [remote_state|payload|payload];
    cbn [handle_message session_handle].
  - now rewrite Hself.
  - destruct (handle_delta_transfer env payload w) as [w' r].
    now rewrite (insert_id _ _ _ Hself).
  - destruct (handle_modification_update (env 0%nat) payload w) as [w' r].
    now rewrite (insert_id _ _ _ Hself).
Qed.

(** The handlers leave the receive buffer of the session alone. *)
Lemma session_handle_buffer (env : nat -> os_env) (m : message) (b : bytes)
    (self : node) (w : world) :
  session_handle env m (set_buffer b self) w
  = let '(w', self', r) := session_handle env m self w in (w', set_buffer b self', r).
Proof.
  destruct m as [remote_state|payload|payload]; cbn [session_handle].
  - unfold handle_directory_state.
    destruct (get_local_directory_state_with_signatures w) as [w' [local_state|e]];
      [|reflexivity].
    destruct (collect_files_to_send _) as [files_to_send|e]; [|reflexivity].
    now destruct (decide (files_to_send = ∅)).
  - now destruct (handle_delta_transfer env payload w).
  - now destruct (handle_modification_update (env 0%nat) payload w).
Qed.

Lemma session_handle_all_buffer (env : nat -> nat -> os_env) (msgs : list message)
    (b : bytes) :
  forall (k : nat) (self : node) (w : world),
  session_handle_all k env msgs (set_buffer b self) w
  = let '(w', self', r) := session_handle_all k env msgs self w in
    (w', set_buffer b self', r).
Proof.
  induction msgs as [|m msgs IH]; intros k self w; cbn [session_handle_all];
    [reflexivity|].
  rewrite session_handle_buffer.
  destruct (session_handle (env k) m self w) as [[w1 self1] [[]|e]]; [|reflexivity].
  apply IH.
Qed.

Lemma receive_message_short (n : node) (sock : list bytes) :
  (length (buffer n ++ concat sock) < 8)%nat ->
  exists n' sock', receive_message n sock = (n', sock', None).
Proof.
  intros Hshort. unfold receive_message.
  destruct (recv_until_short 8 sock (buffer n)) as (buf' & sock' & e & ->); [lia|].
  eauto.
Qed.

Lemma listen_for_messages_stream (env : nat -> nat -> os_env) (node_id : string * Z)
    (nodes0 : registry) (msgs : list message) :
  forall (frames : list bytes) (k : nat) (self : node) (sock : list bytes)
         (nodes : registry) (w : world),
  Forall2 (fun m frame => frame_message m = Ok frame) msgs frames ->
  Forall (fun m => json_loads (json_dumps m) = Ok m) msgs ->
  Forall (fun data => data <> []) sock ->
  buffer self ++ concat sock = concat frames ->
  nodes !! node_id = Some self ->
  remove_node node_id nodes = remove_node node_id nodes0 ->
  listen_for_messages (S (length msgs)) k env node_id sock nodes w
  = let '(w', _, r) := session_handle_all k env msgs self w in
    Some (listener_exit node_id r w', remove_node node_id nodes0).
Proof.
  induction msgs as [|m msgs IH];
    intros frames k self sock nodes w Hframes Hjson Hne Hstream Hself Hnodes.
  - inversion Hframes; subst. cbn [concat] in Hstream.
    cbn [listen_for_messages length session_handle_all listener_exit].
    rewrite Hself.
    destruct (receive_message_short self sock) as (n' & sock' & ->).
    { rewrite Hstream. cbn [length]. lia. }
    unfold remove_node in *. now rewrite delete_insert_eq, Hnodes.
  - inversion Hframes as [|? frame ? frames' Hframe Hframes']; subst.
    inversion Hjson as [|? ? Hjm Hjson']; subst.
    cbn [concat] in Hstream.
    destruct (receive_message_frame m frame _ self sock Hframe Hjm Hne Hstream)
      as (buf1 & sock1 & Hr1 & Hs1 & Hne1).
    cbn [length]. change (listen_for_messages (S (S (length msgs))) k env node_id sock nodes w)
      with (match nodes !! node_id with
            | None => Some (w, remove_node node_id nodes)
            | Some self =>
                match receive_message self sock with
                | (self, sock, None) =>
                    Some (logging ERROR ("Error receiving message from " +:+ address node_id) w,
                          remove_node node_id (<[node_id := self]> nodes))
                | (self, sock, Some message) =>
                    match handle_message (env k) node_id message
                            (<[node_id := self]> nodes) w with
                    | (w, nodes, Raise _) =>
                        Some (logging ERROR "Error connecting to at "
                                (logging ERROR
                                   ("Error in listener for node " +:+ address node_id) w),
                              remove_node node_id nodes)
                    | (w, nodes, Ok _) =>
                        listen_for_messages (S (length msgs)) (S k) env node_id sock nodes w
                    end
                end
            end).
    rewrite Hself, Hr1.
    rewrite (handle_message_registered _ _ _ _ (set_buffer buf1 self))
      by apply lookup_insert_eq.
    rewrite session_handle_buffer. cbn [session_handle_all].
    destruct (session_handle (env k) m self w) as [[w1 self1] [[]|e]].
    + rewrite (IH frames' (S k) (set_buffer buf1 self1) sock1 _ w1 Hframes' Hjson' Hne1 Hs1).
      * rewrite session_handle_all_buffer.
        now destruct (session_handle_all (S k) env msgs self1 w1) as [[w2 self2] r].
      * apply lookup_insert_eq.
      * unfold remove_node in *. now rewrite !delete_insert_eq.
    + cbn [listener_exit]. unfold remove_node in *. now rewrite !delete_insert_eq, Hnodes.
Qed.

(** The messages whose handlers send nothing: [handle_delta_transfer] and
    [handle_modification_update] never call [send_message]. *)
Definition is_directory_state (m : message) : bool :=
  match m with DIRECTORY_STATE _ => true | _ => false end.

Lemma session_handle_all_silent (env : nat -> nat -> os_env) (msgs : list message) :
  Forall (fun m => is_directory_state m = false) msgs ->
  forall (k : nat) (self : node) (w : world),
    (session_handle_all k env msgs self w).1.2 = self.
Proof.
  induction 1 as [|m msgs Hm _ IH]; intros k self w; cbn [session_handle_all];
    [reflexivity|].
  destruct m as [remote_state|payload|payload]; [discriminate Hm| |];
    cbn [session_handle].
  - destruct (handle_delta_transfer (env k) payload w) as [w1 [[]|e]];
      [apply IH|reflexivity].
  - destruct (handle_modification_update (env k 0%nat) payload w) as [w1 [[]|e]];
      [apply IH|reflexivity].
Qed.

(** X22: the listener of a session on a stream that carries the frames
    of a sequence of [DELTA_TRANSFER] and [MODIFICATION_UPDATE] messages
    and then ends, cut into [recv] results in any way: the loop ends within
    one round per message and one more, the messages are handled in order
    up to the first handler that raises (the frames behind it are never
    handled), nothing is sent on the session, the end is logged as an
    error, and the session is removed from the registry, which is
    otherwise as it was. *)
Theorem listener_handles_stream (env : nat -> nat -> os_env) (node_id : string * Z)
    (msgs : list message) (frames : list bytes) (self : node) (sock : list bytes)
    (nodes : registry) (w : world) :
  Forall (fun m => is_directory_state m = false) msgs ->
  Forall2 (fun m frame => frame_message m = Ok frame) msgs frames ->
  Forall (fun m => json_loads (json_dumps m) = Ok m) msgs ->
  Forall (fun data => data <> []) sock ->
  buffer self ++ concat sock = concat frames ->
  nodes !! node_id = Some self ->
  exists w' r,
    session_handle_all 0 env msgs self w = (w', self, r)
    /\ listen_for_messages (S (length msgs)) 0 env node_id sock nodes w
       = Some (listener_exit node_id r w', remove_node node_id nodes)
    /\ remove_node node_id nodes !! node_id = None
    /\ forall other, other <> node_id ->
         remove_node node_id nodes !! other = nodes !! other.
Proof.
  intros Hsilent Hframes Hjson Hne Hstream Hself.
  pose proof (listen_for_messages_stream env node_id nodes msgs frames 0%nat self sock
                nodes w Hframes Hjson Hne Hstream Hself eq_refl) as Hrun.
  pose proof (session_handle_all_silent env msgs Hsilent 0%nat self w) as Hsame.
  destruct (session_handle_all 0 env msgs self w) as [[w' self'] r].
  cbn [fst snd] in Hsame. subst self'.
  exists w', r. split; [reflexivity|]. split; [exact Hrun|].
  unfold remove_node. split; [apply lookup_delete_eq|].
  intros other Hother. now apply lookup_delete_ne.
Qed.

(** X23: a message whose handler raises ends the session: when the peer
    sends a manifest with a signature that does not decode for a file that
    is newer here, the listener handles nothing after it, logs the two
    errors of its [except] clause, and removes the session from the
    registry; the files are as they were. *)
Theorem listener_ends_on_bad_manifest (env : nat -> nat -> os_env) (node_id : string * Z)
    (remote_state : gmap string manifest_entry) (frame rest : bytes)
    (self : node) (sock : list bytes) (nodes : registry) (w : world)
    (p : string) (f : file) (r : manifest_entry) (e : exn) (fuel : nat) :
  frame_message (DIRECTORY_STATE remote_state) = Ok frame ->
  json_loads (json_dumps (DIRECTORY_STATE remote_state)) = Ok (DIRECTORY_STATE remote_state) ->
  Forall (fun data => data <> []) sock ->
  buffer self ++ concat sock = frame ++ rest ->
  nodes !! node_id = Some self ->
  monitored w !! p = Some f ->
  remote_state !! p = Some r ->
  (me_mtime r < f_mtime f)%Q ->
  remote_signature r = Raise e ->
  exists w',
    listen_for_messages (S fuel) 0 env node_id sock nodes w
    = Some (w', remove_node node_id nodes)
    /\ monitored w' = monitored w
    /\ log w' = log w ++ [(ERROR, "Error in listener for node " +:+ address node_id);
                          (ERROR, "Error connecting to at "%string)].
Proof.
  intros Hframe Hjson Hne Hstream Hself Hf Hr Hnewer Hbad.
  destruct (receive_message_frame _ frame rest self sock Hframe Hjson Hne Hstream)
    as (buf1 & sock1 & Hr1 & _).
  destruct (handle_directory_state_decisions remote_state (set_buffer buf1 self) w)
    as (w1 & decisions & Hrun & Hmon & Hlog & _ & Hdec).
  assert (Hp : decisions !! p = Some (Raise e)).
  { rewrite Hdec. unfold decision_at. rewrite Hmon, Hf, Hr.
    apply mtime_gt_true in Hnewer. now rewrite Hnewer, Hbad. }
  apply elem_of_map_to_list, list_elem_of_In in Hp.
  destruct (first_raise_some _ p e Hp) as [e' He'].
  unfold collect_files_to_send in Hrun. rewrite He' in Hrun.
  cbn [listen_for_messages]. rewrite Hself, Hr1.
  cbn [handle_message]. rewrite lookup_insert_eq, Hrun.
  eexists. split.
  - unfold remove_node. now rewrite !delete_insert_eq.
  - world_simpl. rewrite Hlog, <- app_assoc. auto.
Qed.

End SynchedDrive.

(* ===================================================================== *)
(** ** An instance of the platform and the libraries *)
(* ===================================================================== *)

(** The theorems above hold for every platform and every library that meets
    the stated hypotheses. The instance below is used to run the model on
    examples: an LP64 little-endian platform, zlib restricted to streams of
    stored blocks (what [zlib.compress(data, 0)] writes, and what
    [zlib.decompress] reads back), and simple stand-ins for pyrsync2. *)
Module Reference.

Fixpoint bytes_eqb (a b : bytes) : bool :=
  match a, b with
  | [], [] => true
  | x :: a', y :: b' => Byte.eqb x y && bytes_eqb a' b'
  | _, _ => false
  end.

Lemma bytes_eqb_refl (a : bytes) : bytes_eqb a a = true.
Proof.
  induction a as [|x a IH]; [reflexivity|].
  simpl. rewrite IH. replace (Byte.eqb x x) with true; [reflexivity|].
  symmetry. apply Byte.byte_dec_lb. reflexivity.
Qed.

(** Adler-32 of RFC 1950. *)
Definition adler32 (data : bytes) : N :=
  let '(a, b) :=
    fold_left (fun '(a, b) x =>
                 let a' := ((a + Byte.to_N x) mod 65521)%N in
                 (a', ((b + a') mod 65521)%N))
              data (1%N, 0%N) in
  (b * 65536 + a)%N.

Definition be32 (n : N) : bytes := rev (le_bytes 4 n).

(** The stored blocks of [data]: blocks of at most 65535 bytes, each with
    its header byte (1 on the last block), LEN and NLEN. *)
Fixpoint deflate_stored (fuel : nat) (data : bytes) : bytes :=
  match fuel with
  | O => []
  | S fuel' =>
      if (N.of_nat (length data) <=? 65535)%N then
        x01 :: le_bytes 2 (N.of_nat (length data))
            ++ le_bytes 2 (65535 - N.of_nat (length data))
            ++ data
      else
        x00 :: le_bytes 2 65535 ++ le_bytes 2 0
            ++ firstn (N.to_nat 65535) data
            ++ deflate_stored fuel' (skipn (N.to_nat 65535) data)
  end.

Definition zlib_compress (data : bytes) : bytes :=
  [x78; x01] ++ deflate_stored (S (length data)) data ++ be32 (adler32 data).

(** Reads stored blocks up to the last one: the data and the rest of the
    input. *)
Fixpoint inflate_stored (fuel : nat) (input : bytes) : option (bytes * bytes) :=
  match fuel with
  | O => None
  | S fuel' =>
      match input with
      | hdr :: l0 :: l1 :: n0 :: n1 :: rest =>
          let len := le_value [l0; l1] in
          if (Byte.eqb hdr x00 || Byte.eqb hdr x01)
             && bytes_eqb (le_bytes 2 (65535 - len)) [n0; n1]
             && (N.to_nat len <=? length rest)%nat then
            let chunk := firstn (N.to_nat len) rest in
            let rest := skipn (N.to_nat len) rest in
            if Byte.eqb hdr x01 then Some (chunk, rest)
            else match inflate_stored fuel' rest with
                 | Some (out, rest) => Some (chunk ++ out, rest)
                 | None => None
                 end
          else None
      | _ => None
      end
  end.

Definition zlib_decompress (input : bytes) : result bytes :=
  match input with
  | cmf :: flg :: body =>
      if Byte.eqb cmf x78 && Byte.eqb flg x01 then
        match inflate_stored (S (length body)) body with
        | Some (out, trailer) =>
            if bytes_eqb trailer (be32 (adler32 out)) then Ok out else Raise ZlibError
        | None => Raise ZlibError
        end
      else Raise ZlibError
  | _ => Raise ZlibError
  end.

(** [zlib.compress(b'hi', 0)] is [b'x\x01\x01\x02\x00\xfd\xffhi\x01;\x00\xd2']. *)
Example zlib_compress_hi :
  zlib_compress (text "hi")
  = [x78; x01; x01; x02; x00; xfd; xff; "h"%byte; "i"%byte; x01; x3b; x00; xd2].
Proof. reflexivity. Qed.

Lemma le16_roundtrip (n : N) (rest : bytes) :
  (n <= 65535)%N ->
  exists l0 l1 n0 n1,
    le_bytes 2 n ++ le_bytes 2 (65535 - n) ++ rest = l0 :: l1 :: n0 :: n1 :: rest
    /\ le_value [l0; l1] = n
    /\ le_bytes 2 (65535 - n) = [n0; n1].
Proof.
  intros Hn. cbn [le_bytes app]. do 4 eexists. split; [reflexivity|].
  split; [|reflexivity].
  apply (le_value_le_bytes 2 n). simpl. lia.
Qed.

Lemma inflate_deflate_stored (fuel : nat) :
  forall (fuel2 : nat) (data rest : bytes),
  (length data < fuel)%nat -> (fuel <= fuel2)%nat ->
  inflate_stored fuel2 (deflate_stored fuel data ++ rest) = Some (data, rest).
Proof.
  induction fuel as [|fuel IH]; intros fuel2 data rest Hlen Hfuel; [lia|].
  destruct fuel2 as [|fuel2]; [lia|].
  cbn [deflate_stored].
  destruct (N.of_nat (length data) <=? 65535)%N eqn:E.
  - apply N.leb_le in E.
    destruct (le16_roundtrip (N.of_nat (length data)) (data ++ rest))
      as (l0 & l1 & n0 & n1 & Heq & Hv & Hn); [lia|].
    rewrite <- !app_comm_cons, <- !app_assoc, Heq.
    cbn [inflate_stored]. rewrite Hv, Hn, bytes_eqb_refl, Nat2N.id.
    replace (length data <=? length (data ++ rest))%nat with true
      by (symmetry; apply Nat.leb_le; rewrite length_app; lia).
    change (Byte.eqb x01 x00) with false. change (Byte.eqb x01 x01) with true.
    cbn [orb andb]. now rewrite firstn_exact, skipn_exact.
  - apply N.leb_gt in E.
    set (k := N.to_nat 65535) in *.
    assert (Hk : (k < length data)%nat) by (subst k; lia).
    destruct (le16_roundtrip 65535 (firstn k data
                ++ deflate_stored fuel (skipn k data) ++ rest))
      as (l0 & l1 & n0 & n1 & Heq & Hv & Hn); [lia|].
    change (65535 - 65535)%N with 0%N in Heq, Hn.
    rewrite <- !app_comm_cons, <- !app_assoc, Heq.
    cbn [inflate_stored]. rewrite Hv.
    change (65535 - 65535)%N with 0%N. rewrite Hn, bytes_eqb_refl.
    change (Byte.eqb x00 x00) with true. change (Byte.eqb x00 x01) with false.
    cbn [orb andb]. fold k.
    assert (Hfirst : length (firstn k data) = k)
      by (rewrite length_firstn; lia).
    replace (k <=? length (firstn k data
               ++ deflate_stored fuel (skipn k data) ++ rest))%nat with true
      by (symmetry; apply Nat.leb_le; rewrite length_app; lia).
    pose proof (firstn_exact (firstn k data)
                  (deflate_stored fuel (skipn k data) ++ rest)) as H1.
    pose proof (skipn_exact (firstn k data)
                  (deflate_stored fuel (skipn k data) ++ rest)) as H2.
    rewrite Hfirst in H1, H2. rewrite H1, H2.
    rewrite IH; [|rewrite length_skipn; lia|lia].
    now rewrite firstn_skipn.
Qed.

Lemma length_deflate_stored (fuel : nat) :
  forall data : bytes,
  (length data < fuel)%nat -> (length data <= length (deflate_stored fuel data))%nat.
Proof.
  induction fuel as [|fuel IH]; intros data Hlen; [lia|].
  cbn [deflate_stored].
  destruct (N.of_nat (length data) <=? 65535)%N eqn:E.
  - cbn [length]. rewrite !length_app. lia.
  - apply N.leb_gt in E. set (k := N.to_nat 65535) in *.
    assert (Hk : (k < length data)%nat) by (subst k; lia).
    specialize (IH (skipn k data)). rewrite length_skipn in IH.
    cbn [length]. rewrite !length_app, length_firstn. lia.
Qed.

Lemma zlib_roundtrip (data : bytes) : zlib_decompress (zlib_compress data) = Ok data.
Proof.
  unfold zlib_compress, zlib_decompress. cbn [app].
  change (Byte.eqb x78 x78 && Byte.eqb x01 x01) with true. cbv iota.
  rewrite (inflate_deflate_stored (S (length data))).
  - now rewrite bytes_eqb_refl.
  - lia.
  - pose proof (length_deflate_stored (S (length data)) data). rewrite length_app. lia.
Qed.

(** Stand-ins for pyrsync2 with its default block size of 4096 bytes. *)
Definition blocksize : nat := N.to_nat 4096.

Fixpoint blocks (fuel : nat) (data : bytes) : list bytes :=
  match fuel with
  | O => []
  | S fuel' =>
      match data with
      | [] => []
      | _ => firstn blocksize data :: blocks fuel' (skipn blocksize data)
      end
  end.

(** A 16-byte digest of a block, in the place of MD5. *)
Definition digest16 (block : bytes) : bytes :=
  le_bytes 16 (adler32 block * 4294967296 + N.of_nat (length block)).

Definition blockchecksums (data : bytes) : signature :=
  map (fun block => (Z.of_N (adler32 block mod 4294967296), digest16 block))
      (blocks (S (length data)) data).

(** A delta that sends the data as one literal chunk. *)
Definition rsyncdelta (data : bytes) (sig : signature) : list pyobj :=
  match data with
  | [] => []
  | _ => [PyBytes data]
  end.

(** An integer element copies the block of that index from the base, a byte
    chunk is copied as it is, anything else cannot be written. *)
Fixpoint patch (base : bytes) (delta : list pyobj) (out : bytes) : bytes * option exn :=
  match delta with
  | [] => (out, None)
  | PyInt i :: delta' =>
      if i <? 0 then (out, Some OSError)
      else patch base delta' (out ++ firstn blocksize (skipn (Z.to_nat i * blocksize) base))
  | PyBytes b :: delta' => patch base delta' (out ++ b)
  | _ :: _ => (out, Some TypeError)
  end.

Definition patchstream (base : bytes) (delta : list pyobj) : bytes * option exn :=
  patch base delta [].

Lemma rsyncdelta_items (data : bytes) (sig : signature) :
  Forall (fun o => FileSyncCodec.is_delta_item o = true) (rsyncdelta data sig).
Proof. destruct data; repeat constructor. Qed.

Lemma blockchecksums_packable (data : bytes) :
  Forall (packable 8) (blockchecksums data).
Proof.
  unfold blockchecksums. apply Forall_forall. intros rec Hin.
  apply list_elem_of_In, in_map_iff in Hin as (block & <- & _).
  split; cbn [fst snd].
  - change (2 ^ (8 * Z.of_nat 8)) with 18446744073709551616.
    assert (H : (adler32 block mod 4294967296 < 4294967296)%N)
      by (apply N.mod_upper_bound; discriminate).
    revert H. generalize (adler32 block mod 4294967296)%N. intros n H. lia.
  - apply length_le_bytes.
Qed.

(** The monitored directory is [/srv/sync]. *)
Definition monitored_directory : string := "/srv/sync/".

Definition full_path (file_path : string) : string := monitored_directory +:+ file_path.

Definition abspath (path : string) : string := path.

Definition relpath (path : string) : string :=
  if String.prefix monitored_directory path
  then String.substring (String.length monitored_directory)
         (String.length path - String.length monitored_directory) path
  else path.

(** JSON, as far as the examples go: the message that carries the manifest
    of an empty directory, [{"type": "DIRECTORY_STATE", "payload": {}}]. *)
Definition dq : string := String (ascii_of_nat 34) EmptyString.

Definition empty_directory_state_json : string :=
  "{" +:+ dq +:+ "type" +:+ dq +:+ ": " +:+ dq +:+ "DIRECTORY_STATE" +:+ dq +:+ ", "
      +:+ dq +:+ "payload" +:+ dq +:+ ": {}}".

Definition json_dumps (m : message) : bytes :=
  match m with
  | DIRECTORY_STATE payload =>
      if decide (payload = ∅) then text empty_directory_state_json else text "null"
  | _ => text "null"
  end.

Definition json_loads (body : bytes) : result message :=
  if bytes_eqb body (text empty_directory_state_json)
  then Ok (DIRECTORY_STATE ∅)
  else Raise JSONDecodeError.

Definition empty_world : world :=
  {| monitored := ∅; signatures := ∅; tmpdir := ∅; ignore_events := ∅; log := [] |}.

Definition quiet_env : os_env :=
  {| time_ns := 1700000000000000000; tmp_name := "tmpab12cd34";
     mktemp_fails := false; replace_fails := false |}.

(* ===================================================================== *)
(** ** The theorems at concrete inputs *)
(* ===================================================================== *)

(** *** Signatures (C3) *)

Definition hello_signature : signature := blockchecksums (text "hello").

(** The signature of a file holding [hello] is saved under [docs/a.txt] and
    parsed back. *)
Lemma parse_save_signature_witness :
  exists compressed_data,
    save_signature 8 false zlib_compress hello_signature "docs/a.txt" empty_world
    = (set_signatures (<["docs/a.txt"%string := compressed_data]> (signatures empty_world))
         empty_world, Ok compressed_data)
    /\ parse_signature 8 false zlib_decompress compressed_data = Ok hello_signature.
Proof.
  apply (parse_save_signature 8 false zlib_compress zlib_decompress zlib_roundtrip
           hello_signature "docs/a.txt" empty_world).
  apply blockchecksums_packable.
Defined.

(** *** The framed channel (C4) *)

Definition hello_message : message := DIRECTORY_STATE ∅.

Definition hello_frame : bytes :=
  match frame_message zlib_compress json_dumps hello_message with
  | Ok frame => frame
  | Raise _ => []
  end.

(** Two frames and the first three bytes of a third one. *)
Definition hello_stream : bytes := hello_frame ++ hello_frame ++ firstn 3 hello_frame.

(** The stream arrives in three pieces that respect no frame boundary. *)
Definition hello_socket : list bytes :=
  [firstn 5 hello_stream; firstn 60 (skipn 5 hello_stream); skipn 65 hello_stream].

Lemma receive_sent_messages_witness :
  exists buf' sock',
    receive_messages zlib_decompress json_loads 2 Node_init hello_socket
    = (set_buffer buf' Node_init, sock', [Some hello_message; Some hello_message])
    /\ buf' ++ concat sock' = firstn 3 hello_frame.
Proof.
  apply (receive_sent_messages zlib_compress zlib_decompress zlib_roundtrip
           json_dumps json_loads [hello_message; hello_message]
           [hello_frame; hello_frame] (firstn 3 hello_frame) Node_init hello_socket).
  - repeat constructor.
  - repeat constructor.
  - repeat constructor; vm_compute; discriminate.
  - vm_compute. reflexivity.
Defined.

(** *** apply_delta (C5) *)

Definition doc_world : world :=
  {| monitored := {[ "doc.txt"%string := {| f_data := text "The quick brown fox";
                                            f_mtime := 10 |} ]};
     signatures := ∅; tmpdir := ∅; ignore_events := ∅; log := [] |}.

(** A delta whose second element cannot be written: the patching fails
    after the first chunk. *)
Lemma apply_delta_atomic_witness :
  match apply_delta patchstream quiet_env "doc.txt"
          [PyBytes (text "The quick red fox"); PyNone] doc_world with
  | (w', Raise _) =>
      monitored w' !! "doc.txt"%string = monitored doc_world !! "doc.txt"%string
      /\ tmpdir w' !! tmp_name quiet_env = None
      /\ w' = doc_world
  | (w', Ok _) =>
      exists base_file written,
        monitored doc_world !! "doc.txt"%string = Some base_file
        /\ patchstream (f_data base_file) [PyBytes (text "The quick red fox"); PyNone]
           = (written, None)
        /\ (f_data <$> monitored w' !! "doc.txt"%string) = Some written
        /\ tmpdir w' !! tmp_name quiet_env = None
  end.
Proof.
  apply (apply_delta_atomic patchstream quiet_env "doc.txt"
           [PyBytes (text "The quick red fox"); PyNone] doc_world).
  reflexivity.
Defined.

(** *** The echo guard (C6) *)

Definition file_event (path : string) : fs_event :=
  {| is_directory := false; src_path := path; dest_path := EmptyString |}.

(** A remote write to [f.txt] was recorded at [time_ns quiet_env]. *)
Definition guarded_world : world :=
  {| monitored := {[ "f.txt"%string := {| f_data := text "new"; f_mtime := 10 |} ]};
     signatures := ∅; tmpdir := ∅;
     ignore_events := {[ "/srv/sync/f.txt"%string := time_ns quiet_env ]};
     log := [] |}.

(** An event 100 ms after the recorded time is ignored and the entry kept;
    an event 500 ms after it is not, and the entry is removed. *)
Lemma should_ignore_echo_guard_witness :
  should_ignore abspath (time_ns quiet_env + 100000000)
    (file_event "/srv/sync/f.txt") guarded_world = (guarded_world, true)
  /\ should_ignore abspath (time_ns quiet_env + 500000000)
       (file_event "/srv/sync/f.txt") guarded_world
     = (set_ignore_events
          (delete (abspath "/srv/sync/f.txt") (ignore_events guarded_world))
          guarded_world, false).
Proof.
  split.
  - destruct (should_ignore_echo_guard abspath (time_ns quiet_env + 100000000)
                (file_event "/srv/sync/f.txt") guarded_world) as [_ Hfile].
    destruct (Hfile (time_ns quiet_env)) as [Hfresh _].
    + reflexivity.
    + reflexivity.
    + discriminate.
    + apply Hfresh. reflexivity.
  - destruct (should_ignore_echo_guard abspath (time_ns quiet_env + 500000000)
                (file_event "/srv/sync/f.txt") guarded_world) as [_ Hfile].
    destruct (Hfile (time_ns quiet_env)) as [_ Hold].
    + reflexivity.
    + reflexivity.
    + discriminate.
    + apply Hold. discriminate.
Defined.

(** *** Reconciliation (C1) *)

(** The local directory: [a.txt] and [b.txt]. *)
Definition local_world : world :=
  {| monitored := {[ "a.txt"%string := {| f_data := text "hi"; f_mtime := 2 |};
                     "b.txt"%string := {| f_data := text "only here"; f_mtime := 1 |} ]};
     signatures := ∅; tmpdir := ∅; ignore_events := ∅; log := [] |}.

(** The manifest value a peer sends for a file with the given content. *)
Definition manifest_of (data : bytes) (mtime : Q) : manifest_entry :=
  {| me_mtime := mtime;
     me_size := Z.of_nat (length data);
     me_signature :=
       Base64.b64encode
         (zlib_compress
            (match flatten_signature 8 false (blockchecksums data) with
             | Ok flattened_data => flattened_data
             | Raise _ => []
             end)) |}.

(** The peer has an older [a.txt] that is empty: its signature has no
    block. The manifest value is
    [{'mtime': 1, 'size': 0, 'signature': 'eAEBAAD//wAAAAE='}]. *)
Definition remote_empty_file : gmap string manifest_entry :=
  {[ "a.txt"%string := manifest_of [] 1 ]}.

(** The claim as stated fails here: [a.txt] is on both sides and the local
    file is newer, yet what is queued is the whole file with [is_full_file]
    true, not a delta with [is_full_file] false. *)
Lemma handle_directory_state_counterexample :
  (f_mtime <$> monitored local_world !! "a.txt"%string) = Some 2%Q
  /\ (me_mtime <$> remote_empty_file !! "a.txt"%string) = Some 1%Q
  /\ (me_signature <$> remote_empty_file !! "a.txt"%string) = Some "eAEBAAD//wAAAAE="%string
  /\ exists w' files_to_send,
       handle_directory_state 8 false zlib_compress zlib_decompress blockchecksums
         rsyncdelta remote_empty_file Node_init local_world
       = (w', {| is_synchronized := true; buffer := [];
                 outbox := [DELTA_TRANSFER files_to_send] |}, Ok tt)
       /\ files_to_send !! "a.txt"%string
          = Some {| fi_delta := Some [PyStr "aGk="];
                    fi_mtime := Some 2%Q;
                    fi_action := Some "CREATE"%string;
                    fi_is_full_file := Some true |}.
Proof.
  split; [reflexivity|]. split; [reflexivity|]. split; [reflexivity|].
  eexists _, _. split; vm_compute; reflexivity.
Qed.

(** The peer has an older [a.txt] holding [hello]. *)
Definition remote_older_file : gmap string manifest_entry :=
  {[ "a.txt"%string := manifest_of (text "hello") 1 ]}.

Lemma handle_directory_state_queue_witness :
  exists w' files_to_send self',
    handle_directory_state 8 false zlib_compress zlib_decompress blockchecksums
      rsyncdelta remote_older_file Node_init local_world = (w', self', Ok tt)
    /\ is_synchronized self' = true
    /\ outbox self' = [DELTA_TRANSFER files_to_send]
    /\ (exists S, files_to_send !! "a.txt"%string
                  = Some (delta_file_info {| f_data := text "hi"; f_mtime := 2 |} S))
    /\ files_to_send !! "b.txt"%string
       = Some (full_file_info {| f_data := text "only here"; f_mtime := 1 |}).
Proof.
  destruct (handle_directory_state_queue 8 false zlib_compress zlib_decompress
              blockchecksums rsyncdelta rsyncdelta_items blockchecksums_packable
              remote_older_file Node_init local_world)
    as (w' & files_to_send & self' & Hrun & _ & Hsync & Hout & Hq).
  - intros p f r Hf Hr _. unfold remote_older_file in Hr.
    apply lookup_singleton_Some in Hr as [<- <-].
    eexists. vm_compute. reflexivity.
  - exists w', files_to_send, self'.
    destruct (Hq "a.txt"%string) as (Ha & _).
    destruct (Ha {| f_data := text "hi"; f_mtime := 2 |} (manifest_of (text "hello") 1)
                (blockchecksums (text "hello")))
      as [Hdelta _]; [reflexivity|reflexivity|reflexivity|vm_compute; reflexivity|].
    destruct Hdelta as (S & _ & HS); [discriminate|].
    destruct (Hq "b.txt"%string) as (_ & _ & Hb & _).
    specialize (Hb {| f_data := text "only here"; f_mtime := 1 |} eq_refl eq_refl).
    split; [exact Hrun|]. split; [exact Hsync|].
    split.
    + rewrite Hout. destruct (decide (files_to_send = ∅)) as [He|_]; [|reflexivity].
      rewrite He, lookup_empty in Hb. discriminate.
    + split; [exists S; exact HS|exact Hb].
Defined.

(** The program on this platform. *)
Abbreviation run_on_platform :=
  (run_all 8 false zlib_compress zlib_decompress blockchecksums rsyncdelta patchstream
     full_path abspath relpath).
Abbreviation handle_delta_transfer_entry_on_platform :=
  (handle_delta_transfer_entry 8 false zlib_compress zlib_decompress blockchecksums
     patchstream full_path).
Abbreviation handle_modification_update_on_platform :=
  (handle_modification_update 8 false zlib_compress blockchecksums patchstream full_path).

(** *** Broadcasts and the handshake (C7) *)

Definition peer : string * Z := ("10.0.0.2"%string, 6000).

Definition start_state : watcher_state :=
  {| ws_world := local_world; ws_nodes := ∅; last_trigger_time := 0 |}.

(** The peer connects and is sent the local manifest, its (empty) manifest
    arrives, then [b.txt] is created anew. *)
Definition handshake_then_create : list occurrence :=
  [Connect peer;
   Synchronize peer;
   Receive (fun _ => quiet_env) peer (DIRECTORY_STATE ∅);
   Created (time_ns quiet_env) (file_event "/srv/sync/b.txt")].

Definition created_payload : update_payload :=
  {| up_file_path := "b.txt";
     up_action := Some "CREATE"%string;
     up_mtime := Some 1%Q;
     up_delta := Some [PyStr (Base64.b64encode (text "only here"))];
     up_dest_path := None;
     up_is_full_file := Some false |}.

Definition peer_session : option node :=
  Eval vm_compute in ws_nodes (run_on_platform handshake_then_create start_state) !! peer.

Definition peer2 : string * Z := ("10.0.0.3"%string, 6000).

Definition synchronized_session : node :=
  {| is_synchronized := true; buffer := []; outbox := [] |}.

(** The connection to [peer] is broken: [sendall] raises for it. *)
Definition broken_peer (node_id : string * Z) : bool := bool_decide (node_id = peer).

(** The session was sent the local manifest, the files the peer lacks and
    then the update; it is synchronized, and it handled the manifest of the
    peer before. With two synchronized sessions of which the first has a
    broken connection, [broadcast_update] does not return and the second
    session is not sent the update. *)
Lemma updates_follow_handshake_witness :
  (exists n,
     ws_nodes (run_on_platform handshake_then_create start_state) !! peer = Some n
     /\ In (MODIFICATION_UPDATE created_payload) (outbox n)
     /\ is_synchronized n = true
     /\ exists os1 env remote_state os2,
          handshake_then_create
          = os1 ++ Receive env peer (DIRECTORY_STATE remote_state) :: os2)
  /\ broadcast_update_on broken_peer created_payload
       [(peer, synchronized_session); (peer2, synchronized_session)]
     = Blocks [(peer, synchronized_session); (peer2, synchronized_session)].
Proof.
  destruct (updates_follow_handshake 8 false zlib_compress zlib_decompress blockchecksums
              rsyncdelta patchstream full_path abspath relpath)
    as (_ & Hreach & _ & _ & Hbefore & _ & Hblocks).
  split.
  - destruct peer_session as [n|] eqn:Hn; [|discriminate].
    exists n.
    assert (Hlookup : ws_nodes (run_on_platform handshake_then_create start_state) !! peer
                      = Some n).
    { rewrite <- Hn. vm_compute. reflexivity. }
    assert (Hin : In (MODIFICATION_UPDATE created_payload) (outbox n)).
    { injection Hn as <-. right. right. left. reflexivity. }
    split; [exact Hlookup|]. split; [exact Hin|]. split.
    + apply (Hreach handshake_then_create start_state peer n created_payload);
        [reflexivity|exact Hlookup|exact Hin].
    + apply (Hbefore handshake_then_create start_state peer n created_payload);
        [reflexivity|exact Hlookup|exact Hin].
  - apply (Hblocks broken_peer created_payload [] [(peer2, synchronized_session)]
             peer synchronized_session).
    + intros id0 n0 [].
    + reflexivity.
    + reflexivity.
Defined.

(** *** A delta without a stored signature (C8, C10) *)

(** [f.txt] holds [old]; no signature is stored for it. *)
Definition unsigned_world : world :=
  {| monitored := {[ "f.txt"%string := {| f_data := text "old"; f_mtime := 10 |} ]};
     signatures := ∅; tmpdir := ∅; ignore_events := ∅; log := [] |}.

(** A MODIFY of [f.txt] with the delta [[b"x"]], serialised as [["eA=="]],
    and [is_full_file] false. *)
Definition modify_payload : update_payload :=
  {| up_file_path := "f.txt";
     up_action := Some "MODIFY"%string;
     up_mtime := Some 20%Q;
     up_delta := Some [PyStr "eA=="];
     up_dest_path := None;
     up_is_full_file := Some false |}.

(** The same delta as an entry of a [DELTA_TRANSFER]. *)
Definition delta_info : file_info :=
  {| fi_delta := Some [PyStr "eA=="];
     fi_mtime := Some 20%Q;
     fi_action := Some "CREATE"%string;
     fi_is_full_file := Some false |}.

(** The claim as stated fails here: no signature is stored for [f.txt],
    yet [handle_modification_update] applies the delta: the file holds [x]
    afterwards, and no warning is logged. *)
Lemma handle_modification_update_counterexample :
  signatures unsigned_world !! "f.txt"%string = None
  /\ (f_data <$> monitored unsigned_world !! "f.txt"%string) = Some (text "old")
  /\ exists w',
       handle_modification_update_on_platform quiet_env modify_payload unsigned_world
       = (w', Ok tt)
       /\ (f_data <$> monitored w' !! "f.txt"%string) = Some (text "x")
       /\ log w' = [].
Proof.
  split; [reflexivity|]. split; [reflexivity|].
  eexists. split; [vm_compute; reflexivity|]. split; reflexivity.
Qed.

(** With no signature stored, the entry of the [DELTA_TRANSFER] is skipped
    with a warning, and the MODIFY goes on with [apply_delta]. *)
Lemma delta_needs_base_witness :
  handle_delta_transfer_entry_on_platform quiet_env "f.txt" delta_info unsigned_world
  = (logging WARNING "No signature found for f.txt, cannot apply delta."
       (guard_inserted full_path quiet_env "f.txt" unsigned_world), Ok tt)
  /\ handle_modification_update_on_platform quiet_env modify_payload unsigned_world
     = after_apply_delta 8 false zlib_compress blockchecksums (Some 20%Q) "f.txt"
         (apply_delta patchstream quiet_env "f.txt" [PyBytes (text "x")]
            (guard_inserted full_path quiet_env "f.txt" unsigned_world)).
Proof.
  destruct (delta_needs_base 8 false zlib_compress zlib_decompress blockchecksums
              patchstream full_path quiet_env "f.txt" unsigned_world
              (PyStr "eA==") [] [PyBytes (text "x")] eq_refl) as [Hdt Hmu].
  split.
  - destruct (Hdt delta_info 20%Q eq_refl eq_refl eq_refl) as [Hskip _].
    apply (Hskip None); reflexivity.
  - destruct (Hmu modify_payload eq_refl eq_refl eq_refl eq_refl) as [_ Happly].
    apply Happly. eexists. reflexivity.
Defined.

(** The skipped entry leaves the files and the signatures, and an event on
    [f.txt] 100 ms later is ignored. *)
Lemma skipped_delta_leaves_echo_guard_witness :
  exists w',
    handle_delta_transfer_entry_on_platform quiet_env "f.txt" delta_info unsigned_world
    = (w', Ok tt)
    /\ monitored w' = monitored unsigned_world
    /\ signatures w' = signatures unsigned_world
    /\ ignore_events w' !! "/srv/sync/f.txt"%string = Some (time_ns quiet_env)
    /\ should_ignore abspath (time_ns quiet_env + 100000000)
         (file_event "/srv/sync/f.txt") w' = (w', true).
Proof.
  destruct (skipped_delta_leaves_echo_guard 8 false zlib_compress zlib_decompress
              blockchecksums patchstream full_path abspath quiet_env "f.txt" delta_info
              unsigned_world (PyStr "eA==") [] [PyBytes (text "x")] 20%Q)
    as (w' & Hrun & Hmon & Hsig & _ & Hguard & Hignore);
    [reflexivity|reflexivity|reflexivity|reflexivity|reflexivity|discriminate|].
  exists w'. split; [exact Hrun|]. split; [exact Hmon|]. split; [exact Hsig|].
  split.
  - rewrite Hguard. apply lookup_insert_eq.
  - apply Hignore; reflexivity.
Defined.

(** *** A path with a tilde (C9) *)

(** An editor wrote the backup file [notes.txt~]; a peer is synchronized. *)
Definition backup_state : watcher_state :=
  {| ws_world :=
       {| monitored := {[ "notes.txt~"%string := {| f_data := text "draft"; f_mtime := 30 |} ]};
          signatures := ∅; tmpdir := ∅; ignore_events := ∅; log := [] |};
     ws_nodes := {[ peer := {| is_synchronized := true; buffer := []; outbox := [] |} ]};
     last_trigger_time := 0 |}.

(** The creation of [notes.txt~] saves its signature and sends the peer a
    CREATE with the whole file; its modification does neither. *)
Lemma tilde_checked_on_modify_only_witness :
  (ws_nodes (on_modified 8 false zlib_compress zlib_decompress blockchecksums rsyncdelta
               abspath relpath 1000000000 1000000001
               (file_event "/srv/sync/notes.txt~") backup_state)
   = ws_nodes backup_state)
  /\ ws_nodes (on_created 8 false zlib_compress zlib_decompress blockchecksums rsyncdelta
                 abspath relpath 1000000000
                 (file_event "/srv/sync/notes.txt~") backup_state) !! peer
     = Some {| is_synchronized := true; buffer := [];
               outbox := [MODIFICATION_UPDATE
                            {| up_file_path := "notes.txt~";
                               up_action := Some "CREATE"%string;
                               up_mtime := Some 30%Q;
                               up_delta := Some [PyStr "ZHJhZnQ="];
                               up_dest_path := None;
                               up_is_full_file := Some true |}] |}
  /\ is_Some (signatures (ws_world
       (on_created 8 false zlib_compress zlib_decompress blockchecksums rsyncdelta
          abspath relpath 1000000000
          (file_event "/srv/sync/notes.txt~") backup_state)) !! "notes.txt~"%string).
Proof.
  destruct (tilde_checked_on_modify_only 8 false zlib_compress zlib_decompress
              blockchecksums rsyncdelta abspath relpath blockchecksums_packable
              (file_event "/srv/sync/notes.txt~") backup_state eq_refl)
    as [Hmodified Hothers].
  destruct (Hothers eq_refl eq_refl) as (Hcreated & _ & _).
  destruct (Hcreated 1000000000 {| f_data := text "draft"; f_mtime := 30 |}
              eq_refl eq_refl) as [Hnodes Hsig].
  split; [apply (Hmodified 1000000000 1000000001)|].
  split; [|exact Hsig].
  rewrite Hnodes. vm_compute. reflexivity.
Defined.


(* ===================================================================== *)
(** ** Further properties at concrete inputs *)
(* ===================================================================== *)

Abbreviation registry := (gmap (string * Z) node).
Abbreviation save_signature_on_platform := (save_signature 8 false zlib_compress).
Abbreviation load_signature_on_platform := (load_signature 8 false zlib_decompress).
Abbreviation parse_signature_on_platform := (parse_signature 8 false zlib_decompress).
Abbreviation handle_modify_create_on_platform :=
  (handle_modify_create 8 false zlib_compress zlib_decompress blockchecksums rsyncdelta
     relpath).
Abbreviation get_local_directory_state_on_platform :=
  (get_local_directory_state_with_signatures 8 false zlib_compress blockchecksums).
Abbreviation handle_directory_state_on_platform :=
  (handle_directory_state 8 false zlib_compress zlib_decompress blockchecksums rsyncdelta).
Abbreviation handle_delta_transfer_on_platform :=
  (handle_delta_transfer 8 false zlib_compress zlib_decompress blockchecksums patchstream
     full_path).
Abbreviation on_modified_on_platform :=
  (on_modified 8 false zlib_compress zlib_decompress blockchecksums rsyncdelta abspath
     relpath).
Abbreviation on_created_on_platform :=
  (on_created 8 false zlib_compress zlib_decompress blockchecksums rsyncdelta abspath
     relpath).



(** *** Signatures on disk *)

Lemma load_saved_signature_witness :
  exists compressed_data w',
    save_signature_on_platform hello_signature "docs/a.txt" unsigned_world
    = (w', Ok compressed_data)
    /\ load_signature_on_platform "docs/a.txt" w' = Ok (Some hello_signature).
Proof.
  apply (load_saved_signature 8 false zlib_compress zlib_decompress zlib_roundtrip
           hello_signature "docs/a.txt" unsigned_world).
  apply blockchecksums_packable.
Defined.

(** A strong checksum of 5 bytes and one of 19. *)
Definition odd_signature : signature :=
  [(7, text "short"); (9, text "0123456789abcdefXYZ")].

Lemma odd_signature_in_range : Forall (weak_in_range 8) odd_signature.
Proof. repeat constructor; vm_compute; congruence. Qed.

(** The first comes back padded with 11 NUL bytes, the second cut to 16
    bytes. *)
Lemma save_cuts_or_pads_strong_checksum_witness :
  exists compressed_data w',
    save_signature_on_platform odd_signature "f.txt" empty_world = (w', Ok compressed_data)
    /\ parse_signature_on_platform compressed_data
       = Ok [(7, text "short" ++ repeat x00 11); (9, text "0123456789abcdef")].
Proof.
  apply (save_cuts_or_pads_strong_checksum 8 false zlib_compress zlib_decompress
           zlib_roundtrip odd_signature "f.txt" empty_world).
  exact odd_signature_in_range.
Defined.

(** A weak checksum of [-1] cannot be packed. *)
Lemma save_signature_out_of_range_witness :
  save_signature_on_platform [(-1, text "0123456789abcdef")] "f.txt" empty_world
  = (empty_world, Raise StructError).
Proof.
  apply (save_signature_out_of_range 8 false zlib_compress
           [(-1, text "0123456789abcdef")] "f.txt" empty_world).
  apply Exists_cons_hd. intros [H _]. apply H. reflexivity.
Defined.

(** Three bytes are not a whole number of 24-byte records. *)
Lemma parse_signature_trailing_bytes_witness :
  parse_signature_on_platform (zlib_compress (text "abc")) = Raise StructError.
Proof.
  apply (parse_signature_trailing_bytes 8 false zlib_decompress
           (zlib_compress (text "abc")) (text "abc")).
  - apply zlib_roundtrip.
  - vm_compute. discriminate.
Defined.

(** *** The delta codec *)

Lemma delta_codec_element_types_witness :
  Forall (fun o => FileSyncCodec.is_wire_item o = true) [PyInt 0; PyStr "aGk="]
  /\ length [PyInt 0; PyStr "aGk="] = length [PyInt 0; PyBytes (text "hi")].
Proof.
  destruct (delta_codec_element_types [PyInt 0; PyBytes (text "hi")]
              [PyInt 0; PyStr "aGk="]) as [Hserialize _].
  apply Hserialize. reflexivity.
Defined.

(** *** A stream that ends early *)

(** The peer closes the connection after five bytes. *)
Lemma receive_message_truncated_witness :
  (receive_message zlib_decompress json_loads Node_init [firstn 5 hello_frame]).2 = None.
Proof.
  apply (receive_message_truncated zlib_decompress json_loads Node_init
           [firstn 5 hello_frame]).
  left. vm_compute. lia.
Defined.

(** *** The watcher *)

Definition synchronized_peer : registry :=
  {[ peer := {| is_synchronized := true; buffer := []; outbox := [] |} ]}.

Definition b_txt : file := {| f_data := text "only here"; f_mtime := 1 |}.

(** [b.txt], for which no signature is stored, is modified. *)
Lemma handle_modify_create_broadcast_witness :
  exists payload w' S,
    handle_modify_create_on_platform "/srv/sync/b.txt" "MODIFY" synchronized_peer local_world
    = (w', broadcast_update payload synchronized_peer)
    /\ load_signature_on_platform (relpath "/srv/sync/b.txt") w'
       = Ok (Some (blockchecksums (f_data b_txt)))
    /\ monitored w' = monitored local_world /\ log w' = log local_world
    /\ up_file_path payload = relpath "/srv/sync/b.txt"
    /\ up_action payload = Some "MODIFY"%string
    /\ up_mtime payload = Some (f_mtime b_txt)
    /\ up_is_full_file payload = Some (negb (signature_truthy None))
    /\ up_delta payload = Some S
    /\ FileSyncCodec.deserialize_delta_data S
       = Ok (if signature_truthy None
             then rsyncdelta (f_data b_txt) (default [] None)
             else [PyBytes (f_data b_txt)]).
Proof.
  apply (handle_modify_create_broadcast 8 false zlib_compress zlib_decompress zlib_roundtrip
           blockchecksums rsyncdelta rsyncdelta_items relpath blockchecksums_packable
           "/srv/sync/b.txt" "MODIFY" synchronized_peer local_world b_txt None);
    reflexivity.
Defined.

(** A modify event for a file that is gone by the time it is handled. *)
Lemma handle_modify_create_isolated_witness :
  handle_modify_create_on_platform "/srv/sync/gone.txt" "MODIFY" synchronized_peer local_world
  = (logging ERROR "Error handling file gone.txt" local_world, synchronized_peer).
Proof.
  apply (handle_modify_create_isolated 8 false zlib_compress zlib_decompress blockchecksums
           rsyncdelta relpath "/srv/sync/gone.txt" "MODIFY" synchronized_peer local_world).
  left. reflexivity.
Defined.

(** *** From one node to its peer *)


Definition f_new : file := {| f_data := text "new content"; f_mtime := 20 |}.

(** [f.txt] was [old] when its signature was stored and holds new content
    now. *)
Definition edited_world : world :=
  (save_signature_on_platform (blockchecksums (text "old")) "f.txt"
     {| monitored := {[ "f.txt"%string := f_new ]};
        signatures := ∅; tmpdir := ∅; ignore_events := ∅; log := [] |}).1.

(** The peer still holds [old]. *)
Lemma modified_file_reaches_peer_witness :
  exists payload sender' receiver',
    handle_modify_create_on_platform "/srv/sync/f.txt" "MODIFY" synchronized_peer edited_world
    = (sender', broadcast_update payload synchronized_peer)
    /\ up_is_full_file payload = Some false
    /\ handle_modification_update_on_platform quiet_env payload unsigned_world
       = (receiver', Ok tt)
    /\ monitored receiver' = <[relpath "/srv/sync/f.txt" := f_new]> (monitored unsigned_world)
    /\ load_signature_on_platform (relpath "/srv/sync/f.txt") receiver'
       = Ok (Some (blockchecksums (f_data f_new)))
    /\ log receiver' = log unsigned_world.
Proof.
  apply (modified_file_reaches_peer 8 false zlib_compress zlib_decompress zlib_roundtrip
           blockchecksums rsyncdelta rsyncdelta_items patchstream full_path relpath
           blockchecksums_packable "/srv/sync/f.txt" "MODIFY" synchronized_peer
           edited_world unsigned_world f_new
           {| f_data := text "old"; f_mtime := 10 |} (blockchecksums (text "old"))
           quiet_env).
  - right. reflexivity.
  - reflexivity.
  - vm_compute. reflexivity.
  - vm_compute. discriminate.
  - reflexivity.
  - reflexivity.
  - vm_compute. discriminate.
  - reflexivity.
  - reflexivity.
Defined.

Definition watching (w : world) : watcher_state :=
  {| ws_world := w; ws_nodes := synchronized_peer; last_trigger_time := 0 |}.




(** *** Echo and debounce *)

(** After the MODIFY of [f.txt] was handled, the events on [f.txt] that
    arrive 100 ms later are dropped. *)
Lemma update_echo_suppressed_witness :
  let st := {| ws_world :=
                 (handle_modification_update_on_platform quiet_env modify_payload
                    unsigned_world).1;
               ws_nodes := synchronized_peer; last_trigger_time := 0 |} in
  on_modified_on_platform (time_ns quiet_env + 100000000) (time_ns quiet_env + 100000000)
    (file_event "/srv/sync/f.txt") st = st
  /\ on_created_on_platform (time_ns quiet_env + 100000000)
       (file_event "/srv/sync/f.txt") st = st
  /\ on_deleted abspath relpath (time_ns quiet_env + 100000000) 30
       (file_event "/srv/sync/f.txt") st = st
  /\ on_moved abspath relpath (time_ns quiet_env + 100000000) 30
       (file_event "/srv/sync/f.txt") st = st.
Proof.
  apply (update_echo_suppressed 8 false zlib_compress zlib_decompress blockchecksums
           rsyncdelta patchstream full_path abspath relpath quiet_env modify_payload
           unsigned_world synchronized_peer 0 (time_ns quiet_env + 100000000)
           (time_ns quiet_env + 100000000) 30 (file_event "/srv/sync/f.txt")).
  - discriminate.
  - reflexivity.
  - reflexivity.
Defined.

(** [a.txt] is modified at 1 s; [b.txt] 50 ms later. *)
Lemma on_modified_debounce_witness :
  let st1 := on_modified_on_platform 1000000000 1000000000 (file_event "/srv/sync/a.txt")
               (watching local_world) in
  let st2 := on_modified_on_platform 1050000000 1050000000 (file_event "/srv/sync/b.txt")
               st1 in
  last_trigger_time st1 = 1000000000
  /\ ws_nodes st2 = ws_nodes st1
  /\ signatures (ws_world st2) = signatures (ws_world st1)
  /\ monitored (ws_world st2) = monitored (ws_world st1)
  /\ log (ws_world st2) = log (ws_world st1)
  /\ last_trigger_time st2 = 1000000000.
Proof.
  apply (on_modified_debounce 8 false zlib_compress zlib_decompress blockchecksums
           rsyncdelta abspath relpath 1000000000 1000000000 1050000000 1050000000
           (file_event "/srv/sync/a.txt") (file_event "/srv/sync/b.txt")
           (watching local_world)).
  - reflexivity.
  - reflexivity.
  - reflexivity.
  - vm_compute. discriminate.
Defined.

(** *** Updates that do not carry what they announce *)

(** A MODIFY of [f.txt] flagged as a full file whose delta is the block
    reference [0]. *)
Definition flagged_payload : update_payload :=
  {| up_file_path := "f.txt";
     up_action := Some "MODIFY"%string;
     up_mtime := Some 20%Q;
     up_delta := Some [PyInt 0];
     up_dest_path := None;
     up_is_full_file := Some true |}.

Lemma full_file_with_block_reference_witness :
  exists w',
    handle_modification_update_on_platform quiet_env flagged_payload unsigned_world
    = (w', Ok tt)
    /\ monitored w'
       = <["f.txt"%string := {| f_data := [];
                                f_mtime := seconds_of_ns (time_ns quiet_env) |}]>
           (monitored unsigned_world)
    /\ signatures w' = signatures unsigned_world
    /\ log w' = log unsigned_world ++ [(ERROR, "Error applying delta to f.txt"%string)].
Proof.
  apply (full_file_with_block_reference 8 false zlib_compress blockchecksums patchstream
           full_path quiet_env flagged_payload unsigned_world "MODIFY"
           [PyInt 0] [PyInt 0]).
  - right. reflexivity.
  - reflexivity.
  - reflexivity.
  - reflexivity.
  - reflexivity.
  - constructor. reflexivity.
Defined.



(** *** The manifest and the reconciliation *)






(** The peer announces an older [a.txt] with a signature that is not a
    compressed stream. *)
Definition undecodable_entry : manifest_entry :=
  {| me_mtime := 1; me_size := 5; me_signature := "AAAA" |}.

Definition undecodable_manifest : gmap string manifest_entry :=
  {[ "a.txt"%string := undecodable_entry ]}.

Definition undecodable_error : exn :=
  match remote_signature 8 false zlib_decompress undecodable_entry with
  | Raise e => e
  | Ok _ => ValueError
  end.

Lemma handle_directory_state_undecodable_witness :
  exists w' e',
    handle_directory_state_on_platform undecodable_manifest Node_init local_world
    = (w', Node_init, Raise e')
    /\ monitored w' = monitored local_world
    /\ log w' = log local_world.
Proof.
  apply (handle_directory_state_undecodable 8 false zlib_compress zlib_decompress
           zlib_roundtrip blockchecksums rsyncdelta blockchecksums_packable
           undecodable_manifest Node_init local_world "a.txt"
           {| f_data := text "hi"; f_mtime := 2 |} undecodable_entry undecodable_error).
  - reflexivity.
  - reflexivity.
  - reflexivity.
  - vm_compute. reflexivity.
Defined.





(** *** The listener *)

Definition peer_only : registry := {[ peer := Node_init ]}.

Abbreviation listen_for_messages_on_platform json_loads :=
  (listen_for_messages 8 false zlib_compress zlib_decompress json_loads blockchecksums
     rsyncdelta patchstream full_path).

(** The peer deleted [b.txt]. *)
Definition delete_message : message :=
  MODIFICATION_UPDATE
    {| up_file_path := "b.txt";
       up_action := Some "DELETE"%string;
       up_mtime := Some 30%Q;
       up_delta := None;
       up_dest_path := None;
       up_is_full_file := None |}.

(** JSON, as far as this example goes: an update is that deletion. *)
Definition delete_message_json : string :=
  "{" +:+ dq +:+ "type" +:+ dq +:+ ": " +:+ dq +:+ "MODIFICATION_UPDATE" +:+ dq +:+ ", "
      +:+ dq +:+ "payload" +:+ dq +:+ ": {" +:+ dq +:+ "file_path" +:+ dq +:+ ": "
      +:+ dq +:+ "b.txt" +:+ dq +:+ ", " +:+ dq +:+ "action" +:+ dq +:+ ": "
      +:+ dq +:+ "DELETE" +:+ dq +:+ ", " +:+ dq +:+ "mtime" +:+ dq +:+ ": 30.0}}".

Definition json_dumps_update (m : message) : bytes :=
  match m with
  | MODIFICATION_UPDATE _ => text delete_message_json
  | _ => json_dumps m
  end.

Definition json_loads_update (body : bytes) : result message :=
  if bytes_eqb body (text delete_message_json)
  then Ok delete_message
  else json_loads body.

Definition delete_frame : bytes :=
  match frame_message zlib_compress json_dumps_update delete_message with
  | Ok frame => frame
  | Raise _ => []
  end.

(** Two frames in two pieces, then the end of the stream. *)
Definition two_frames_socket : list bytes :=
  [firstn 5 (delete_frame ++ delete_frame); skipn 5 (delete_frame ++ delete_frame)].

Lemma listener_handles_stream_witness :
  exists w' r,
    session_handle_all 8 false zlib_compress zlib_decompress blockchecksums rsyncdelta
      patchstream full_path 0 (fun _ _ => quiet_env) [delete_message; delete_message]
      Node_init local_world = (w', Node_init, r)
    /\ listen_for_messages_on_platform json_loads_update 3 0 (fun _ _ => quiet_env) peer
         two_frames_socket peer_only local_world
       = Some (listener_exit peer r w', remove_node peer peer_only)
    /\ remove_node peer peer_only !! peer = None
    /\ forall other, other <> peer -> remove_node peer peer_only !! other = peer_only !! other.
Proof.
  apply (listener_handles_stream 8 false zlib_compress zlib_decompress zlib_roundtrip
           json_dumps_update json_loads_update blockchecksums rsyncdelta patchstream
           full_path (fun _ _ => quiet_env) peer [delete_message; delete_message]
           [delete_frame; delete_frame] Node_init two_frames_socket peer_only local_world).
  - repeat constructor.
  - repeat constructor.
  - repeat constructor.
  - repeat constructor; vm_compute; discriminate.
  - vm_compute. reflexivity.
  - reflexivity.
Defined.

(** JSON, as far as this example goes: a manifest that lists [a.txt] is
    the undecodable one,
    [{"type": "DIRECTORY_STATE", "payload": {"a.txt": {"mtime": 1.0, "size": 5, "signature": "AAAA"}}}]. *)
Definition undecodable_manifest_json : string :=
  "{" +:+ dq +:+ "type" +:+ dq +:+ ": " +:+ dq +:+ "DIRECTORY_STATE" +:+ dq +:+ ", "
      +:+ dq +:+ "payload" +:+ dq +:+ ": {" +:+ dq +:+ "a.txt" +:+ dq +:+ ": {"
      +:+ dq +:+ "mtime" +:+ dq +:+ ": 1.0, " +:+ dq +:+ "size" +:+ dq +:+ ": 5, "
      +:+ dq +:+ "signature" +:+ dq +:+ ": " +:+ dq +:+ "AAAA" +:+ dq +:+ "}}}".

Definition json_dumps_manifest (m : message) : bytes :=
  match m with
  | DIRECTORY_STATE payload =>
      match payload !! "a.txt"%string with
      | Some _ => text undecodable_manifest_json
      | None => json_dumps m
      end
  | _ => json_dumps m
  end.

Definition json_loads_manifest (body : bytes) : result message :=
  if bytes_eqb body (text undecodable_manifest_json)
  then Ok (DIRECTORY_STATE undecodable_manifest)
  else json_loads body.

Definition undecodable_frame : bytes :=
  match frame_message zlib_compress json_dumps_manifest
          (DIRECTORY_STATE undecodable_manifest) with
  | Ok frame => frame
  | Raise _ => []
  end.

(** The undecodable manifest arrives, with another frame behind it. *)
Lemma listener_ends_on_bad_manifest_witness :
  exists w',
    listen_for_messages_on_platform json_loads_manifest 5 0 (fun _ _ => quiet_env) peer
      [undecodable_frame ++ hello_frame] peer_only local_world
    = Some (w', remove_node peer peer_only)
    /\ monitored w' = monitored local_world
    /\ log w' = log local_world
                ++ [(ERROR, "Error in listener for node " +:+ address peer);
                    (ERROR, "Error connecting to at "%string)].
Proof.
  apply (listener_ends_on_bad_manifest 8 false zlib_compress zlib_decompress zlib_roundtrip
           json_dumps_manifest json_loads_manifest blockchecksums rsyncdelta patchstream
           full_path blockchecksums_packable (fun _ _ => quiet_env) peer
           undecodable_manifest undecodable_frame hello_frame Node_init
           [undecodable_frame ++ hello_frame] peer_only local_world "a.txt"
           {| f_data := text "hi"; f_mtime := 2 |} undecodable_entry undecodable_error
           4%nat).
  - vm_compute. reflexivity.
  - vm_compute. reflexivity.
  - repeat constructor; vm_compute; discriminate.
  - reflexivity.
  - reflexivity.
  - reflexivity.
  - reflexivity.
  - reflexivity.
  - vm_compute. reflexivity.
Defined.

End Reference.
